(** * The 10k Perovskites dashboard: a shallow embedding of [dashboard_app.py]

    The program issues a fixed battery of read-only SQL queries against a
    warehouse, resolves one thumbnail image through two external services
    and assembles everything into one JSON document.  The warehouse tables
    are modelled as lists of rows, each query as a function over them that
    follows its SQL text clause by clause, the external services as
    functions of an environment, and Python exceptions as an error
    result. *)

From stdpp Require Import base option gmap strings.
From Stdlib Require Import ZArith List String Ascii Lia Bool Sorted Permutation.
From Stdlib.Strings Require Import Byte.
Import ListNotations.
Local Open Scope Z_scope.
Local Open Scope string_scope.

(** ** Exceptions *)

(** A Python call either returns a value or raises; [Err] carries [str(e)]. *)
Inductive result (A : Type) : Type :=
| Ok (a : A)
| Err (msg : string).
Arguments Ok {A} a.
Arguments Err {A} msg.

Definition rbind {A B} (r : result A) (k : A -> result B) : result B :=
  match r with
  | Ok a => k a
  | Err e => Err e
  end.

(** ** Strings

    A string is a sequence of characters, one element per character, over
    the code points U+0000 to U+00FF; text outside this range is not
    represented.  [LIKE], [LOWER] and [endswith] work character by
    character. *)

Definition chars (s : string) : list ascii := list_ascii_of_string s.

Fixpoint starts_with (p s : list ascii) : bool :=
  match p, s with
  | [], _ => true
  | c :: p', d :: s' => Ascii.eqb c d && starts_with p' s'
  | _ :: _, [] => false
  end.

(** [str.endswith]: case-sensitive comparison of the last characters, read
    from the end. *)
Definition endswith (s suffix : string) : bool :=
  starts_with (rev (chars suffix)) (rev (chars s)).

(** The lower-case mapping of one character: [A]-[Z] and the upper-case
    letters U+00C0 to U+00DE (all but the multiplication sign U+00D7) move
    32 places up; every other character is its own lower case. *)
Definition lower_ascii (c : ascii) : ascii :=
  let n := nat_of_ascii c in
  if ((65 <=? n) && (n <=? 90))%nat then ascii_of_nat (n + 32)
  else if ((192 <=? n) && (n <=? 222) && negb (n =? 215))%nat then ascii_of_nat (n + 32)
  else c.

(** SQL [LOWER]. *)
Fixpoint LOWER (s : string) : string :=
  match s with
  | EmptyString => EmptyString
  | String c s' => String (lower_ascii c) (LOWER s')
  end.

(** SQL [LIKE]: [%] matches any run of characters, [_] matches exactly one
    character, every other pattern character matches itself. *)
Fixpoint like_chars (p : list ascii) : list ascii -> bool :=
  match p with
  | [] => fun s => match s with [] => true | _ :: _ => false end
  | c :: p' =>
      if Ascii.eqb c "%" then
        fix star (s : list ascii) : bool :=
          like_chars p' s || match s with [] => false | _ :: s' => star s' end
      else if Ascii.eqb c "_" then
        fun s => match s with [] => false | _ :: s' => like_chars p' s' end
      else
        fun s => match s with
                 | [] => false
                 | d :: s' => Ascii.eqb c d && like_chars p' s'
                 end
  end.

Definition LIKE (s pattern : string) : bool := like_chars (chars pattern) (chars s).

(** Plain substring containment, the reading of "the label contains the
    substring": no character of [sub] is a wildcard. *)
Fixpoint contains_substring (sub s : string) : bool :=
  String.prefix sub s ||
  match s with
  | EmptyString => false
  | String _ s' => contains_substring sub s'
  end.

(** ** SQL values *)

(** A nullable column is an [option]; a comparison with NULL is not TRUE,
    so a [WHERE] conjunct over a NULL drops the row. *)
Definition sql_eq (a : option string) (b : string) : bool :=
  match a with
  | Some x => String.eqb x b
  | None => false
  end.

Definition sql_like (a : option string) (pattern : string) : bool :=
  match a with
  | Some x => LIKE x pattern
  | None => false
  end.

Definition sql_lower (a : option string) : option string :=
  match a with
  | Some x => Some (LOWER x)
  | None => None
  end.

Definition is_not_null {A} (a : option A) : bool :=
  match a with
  | Some _ => true
  | None => false
  end.

Definition COALESCE {A} (a : option A) (d : A) : A :=
  match a with
  | Some x => x
  | None => d
  end.

Definition COUNT {A} (rows : list A) : Z := Z.of_nat (List.length rows).

Fixpoint sumZ (l : list Z) : Z :=
  match l with
  | [] => 0
  | x :: l' => x + sumZ l'
  end.

(** SQL [SUM]: NULL over no rows. *)
Definition SUM (l : list Z) : option Z :=
  match l with
  | [] => None
  | _ :: _ => Some (sumZ l)
  end.

(** [COUNT(DISTINCT x)] and [GROUP BY]: the distinct values, in order of
    first appearance. *)
Fixpoint distinctZ (l : list Z) : list Z :=
  match l with
  | [] => []
  | x :: l' => x :: List.filter (fun y => negb (Z.eqb y x)) (distinctZ l')
  end.

Section Grouping.
Context {K : Type} (eqk : K -> K -> bool).

(** One more row for key [k]: its group's count goes up, or a new group
    is opened at the end. *)
Fixpoint bump (k : K) (g : list (K * Z)) : list (K * Z) :=
  match g with
  | [] => [(k, 1)]
  | (k', n) :: g' => if eqk k k' then (k', n + 1) :: g' else (k', n) :: bump k g'
  end.

(** [SELECT k, COUNT( * ) ... GROUP BY k]. *)
Definition group_count (keys : list K) : list (K * Z) :=
  fold_left (fun g k => bump k g) keys [].
End Grouping.

Section Ordering.
Context {A : Type} (before : A -> A -> bool).

Fixpoint insert_by (x : A) (l : list A) : list A :=
  match l with
  | [] => [x]
  | y :: l' => if before y x then y :: insert_by x l' else x :: y :: l'
  end.

(** [ORDER BY]: a stable insertion sort; [before y x] says that [y] may
    stay in front of a later row [x]. *)
Definition order_by (l : list A) : list A :=
  fold_left (fun acc x => insert_by x acc) l [].
End Ordering.

Definition LIMIT {A} (n : nat) (rows : list A) : list A := firstn n rows.

Fixpoint non_null {A} (l : list (option A)) : list A :=
  match l with
  | [] => []
  | Some x :: l' => x :: non_null l'
  | None :: l' => non_null l'
  end.

(** The rows of [l LEFT JOIN r ON on] for one left row: one per match, or
    the row padded with NULLs when nothing on the right matches. *)
Definition left_join_rows {A B} (on : A -> B -> bool) (a : A) (r : list B)
  : list (A * option B) :=
  match List.filter (on a) r with
  | [] => [(a, None)]
  | b :: bs => List.map (fun b' => (a, Some b')) (b :: bs)
  end.

Definition left_join {A B} (on : A -> B -> bool) (l : list A) (r : list B)
  : list (A * option B) :=
  flat_map (fun a => left_join_rows on a r) l.

(** [l JOIN r ON on]. *)
Definition inner_join {A B} (on : A -> B -> bool) (l : list A) (r : list B)
  : list (A * B) :=
  flat_map (fun a => List.map (fun b => (a, b)) (List.filter (on a) r)) l.

(** ** Timestamps *)

(** A TIMESTAMP is a count of microseconds since the epoch, a DATE a count
    of days since the epoch; [DATE(ts)] is the UTC calendar day. *)
Definition DATE (ts : Z) : Z := ts / 86400000000.

Definition digit_of (c : ascii) : option Z :=
  let n := nat_of_ascii c in
  if ((48 <=? n) && (n <=? 57))%nat then Some (Z.of_nat (n - 48)) else None.

Fixpoint take_digits (n : nat) (acc : Z) (s : list ascii) : option (Z * list ascii) :=
  match n with
  | O => Some (acc, s)
  | S n' =>
      match s with
      | c :: s' =>
          match digit_of c with
          | Some d => take_digits n' (acc * 10 + d) s'
          | None => None
          end
      | [] => None
      end
  end.

Definition expect (c : ascii) (s : list ascii) : option (list ascii) :=
  match s with
  | c' :: s' => if Ascii.eqb c c' then Some s' else None
  | [] => None
  end.

Definition is_leap (y : Z) : bool :=
  (y mod 4 =? 0)%Z && (negb (y mod 100 =? 0)%Z || (y mod 400 =? 0)%Z).

Definition days_in_month (y m : Z) : Z :=
  if (m =? 2)%Z then (if is_leap y then 29 else 28)
  else if ((m =? 4) || (m =? 6) || (m =? 9) || (m =? 11))%Z then 30
  else 31.

(** Days from 1970-01-01 to the given proleptic Gregorian date. *)
Definition days_from_civil (y m d : Z) : Z :=
  let y' := if (m <=? 2)%Z then y - 1 else y in
  let era := y' / 400 in
  let yoe := y' - era * 400 in
  let doy := (153 * (if (m <=? 2)%Z then m + 9 else m - 3) + 2) / 5 + d - 1 in
  let doe := yoe * 365 + yoe / 4 - yoe / 100 + doy in
  era * 146097 + doe - 719468.

(** The common prefix [%Y-%m-%dT%H:%M:%S] of both formats, zero padded:
    the seconds since the epoch of the civil time read, and what follows. *)
Definition parse_civil (s : list ascii) : option (Z * list ascii) :=
  '(y, s) ← take_digits 4 0 s; s ← expect "-" s;
  '(mo, s) ← take_digits 2 0 s; s ← expect "-" s;
  '(d, s) ← take_digits 2 0 s; s ← expect "T" s;
  '(h, s) ← take_digits 2 0 s; s ← expect ":" s;
  '(mi, s) ← take_digits 2 0 s; s ← expect ":" s;
  '(se, s) ← take_digits 2 0 s;
  if ((1 <=? mo) && (mo <=? 12) && (1 <=? d) && (d <=? days_in_month y mo)
      && (h <=? 23) && (mi <=? 59) && (se <=? 59))%Z
  then Some (days_from_civil y mo d * 86400 + h * 3600 + mi * 60 + se, s)
  else None.

(** The digits after the decimal point, as microseconds; digits beyond the
    sixth are dropped. *)
Fixpoint take_fraction (scale acc : Z) (s : list ascii) : Z * list ascii :=
  match s with
  | c :: s' =>
      match digit_of c with
      | Some d => take_fraction (scale / 10) (acc + d * (scale / 10)) s'
      | None => (acc, s)
      end
  | [] => (acc, s)
  end.

(** [%E*S] after the whole seconds: an optional fraction. *)
Definition parse_subseconds (s : list ascii) : option (Z * list ascii) :=
  match s with
  | c :: s' =>
      if Ascii.eqb c "." then
        match s' with
        | c' :: _ => if is_not_null (digit_of c') then Some (take_fraction 1000000 0 s') else None
        | [] => None
        end
      else Some (0, s)
  | [] => Some (0, s)
  end.

(** [%Ez]: [Z], or a signed [hh:mm] offset; the offset in seconds. *)
Definition parse_zone (s : list ascii) : option (Z * list ascii) :=
  match s with
  | c :: s' =>
      if Ascii.eqb c "Z" || Ascii.eqb c "z" then Some (0, s')
      else if Ascii.eqb c "+" || Ascii.eqb c "-" then
        '(h, s1) ← take_digits 2 0 s'; s2 ← expect ":" s1;
        '(m, s3) ← take_digits 2 0 s2;
        Some ((if Ascii.eqb c "-" then -1 else 1) * (h * 3600 + m * 60), s3)
      else None
  | [] => None
  end.

Definition at_end {A} (r : A * list ascii) : option A :=
  match snd r with
  | [] => Some (fst r)
  | _ :: _ => None
  end.

Definition parse_zoned (s : string) : option Z :=
  '(secs, s1) ← parse_civil (chars s);
  '(micros, s2) ← parse_subseconds s1;
  off ← parse_zone s2 ≫= at_end;
  Some ((secs - off) * 1000000 + micros).

Definition parse_plain (s : string) : option Z :=
  secs ← parse_civil (chars s) ≫= at_end;
  Some (secs * 1000000).

Definition FORMAT_ZONED : string := "%Y-%m-%dT%H:%M:%E*S%Ez".
Definition FORMAT_PLAIN : string := "%Y-%m-%dT%H:%M:%S".

(** The warehouse's timestamp parser on the two format strings the program
    uses; [None] is a parse failure. *)
Definition bq_parse_timestamp (format s : string) : option Z :=
  if String.eqb format FORMAT_ZONED then parse_zoned s
  else if String.eqb format FORMAT_PLAIN then parse_plain s
  else None.

(** ** Base64 *)

Definition b64_alphabet : list ascii :=
  chars "ABCDEFGHIJKLMNOPQRSTUVWXYZabcdefghijklmnopqrstuvwxyz0123456789+/".

Definition b64_char (n : Z) : ascii := nth (Z.to_nat (Z.land n 63)) b64_alphabet "="%char.

Fixpoint b64encode_chars (bs : list Z) : list ascii :=
  match bs with
  | [] => []
  | [a] =>
      let n := Z.shiftl a 16 in
      [b64_char (Z.shiftr n 18); b64_char (Z.shiftr n 12); "="%char; "="%char]
  | [a; b] =>
      let n := Z.lor (Z.shiftl a 16) (Z.shiftl b 8) in
      [b64_char (Z.shiftr n 18); b64_char (Z.shiftr n 12); b64_char (Z.shiftr n 6); "="%char]
  | a :: b :: c :: rest =>
      let n := Z.lor (Z.lor (Z.shiftl a 16) (Z.shiftl b 8)) c in
      b64_char (Z.shiftr n 18) :: b64_char (Z.shiftr n 12)
        :: b64_char (Z.shiftr n 6) :: b64_char n :: b64encode_chars rest
  end.

(** [base64.b64encode(content).decode('utf-8')]. *)
Definition b64encode (content : list byte) : string :=
  string_of_list_ascii
    (b64encode_chars (List.map (fun b => Z.of_N (Byte.to_N b)) content)).

(** ** The warehouse tables *)

(** The columns the queries read.  Row identifiers are integers; every
    other column is nullable. *)
Record sample := {
  s_id : Z;
  s_sample_name : option string;
  s_sample_type : option string;
  s_description : option string;
  s_date_created : option string;
  s_owner_orcid : option string;
  s_project_id : option string;
}.

Record dataset := {
  d_id : Z;
  d_unique_id : option string;
  d_measurement : option string;
  d_file_to_upload : option string;
  d_dataset_name : option string;
  d_source_folder : option string;
  d_project_id : option string;
}.

Record datasetsamplelink := {
  dsl_dataset_id : Z;
  dsl_sample_id : Z;
}.

Record samplelink := {
  sl_sample_id : Z;
  sl_parent_sample_id : Z;
}.

Record warehouse := {
  sample_table : list sample;
  dataset_table : list dataset;
  datasetsamplelink_table : list datasetsamplelink;
  samplelink_table : list samplelink;
}.

Definition PROJECT_ID : string := "10k_perovskites".

(** ** Query results *)

Record sample_types_row := {
  st_sample_type : string;
  st_count : Z;
}.

Record dataset_types_row := {
  dt_measurement : string;
  dt_count : Z;
}.

Record samples_time_row := {
  date : Z;
  daily_count : Z;
  cumulative_count : Z;
}.

Record precursor_row := {
  thin_film_id : Z;
  thin_film_name : option string;
  precursor_name : option string;
  precursor_description : option string;
}.

Record thumbnail_row := {
  t_sample_id : Z;
  t_sample_name : option string;
  t_description : option string;
  t_date_created : option string;
  t_owner_orcid : option string;
  t_sample_type : option string;
  t_file_to_upload : option string;
  t_dataset_name : option string;
  t_source_folder : option string;
  t_dataset_id : Z;
  t_unique_id : option string;
  t_sample_date : option Z;
  t_is_today : bool;
}.

(** The [thumbnail_of_day] dict: the query's row plus the [image_data] key
    that [get_dashboard_data] sets on both branches. *)
Record thumbnail_of_day_data := {
  row : thumbnail_row;
  image_data : option string;
}.

(** The dict that [get_dashboard_data] returns. *)
Record dashboard_data := {
  thin_films_count : Z;
  spectra_count : Z;
  total_datasets : Z;
  spin_runs_count : Z;
  sample_well_count : Z;
  uvvis_datasets_count : Z;
  sample_types : list sample_types_row;
  dataset_types : list dataset_types_row;
  samples_time : list samples_time_row;
  thin_films_precursors : list precursor_row;
  thumbnail_of_day : option thumbnail_of_day_data;
}.

(** ** External services *)

Record response := {
  status_code : Z;
  content : list byte;
  content_type_header : option string;
}.

(** What a request sees outside the program: the warehouse tables, the
    warehouse's clock, the download-link service (a dict in insertion
    order, or an exception), the HTTP fetch (a response, or an exception)
    and the server's clock. *)
Record environment := {
  bq : warehouse;
  CURRENT_DATE : Z;
  get_dataset_download_links : option string -> result (list (string * string));
  requests_get : string -> result response;
  datetime_now_isoformat : string;
}.

(** ** JSON *)

#[local] Unset Elimination Schemes.
Inductive json : Type :=
| JNull
| JBool (b : bool)
| JInt (n : Z)
| JStr (s : string)
| JDate (days : Z)
| JArr (items : list json)
| JObj (fields : list (string * json)).
#[local] Set Elimination Schemes.

Definition json_opt_str (o : option string) : json :=
  match o with
  | Some s => JStr s
  | None => JNull
  end.

Definition json_opt_date (o : option Z) : json :=
  match o with
  | Some d => JDate d
  | None => JNull
  end.

Definition keys (j : json) : list string :=
  match j with
  | JObj fields => List.map fst fields
  | _ => []
  end.

Fixpoint assoc (k : string) (fields : list (string * json)) : option json :=
  match fields with
  | [] => None
  | (k', v) :: fields' => if String.eqb k k' then Some v else assoc k fields'
  end.

Definition field (k : string) (j : json) : option json :=
  match j with
  | JObj fields => assoc k fields
  | _ => None
  end.

(** ** The program *)

Section Dashboard.

(** The warehouse's [PARSE_TIMESTAMP(format, string)]; [None] is a parse
    failure.  The queries are total in it, [bq_parse_timestamp] is the
    instance used on concrete tables. *)
Variable PARSE_TIMESTAMP : string -> string -> option Z.

(** [SAFE.PARSE_TIMESTAMP]: NULL on a NULL input or a parse failure. *)
Definition SAFE_PARSE_TIMESTAMP (format : string) (v : option string) : option Z :=
  match v with
  | Some s => PARSE_TIMESTAMP format s
  | None => None
  end.

(** [PARSE_TIMESTAMP] without [SAFE.]: NULL on a NULL input, and a parse
    failure fails the whole query; the message stands for the warehouse's
    error text. *)
Definition STRICT_PARSE_TIMESTAMP (format : string) (v : option string)
  : result (option Z) :=
  match v with
  | Some s =>
      match PARSE_TIMESTAMP format s with
      | Some ts => Ok (Some ts)
      | None => Err ("Failed to parse input string " ++ s)
      end
  | None => Ok None
  end.

Definition in_project_sample (s : sample) : bool := sql_eq (s_project_id s) PROJECT_ID.
Definition in_project_dataset (d : dataset) : bool := sql_eq (d_project_id d) PROJECT_ID.

(** *** 1. Total thin films (lines 121-127) *)
Definition is_thin_film (s : sample) : bool :=
  in_project_sample s && sql_eq (sql_lower (s_sample_type s)) "thin film".

Definition query_thin_films (wh : warehouse) : Z :=
  COUNT (List.filter is_thin_film (sample_table wh)).

(** *** 2. Sample types breakdown (lines 130-139)

    [GROUP BY sample_type] names the select-list alias, so the rows are
    grouped by [COALESCE(sample_type, 'Unknown')]: NULL and a stored
    ['Unknown'] fall into one group.  Ties in [ORDER BY count DESC] keep the
    order in which the groups first appear. *)
Definition by_count_desc {K} (a b : K * Z) : bool := (snd b <=? snd a)%Z.

Definition sample_type_label (s : sample) : string := COALESCE (s_sample_type s) "Unknown".

Definition query_sample_types (wh : warehouse) : list sample_types_row :=
  List.map (fun g => {| st_sample_type := fst g; st_count := snd g |})
    (order_by by_count_desc
       (group_count String.eqb
          (List.map sample_type_label (List.filter in_project_sample (sample_table wh))))).

(** *** 3. Specific dataset counts (lines 142-164) *)
Definition measurement_like (pattern : string) (d : dataset) : bool :=
  in_project_dataset d && sql_like (sql_lower (d_measurement d)) pattern.

Definition query_spin_runs (wh : warehouse) : Z :=
  COUNT (List.filter (measurement_like "%spin%") (dataset_table wh)).

Definition query_sample_well (wh : warehouse) : Z :=
  COUNT (List.filter (measurement_like "%sample well%") (dataset_table wh)).

Definition query_uvvis_datasets (wh : warehouse) : Z :=
  COUNT (List.filter (measurement_like "%oospec%") (dataset_table wh)).

(** Dataset types breakdown (lines 167-177), grouped by the alias
    [COALESCE(measurement, 'Unknown')] in the same way; [dataset_groups] is
    the grouped and ordered result before [LIMIT 10]. *)
Definition measurement_label (d : dataset) : string := COALESCE (d_measurement d) "Unknown".

Definition dataset_groups (wh : warehouse) : list (string * Z) :=
  order_by by_count_desc
    (group_count String.eqb
       (List.map measurement_label (List.filter in_project_dataset (dataset_table wh)))).

Definition query_dataset_types (wh : warehouse) : list dataset_types_row :=
  List.map (fun g => {| dt_measurement := fst g; dt_count := snd g |})
    (LIMIT 10 (dataset_groups wh)).

(** *** 4. Spectra count (lines 181-195) *)
Definition spectra_join (wh : warehouse) : list (dataset * option datasetsamplelink) :=
  List.filter (fun r => measurement_like "%pollux_oospec%" (fst r))
    (left_join (fun d l => (d_id d =? dsl_dataset_id l)%Z)
       (dataset_table wh) (datasetsamplelink_table wh)).

(** [COUNT(DISTINCT dsl.sample_id)] of the group [d.id = id]. *)
Definition sample_count (joined : list (dataset * option datasetsamplelink)) (id : Z) : Z :=
  COUNT (distinctZ
           (non_null
              (List.map (fun r => option_map dsl_sample_id (snd r))
                 (List.filter (fun r => (d_id (fst r) =? id)%Z) joined)))).

Definition query_spectra (wh : warehouse) : option Z :=
  let joined := spectra_join wh in
  SUM (List.map (fun id => sample_count joined id * 8)
         (distinctZ (List.map (fun r => d_id (fst r)) joined))).

(** *** 5. Cumulative thin films over time (lines 198-230) *)
Definition in_daily_counts (s : sample) : bool :=
  in_project_sample s && sql_eq (s_sample_type s) "thin film"
  && is_not_null (s_date_created s).

Definition created_timestamp (s : sample) : option Z :=
  match SAFE_PARSE_TIMESTAMP FORMAT_ZONED (s_date_created s) with
  | Some ts => Some ts
  | None => SAFE_PARSE_TIMESTAMP FORMAT_PLAIN (s_date_created s)
  end.

(** The samples the time series counts: in the project, typed exactly
    ['thin film'], with a creation timestamp that one of the two formats
    parses. *)
Definition is_dated_thin_film (s : sample) : bool :=
  in_daily_counts s && is_not_null (created_timestamp s).

(** The [date] column of the CTE [daily_counts]. *)
Definition daily_counts (wh : warehouse) : list (option Z) :=
  List.map (fun s => option_map DATE (created_timestamp s))
    (List.filter in_daily_counts (sample_table wh)).

Definition by_date_asc (a b : Z * Z) : bool := (fst a <=? fst b)%Z.

(** The CTE [daily_totals]: [(date, daily_count)], ordered by date. *)
Definition daily_totals (wh : warehouse) : list (Z * Z) :=
  order_by by_date_asc (group_count Z.eqb (non_null (daily_counts wh))).

(** [SUM(daily_count) OVER (ORDER BY date)] over rows of distinct dates. *)
Fixpoint running_total (acc : Z) (l : list (Z * Z)) : list samples_time_row :=
  match l with
  | [] => []
  | (d, n) :: l' =>
      {| date := d; daily_count := n; cumulative_count := acc + n |}
        :: running_total (acc + n) l'
  end.

Definition query_samples_time (wh : warehouse) : list samples_time_row :=
  running_total 0 (daily_totals wh).

(** *** 6. Total dataset count (lines 234-239) *)
Definition query_dataset_count (wh : warehouse) : Z :=
  COUNT (List.filter in_project_dataset (dataset_table wh)).

(** *** 7. Thin films with their parent precursor solutions (lines 242-264) *)
Definition precursor_join (wh : warehouse)
  : list ((sample * option samplelink) * option sample) :=
  left_join
    (fun (r : sample * option samplelink) (ps : sample) =>
       match snd r with
       | Some sl => (sl_parent_sample_id sl =? s_id ps)%Z
       | None => false
       end)
    (left_join (fun tf sl => (s_id tf =? sl_sample_id sl)%Z)
       (List.filter is_thin_film (sample_table wh)) (samplelink_table wh))
    (sample_table wh).

Definition is_precursor (r : (sample * option samplelink) * option sample) : bool :=
  match snd r with
  | Some ps => sql_eq (s_sample_type ps) "precursor solution"
  | None => false
  end.

Definition precursor_select (r : (sample * option samplelink) * option sample)
  : precursor_row :=
  {| thin_film_id := s_id (fst (fst r));
     thin_film_name := s_sample_name (fst (fst r));
     precursor_name := snd r ≫= s_sample_name;
     precursor_description := snd r ≫= s_description |}.

Definition query_thin_films_precursors (wh : warehouse) : list precursor_row :=
  LIMIT 500 (List.map precursor_select (List.filter is_precursor (precursor_join wh))).

(** *** 8. Thumbnail of the day (lines 267-293)

    Among rows with the same timestamp the first in join order is kept. *)
Definition thumbnail_join (wh : warehouse)
  : list ((sample * datasetsamplelink) * dataset) :=
  inner_join (fun r d => (dsl_dataset_id (snd r) =? d_id d)%Z)
    (inner_join (fun s l => (s_id s =? dsl_sample_id l)%Z)
       (sample_table wh) (datasetsamplelink_table wh))
    (dataset_table wh).

Definition thumbnail_where (r : (sample * datasetsamplelink) * dataset) : bool :=
  in_project_sample (fst (fst r))
  && sql_like (sql_lower (d_measurement (snd r))) "%sample well%"
  && is_not_null (d_file_to_upload (snd r))
  && is_not_null (s_date_created (fst (fst r))).

(** The select list of one row, with its [ORDER BY] key in front; both
    go through [PARSE_TIMESTAMP] without [SAFE.]. *)
Definition thumbnail_select (today : Z) (r : (sample * datasetsamplelink) * dataset)
  : result (option Z * thumbnail_row) :=
  let s := fst (fst r) in
  let d := snd r in
  rbind (STRICT_PARSE_TIMESTAMP FORMAT_ZONED (s_date_created s))
    (fun ts =>
       Ok (ts,
           {| t_sample_id := s_id s;
              t_sample_name := s_sample_name s;
              t_description := s_description s;
              t_date_created := s_date_created s;
              t_owner_orcid := s_owner_orcid s;
              t_sample_type := s_sample_type s;
              t_file_to_upload := d_file_to_upload d;
              t_dataset_name := d_dataset_name d;
              t_source_folder := d_source_folder d;
              t_dataset_id := d_id d;
              t_unique_id := d_unique_id d;
              t_sample_date := option_map DATE ts;
              t_is_today :=
                match option_map DATE ts with
                | Some day => (day =? today)%Z
                | None => false
                end |})).

(** Evaluate every row; the first failure fails the query. *)
Fixpoint collect {A B} (f : A -> result B) (l : list A) : result (list B) :=
  match l with
  | [] => Ok []
  | x :: l' => rbind (f x) (fun y => rbind (collect f l') (fun ys => Ok (y :: ys)))
  end.

(** [ORDER BY ts DESC], NULLs last. *)
Definition newest_first (a b : option Z * thumbnail_row) : bool :=
  match fst a, fst b with
  | Some x, Some y => (y <=? x)%Z
  | Some _, None => true
  | None, Some _ => false
  | None, None => true
  end.

Definition query_thumbnail_of_day (wh : warehouse) (today : Z)
  : result (list thumbnail_row) :=
  rbind (collect (thumbnail_select today)
           (List.filter thumbnail_where (thumbnail_join wh)))
    (fun rows => Ok (List.map snd (LIMIT 1 (order_by newest_first rows)))).

(** *** The thumbnail resolver (lines 52-81) *)

(** The list comprehension over [download_links.items()]. *)
Definition jpeg_urls (download_links : list (string * string)) : list string :=
  List.map snd (List.filter (fun kv => endswith (fst kv) ".jpeg") download_links).

Definition data_uri (r : response) : string :=
  "data:" ++ COALESCE (content_type_header r) "image/jpeg" ++ ";base64,"
    ++ b64encode (content r).

(** Every exception inside the [try] is caught and turned into [None];
    indexing an empty list with [[0]] is one of them. *)
Definition get_thumbnail_image_data (env : environment) (dataset_id : option string)
  : option string :=
  match get_dataset_download_links env dataset_id with
  | Err _ => None
  | Ok download_links =>
      match jpeg_urls download_links with
      | [] => None
      | download_url :: _ =>
          if String.eqb download_url "" then None
          else
            match requests_get env download_url with
            | Err _ => None
            | Ok r => if (status_code r =? 200)%Z then Some (data_uri r) else None
            end
      end
  end.

(** Python truthiness of [image_data]: [None] and the empty string are
    false. *)
Definition truthy (image : option string) : bool :=
  match image with
  | Some s => negb (String.eqb s "")
  | None => false
  end.

(** *** The aggregation (lines 117-319) *)

Definition NA_TO_INT_ERROR : string :=
  "int() argument must be a string, a bytes-like object or a real number, not 'NAType'".

(** [int(spectra_result) if spectra_result is not None else 0] (line 195).
    The cell of a NULL total comes out of the data frame as the frame's
    missing-value marker, which is not [None]: the guard lets it through,
    [int] raises on it, and the [else 0] branch is never taken.  The
    message is the one [int] gives for [pd.NA]. *)
Definition int_of_cell (cell : option Z) : result Z :=
  match cell with
  | Some n => Ok n
  | None => Err NA_TO_INT_ERROR
  end.

(** Two steps can raise: the conversion of the spectra total, and after it
    the thumbnail query. *)
Definition get_dashboard_data (env : environment) : result dashboard_data :=
  let wh := bq env in
  let thin_films_count := query_thin_films wh in
  let df_sample_types := query_sample_types wh in
  let spin_runs_count := query_spin_runs wh in
  let sample_well_count := query_sample_well wh in
  let uvvis_datasets_count := query_uvvis_datasets wh in
  let df_dataset_types := query_dataset_types wh in
  let spectra_result := query_spectra wh in
  rbind (int_of_cell spectra_result) (fun spectra_count =>
  let df_samples_time := query_samples_time wh in
  let total_datasets := query_dataset_count wh in
  let df_thin_films_precursors := query_thin_films_precursors wh in
  rbind (query_thumbnail_of_day wh
           (CURRENT_DATE env))
    (fun df_thumbnail_of_day =>
       let thumbnail_of_day_data :=
         match df_thumbnail_of_day with
         | [] => None
         | first :: _ =>
             let image := get_thumbnail_image_data env (t_unique_id first) in
             Some {| row := first;
                     image_data := if truthy image then image else None |}
         end in
       Ok {| thin_films_count := thin_films_count;
             spectra_count := spectra_count;
             total_datasets := total_datasets;
             spin_runs_count := spin_runs_count;
             sample_well_count := sample_well_count;
             uvvis_datasets_count := uvvis_datasets_count;
             sample_types := df_sample_types;
             dataset_types := df_dataset_types;
             samples_time := df_samples_time;
             thin_films_precursors := df_thin_films_precursors;
             thumbnail_of_day := thumbnail_of_day_data |})).

(** *** The JSON endpoint (lines 333-344) *)
Definition sample_types_json (r : sample_types_row) : json :=
  JObj [("sample_type", JStr (st_sample_type r)); ("count", JInt (st_count r))].

Definition dataset_types_json (r : dataset_types_row) : json :=
  JObj [("measurement", JStr (dt_measurement r)); ("count", JInt (dt_count r))].

Definition samples_time_json (r : samples_time_row) : json :=
  JObj [("date", JDate (date r)); ("daily_count", JInt (daily_count r));
        ("cumulative_count", JInt (cumulative_count r))].

Definition precursor_json (r : precursor_row) : json :=
  JObj [("thin_film_id", JInt (thin_film_id r));
        ("thin_film_name", json_opt_str (thin_film_name r));
        ("precursor_name", json_opt_str (precursor_name r));
        ("precursor_description", json_opt_str (precursor_description r))].

Definition thumbnail_json (t : thumbnail_of_day_data) : json :=
  let r := row t in
  JObj [("sample_id", JInt (t_sample_id r));
        ("sample_name", json_opt_str (t_sample_name r));
        ("description", json_opt_str (t_description r));
        ("date_created", json_opt_str (t_date_created r));
        ("owner_orcid", json_opt_str (t_owner_orcid r));
        ("sample_type", json_opt_str (t_sample_type r));
        ("file_to_upload", json_opt_str (t_file_to_upload r));
        ("dataset_name", json_opt_str (t_dataset_name r));
        ("source_folder", json_opt_str (t_source_folder r));
        ("dataset_id", JInt (t_dataset_id r));
        ("unique_id", json_opt_str (t_unique_id r));
        ("sample_date", json_opt_date (t_sample_date r));
        ("is_today", JBool (t_is_today r));
        ("image_data", json_opt_str (image_data t))].

(** The returned dict, in insertion order. *)
Definition data_json (d : dashboard_data) : list (string * json) :=
  [("thin_films_count", JInt (thin_films_count d));
   ("spectra_count", JInt (spectra_count d));
   ("total_datasets", JInt (total_datasets d));
   ("spin_runs_count", JInt (spin_runs_count d));
   ("sample_well_count", JInt (sample_well_count d));
   ("uvvis_datasets_count", JInt (uvvis_datasets_count d));
   ("sample_types", JArr (List.map sample_types_json (sample_types d)));
   ("dataset_types", JArr (List.map dataset_types_json (dataset_types d)));
   ("samples_time", JArr (List.map samples_time_json (samples_time d)));
   ("thin_films_precursors", JArr (List.map precursor_json (thin_films_precursors d)));
   ("thumbnail_of_day",
     match thumbnail_of_day d with
     | Some t => thumbnail_json t
     | None => JNull
     end)].

(** [api_data]: the status code and the JSON body. *)
Definition api_data (env : environment) : Z * json :=
  match get_dashboard_data env with
  | Ok data =>
      (200, JObj (data_json data ++ [("timestamp", JStr (datetime_now_isoformat env))]))
  | Err e => (500, JObj [("error", JStr e)])
  end.
End Dashboard.

(** ** Pages (lines 84-91, 110-114, 322-330) *)

Inductive page : Type :=
| Rendered (template : string) (user : string)
| Redirected (endpoint : string).

(** The [login_required] decorator. *)
Definition login_required (f : gmap string string -> page) (session : gmap string string)
  : page :=
  match session !! "orcid" with
  | None => Redirected "login"
  | Some _ => f session
  end.

(** [index]: the session check is commented out in the source, and the
    decorator is not applied. *)
Definition index (session : gmap string string) : page :=
  Rendered "dashboard.html" (default "Guest" (session !! "name")).

Definition logout (session : gmap string string) : gmap string string * page :=
  (∅, Redirected "login").

(** ** Vocabulary of the statements *)

(** The [thumbnail_of_day] entry built from the query's rows. *)
Definition thumbnail_entry (env : environment) (df : list thumbnail_row)
  : option thumbnail_of_day_data :=
  match df with
  | [] => None
  | first :: _ =>
      let image := get_thumbnail_image_data env (t_unique_id first) in
      Some {| row := first; image_data := if truthy image then image else None |}
  end.

(** The fields of the JSON answer, in insertion order. *)
Definition RESPONSE_FIELDS : list string :=
  ["thin_films_count"; "spectra_count"; "total_datasets"; "spin_runs_count";
   "sample_well_count"; "uvvis_datasets_count"; "sample_types"; "dataset_types";
   "samples_time"; "thin_films_precursors"; "thumbnail_of_day"; "timestamp"].

(** What the resolver does with the URL it has chosen. *)
Definition fetch_image (env : environment) (download_url : string) : option string :=
  if String.eqb download_url "" then None
  else
    match requests_get env download_url with
    | Err _ => None
    | Ok r => if (status_code r =? 200)%Z then Some (data_uri r) else None
    end.

Definition THUMBNAIL_FIELDS : list string :=
  ["sample_id"; "sample_name"; "description"; "date_created"; "owner_orcid";
   "sample_type"; "file_to_upload"; "dataset_name"; "source_folder"; "dataset_id";
   "unique_id"; "sample_date"; "is_today"; "image_data"].

(** Rows of [daily_totals] in date order. *)
Definition date_lt (a b : Z * Z) : Prop := fst a < fst b.

(** Later rows have later dates and larger running totals. *)
Definition later (a b : samples_time_row) : Prop :=
  date a < date b /\ cumulative_count a <= cumulative_count b.

(** The distinct samples linked to a dataset. *)
Definition linked_samples (wh : warehouse) (d : dataset) : list Z :=
  distinctZ (List.map dsl_sample_id
               (List.filter (fun l => (d_id d =? dsl_dataset_id l)%Z)
                  (datasetsamplelink_table wh))).

(** The row selected for a thin film and its parent. *)
Definition joined_row (tf ps : sample) : precursor_row :=
  {| thin_film_id := s_id tf;
     thin_film_name := s_sample_name tf;
     precursor_name := s_sample_name ps;
     precursor_description := s_description ps |}.

(** ** Concrete tables *)

Definition a_sample (id : Z) (name type created : option string) : sample :=
  {| s_id := id; s_sample_name := name; s_sample_type := type;
     s_description := None; s_date_created := created; s_owner_orcid := None;
     s_project_id := Some PROJECT_ID |}.

Definition a_dataset (id : Z) (label file : option string) : dataset :=
  {| d_id := id; d_unique_id := Some ("ds-" ++ COALESCE label ""); d_measurement := label;
     d_file_to_upload := file; d_dataset_name := None; d_source_folder := None;
     d_project_id := Some PROJECT_ID |}.

Definition a_link (dataset_id sample_id : Z) : datasetsamplelink :=
  {| dsl_dataset_id := dataset_id; dsl_sample_id := sample_id |}.

(** Services that answer every request: one JPEG link, fetched with the
    given status. *)
Definition an_environment (wh : warehouse) (status : Z) : environment :=
  {| bq := wh;
     CURRENT_DATE := 19844;
     get_dataset_download_links :=
       fun _ => Ok [("notes.txt", "https://store/notes.txt");
                    ("well.jpeg", "https://store/well.jpeg");
                    ("late.jpeg", "https://store/late.jpeg")];
     requests_get :=
       fun url =>
         if String.eqb url "https://store/well.jpeg"
         then Ok {| status_code := status; content := [x4d; x61; x6e]%byte;
                    content_type_header := None |}
         else Err "connection refused";
     datetime_now_isoformat := "2024-05-01T12:00:00" |}.

(** A spectroscopy dataset measured on sample 1: with it in the tables the
    spectra total is 8, not NULL. *)
Definition a_spectra_dataset : dataset := a_dataset 8 (Some "Pollux_OOSpec scan") None.

(** Two thin films created the same day, one with a zoned timestamp and one
    with the plain timestamp that only the time-series query accepts; the
    second one has a sample-well image. *)
Definition plain_timestamp_tables : warehouse :=
  {| sample_table :=
       [a_sample 1 (Some "film-1") (Some "thin film") (Some "2024-05-01T09:30:00+00:00");
        a_sample 2 (Some "film-2") (Some "thin film") (Some "2024-05-01T10:00:00")];
     dataset_table :=
       [a_dataset 7 (Some "Sample Well image") (Some "well.jpeg"); a_spectra_dataset];
     datasetsamplelink_table := [a_link 7 2; a_link 8 1];
     samplelink_table := [] |}.

(** The same tables with the image attached to the zoned sample. *)
Definition zoned_timestamp_tables : warehouse :=
  {| sample_table := sample_table plain_timestamp_tables;
     dataset_table := dataset_table plain_timestamp_tables;
     datasetsamplelink_table := [a_link 7 1; a_link 8 1];
     samplelink_table := [] |}.

(** Two thin films, one of them without a creation timestamp, and no
    sample-well image. *)
Definition undated_tables : warehouse :=
  {| sample_table :=
       [a_sample 1 (Some "film-1") (Some "thin film") (Some "2024-05-01T09:30:00+00:00");
        a_sample 2 (Some "film-2") (Some "thin film") None];
     dataset_table := [a_spectra_dataset];
     datasetsamplelink_table := [a_link 8 1];
     samplelink_table := [] |}.

(** The same samples and no dataset at all. *)
Definition no_spectra_tables : warehouse :=
  {| sample_table := sample_table undated_tables;
     dataset_table := [];
     datasetsamplelink_table := [];
     samplelink_table := [] |}.

(** Eleven datasets with eleven different measurement labels, the first of
    them a spectroscopy label. *)
Definition eleven_labels_tables : warehouse :=
  {| sample_table := [];
     dataset_table :=
       List.map (fun l => a_dataset (Z.of_nat (String.length l)) (Some l) None)
         ["pollux_oospec"; "bb"; "ccc"; "dddd"; "eeeee"; "ffffff"; "ggggggg"; "hhhhhhhh";
          "iiiiiiiii"; "jjjjjjjjjj"; "kkkkkkkkkkk"];
     datasetsamplelink_table := [a_link 13 1];
     samplelink_table := [] |}.

(** The two labelled datasets of the spectra example, linked to 2 and 3
    distinct samples (one link is stored twice). *)
Definition spectra_tables : warehouse :=
  {| sample_table := [];
     dataset_table :=
       [a_dataset 10 (Some "Pollux_OOSpec A") None; a_dataset 11 (Some "pollux_oospec B") None];
     datasetsamplelink_table :=
       [a_link 10 1; a_link 10 2; a_link 10 2; a_link 11 1; a_link 11 2; a_link 11 3];
     samplelink_table := [] |}.

(** One dataset whose label has a hyphen where the pattern has [_]. *)
Definition hyphen_label_tables : warehouse :=
  {| sample_table := [];
     dataset_table := [a_dataset 10 (Some "Pollux-OOSpec A") None];
     datasetsamplelink_table := [a_link 10 1];
     samplelink_table := [] |}.

(** Samples and datasets without a usable label: some store none, some
    store ['Unknown']. *)
Definition unknown_label_tables : warehouse :=
  {| sample_table :=
       [a_sample 1 (Some "film-1") None None;
        a_sample 2 (Some "film-2") (Some "Unknown") None;
        a_sample 3 (Some "film-3") None None];
     dataset_table :=
       [a_spectra_dataset; a_dataset 9 None None; a_dataset 10 (Some "Unknown") None];
     datasetsamplelink_table := [a_link 8 1];
     samplelink_table := [] |}.

(** Three thin films, two precursor solutions, one linked pair. *)
Definition precursor_tables : warehouse :=
  {| sample_table :=
       [a_sample 1 (Some "film-1") (Some "thin film") None;
        a_sample 2 (Some "film-2") (Some "Thin Film") None;
        a_sample 3 (Some "film-3") (Some "thin film") None;
        a_sample 4 (Some "ink-1") (Some "precursor solution") None;
        a_sample 5 (Some "ink-2") (Some "precursor solution") None];
     dataset_table := [a_spectra_dataset];
     datasetsamplelink_table := [a_link 8 1];
     samplelink_table := [{| sl_sample_id := 2; sl_parent_sample_id := 5 |}] |}.

(** ** The login flow (lines 101-107) *)

(** [orcid.authorize_access_token()] is library code working on the same
    Flask session as the handler: it checks the request against the OAuth
    state entry it stored at [/login], removes that entry, and fetches the
    token, or raises.  It is a parameter of the model, taking the session
    before the call to the session after it and the token or the
    exception; no statement depends on what it does to the session.
    Session values that the handlers read are strings; an entry of library
    code is carried as its serialised text. *)
Definition token_exchange : Type :=
  gmap string string -> gmap string string * result (gmap string string).

(** [authorize]: the library call comes first and may raise;
    [token['orcid']] raises [KeyError] when the key is missing, before the
    handler has stored anything; [token.get('name', 'User')] never raises.
    The result is the session after the request and the answer, or the
    exception. *)
Definition authorize (authorize_access_token : token_exchange)
  (session : gmap string string) : gmap string string * result page :=
  let (session, access_token) := authorize_access_token session in
  match access_token with
  | Err e => (session, Err e)
  | Ok token =>
      match token !! "orcid" with
      | None => (session, Err "'orcid'")
      | Some orcid_id =>
          (<["name" := default "User" (token !! "name")]> (<["orcid" := orcid_id]> session),
           Ok (Redirected "index"))
      end
  end.

(** A token exchange that removes its state entry and then answers
    [access_token], and a session in the middle of a login. *)
Definition STATE_KEY : string := "_state_orcid_Zx3kQ".

Definition an_exchange (access_token : result (gmap string string)) : token_exchange :=
  fun session => (delete STATE_KEY session, access_token).

Definition a_pending_session : gmap string string :=
  {[STATE_KEY := "{'data': {'redirect_uri': 'http://localhost:5000/authorize'}}"]}.

(** ** Base64 decoding

    The inverse of [b64encode], to say what a reader of [image_data] gets
    back. *)

Fixpoint index_of (c : ascii) (alphabet : list ascii) (i : Z) : option Z :=
  match alphabet with
  | [] => None
  | a :: rest => if Ascii.eqb c a then Some i else index_of c rest (i + 1)
  end.

Definition b64_index (c : ascii) : option Z := index_of c b64_alphabet 0.

Definition unpack (i1 i2 i3 i4 : Z) : Z :=
  Z.lor (Z.lor (Z.lor (Z.shiftl i1 18) (Z.shiftl i2 12)) (Z.shiftl i3 6)) i4.

Definition octet_at (n shift : Z) : Z := Z.land (Z.shiftr n shift) 255.

(** The standard decoder of what [b64encode_chars] writes: four characters
    give three bytes, and padding is accepted in the last group only. *)
Fixpoint b64decode_chars (cs : list ascii) : option (list Z) :=
  match cs with
  | [] => Some []
  | c1 :: c2 :: c3 :: c4 :: rest =>
      match b64_index c1, b64_index c2 with
      | Some i1, Some i2 =>
          if Ascii.eqb c4 "=" then
            match rest with
            | [] =>
                if Ascii.eqb c3 "=" then Some [octet_at (unpack i1 i2 0 0) 16]
                else
                  match b64_index c3 with
                  | Some i3 =>
                      Some [octet_at (unpack i1 i2 i3 0) 16; octet_at (unpack i1 i2 i3 0) 8]
                  | None => None
                  end
            | _ :: _ => None
            end
          else
            match b64_index c3, b64_index c4, b64decode_chars rest with
            | Some i3, Some i4, Some tail =>
                Some (octet_at (unpack i1 i2 i3 i4) 16 :: octet_at (unpack i1 i2 i3 i4) 8
                        :: octet_at (unpack i1 i2 i3 i4) 0 :: tail)
            | _, _, _ => None
            end
      | _, _ => None
      end
  | _ => None
  end.

Definition byte_of_Z (z : Z) : byte :=
  match Byte.of_N (Z.to_N z) with
  | Some b => b
  | None => x00
  end.

Definition b64decode (s : string) : option (list byte) :=
  option_map (List.map byte_of_Z) (b64decode_chars (chars s)).

(** ** More vocabulary *)

(** A pattern body without [%] and [_]. *)
Definition wildcard_free (sub : string) : bool :=
  forallb (fun c => negb (Ascii.eqb c "%") && negb (Ascii.eqb c "_")) (chars sub).

(** The count of a group when [P] selects its key, 0 otherwise. *)
Definition selected {K} (P : K -> bool) (g : K * Z) : Z :=
  if P (fst g) then snd g else 0.

(** The sample is one the time series counts and its creation timestamp
    falls on [day]. *)
Definition created_on (PARSE_TIMESTAMP : string -> string -> option Z)
  (day : Z) (s : sample) : bool :=
  in_daily_counts s
  && match created_timestamp PARSE_TIMESTAMP s with
     | Some ts => (day =? DATE ts)%Z
     | None => false
     end.

(** 1 for a joined row with a match on the right, 0 for a padded one. *)
Definition matched {A B} (x : A * option B) : nat :=
  match snd x with
  | Some _ => 1%nat
  | None => 0%nat
  end.

(** The same dataset filed under another project, and the same tables with
    every dataset filed under the project [p] chooses for it. *)
Definition with_project (p : option string) (d : dataset) : dataset :=
  {| d_id := d_id d; d_unique_id := d_unique_id d; d_measurement := d_measurement d;
     d_file_to_upload := d_file_to_upload d; d_dataset_name := d_dataset_name d;
     d_source_folder := d_source_folder d; d_project_id := p |}.

Definition refile_datasets (p : dataset -> option string) (wh : warehouse) : warehouse :=
  {| sample_table := sample_table wh;
     dataset_table := List.map (fun d => with_project (p d) d) (dataset_table wh);
     datasetsamplelink_table := datasetsamplelink_table wh;
     samplelink_table := samplelink_table wh |}.

(** The lower-cased label contains [sub]; a NULL label contains nothing. *)
Definition label_contains (sub : string) (d : dataset) : bool :=
  match d_measurement d with
  | Some m => contains_substring sub (LOWER m)
  | None => false
  end.

(** * Properties *)

(** ** Grouping, ordering and running totals *)

Lemma sumZ_app (l1 l2 : list Z) : sumZ (l1 ++ l2) = sumZ l1 + sumZ l2.
Proof. induction l1 as [|x l1 IH]; simpl; lia. Qed.

Lemma COUNT_nonneg {A} (l : list A) : 0 <= COUNT l.
Proof. unfold COUNT. lia. Qed.

Section GroupingFacts.
Context {K : Type} (eqk : K -> K -> bool).

Lemma bump_sum (k : K) (g : list (K * Z)) :
  sumZ (List.map snd (bump eqk k g)) = sumZ (List.map snd g) + 1.
Proof.
  induction g as [|[k' n] g IH]; simpl; [lia|].
  destruct (eqk k k'); simpl; lia.
Qed.

Lemma bump_positive (k : K) (g : list (K * Z)) :
  Forall (fun r => 0 < snd r) g -> Forall (fun r => 0 < snd r) (bump eqk k g).
Proof.
  induction 1 as [|[k' n] g Hn Hg IH]; simpl.
  - repeat constructor.
  - simpl in Hn. destruct (eqk k k'); constructor; simpl; auto; lia.
Qed.

Lemma fold_bump_sum (keys : list K) (g : list (K * Z)) :
  sumZ (List.map snd (fold_left (fun g k => bump eqk k g) keys g))
  = sumZ (List.map snd g) + COUNT keys.
Proof.
  revert g. induction keys as [|k keys IH]; intros g; unfold COUNT in *; simpl.
  - lia.
  - rewrite IH, bump_sum. lia.
Qed.

Lemma fold_bump_positive (keys : list K) (g : list (K * Z)) :
  Forall (fun r => 0 < snd r) g ->
  Forall (fun r => 0 < snd r) (fold_left (fun g k => bump eqk k g) keys g).
Proof.
  revert g. induction keys as [|k keys IH]; intros g Hg; simpl; auto using bump_positive.
Qed.

(** The groups partition the rows: their counts add up to the row count. *)
Lemma group_count_sum (keys : list K) :
  sumZ (List.map snd (group_count eqk keys)) = COUNT keys.
Proof. unfold group_count. rewrite fold_bump_sum. simpl. lia. Qed.

Lemma group_count_positive (keys : list K) :
  Forall (fun r => 0 < snd r) (group_count eqk keys).
Proof. apply fold_bump_positive. constructor. Qed.
End GroupingFacts.

Section OrderingFacts.
Context {A : Type} (before : A -> A -> bool).

Lemma insert_by_In (x y : A) (l : list A) :
  In y (insert_by before x l) <-> y = x \/ In y l.
Proof.
  induction l as [|z l IH]; simpl.
  - intuition.
  - destruct (before z x); simpl; rewrite ?IH; intuition.
Qed.

Lemma fold_insert_In (y : A) (l acc : list A) :
  In y (fold_left (fun acc x => insert_by before x acc) l acc) <-> In y l \/ In y acc.
Proof.
  revert acc. induction l as [|x l IH]; intros acc; simpl.
  - intuition.
  - rewrite IH, insert_by_In. intuition.
Qed.

Lemma order_by_In (y : A) (l : list A) : In y (order_by before l) <-> In y l.
Proof. unfold order_by. rewrite fold_insert_In. simpl. intuition. Qed.

Lemma order_by_Forall (P : A -> Prop) (l : list A) :
  Forall P l -> Forall P (order_by before l).
Proof.
  rewrite !Forall_forall. intros H y Hy. apply H. now apply order_by_In.
Qed.

Lemma insert_by_sum (f : A -> Z) (x : A) (l : list A) :
  sumZ (List.map f (insert_by before x l)) = f x + sumZ (List.map f l).
Proof.
  induction l as [|z l IH]; simpl; [lia|].
  destruct (before z x); simpl; lia.
Qed.

Lemma fold_insert_sum (f : A -> Z) (l acc : list A) :
  sumZ (List.map f (fold_left (fun acc x => insert_by before x acc) l acc))
  = sumZ (List.map f l) + sumZ (List.map f acc).
Proof.
  revert acc. induction l as [|x l IH]; intros acc; simpl; [lia|].
  rewrite IH, insert_by_sum. lia.
Qed.

(** Reordering rows does not change a column's total. *)
Lemma order_by_sum (f : A -> Z) (l : list A) :
  sumZ (List.map f (order_by before l)) = sumZ (List.map f l).
Proof. unfold order_by. rewrite fold_insert_sum. simpl. lia. Qed.

Lemma insert_by_length (x : A) (l : list A) :
  List.length (insert_by before x l) = S (List.length l).
Proof.
  induction l as [|z l IH]; simpl; [reflexivity|].
  destruct (before z x); simpl; congruence.
Qed.

Lemma fold_insert_length (l acc : list A) :
  List.length (fold_left (fun acc x => insert_by before x acc) l acc)
  = (List.length l + List.length acc)%nat.
Proof.
  revert acc. induction l as [|x l IH]; intros acc; simpl; [reflexivity|].
  rewrite IH, insert_by_length. lia.
Qed.

Lemma order_by_length (l : list A) : List.length (order_by before l) = List.length l.
Proof. unfold order_by. rewrite fold_insert_length. simpl. lia. Qed.
End OrderingFacts.

Lemma firstn_sum_le (n : nat) (l : list Z) :
  Forall (fun x => 0 <= x) l -> sumZ (firstn n l) <= sumZ l.
Proof.
  intros H. revert n. induction H as [|x l Hx Hl IH]; intros [|n]; simpl; try lia.
  - assert (0 <= sumZ l) by (clear IH; induction Hl; simpl; lia). lia.
  - specialize (IH n). lia.
Qed.

(** ** The aggregation, field by field *)

Section AggregationFacts.
Variable PARSE_TIMESTAMP : string -> string -> option Z.

Lemma get_dashboard_data_Ok (env : environment) (d : dashboard_data) :
  get_dashboard_data PARSE_TIMESTAMP env = Ok d ->
  exists df,
    query_thumbnail_of_day PARSE_TIMESTAMP (bq env) (CURRENT_DATE env) = Ok df
    /\ thumbnail_of_day d = thumbnail_entry env df
    /\ thin_films_count d = query_thin_films (bq env)
    /\ spectra_count d = COALESCE (query_spectra (bq env)) 0
    /\ total_datasets d = query_dataset_count (bq env)
    /\ sample_types d = query_sample_types (bq env)
    /\ dataset_types d = query_dataset_types (bq env)
    /\ samples_time d = query_samples_time PARSE_TIMESTAMP (bq env)
    /\ thin_films_precursors d = query_thin_films_precursors (bq env).
Proof.
  unfold get_dashboard_data.
  destruct (query_spectra (bq env)) as [n|]; simpl; [|discriminate].
  destruct (query_thumbnail_of_day PARSE_TIMESTAMP (bq env) (CURRENT_DATE env))
    as [df|e]; simpl; [|discriminate].
  intros [= <-]. exists df. simpl. repeat split; reflexivity.
Qed.

(** A returned snapshot had a spectra total that was not NULL. *)
Lemma get_dashboard_data_spectra (env : environment) (d : dashboard_data) :
  get_dashboard_data PARSE_TIMESTAMP env = Ok d ->
  query_spectra (bq env) = Some (spectra_count d).
Proof.
  unfold get_dashboard_data.
  destruct (query_spectra (bq env)) as [n|]; simpl; [|discriminate].
  destruct (query_thumbnail_of_day PARSE_TIMESTAMP (bq env) (CURRENT_DATE env))
    as [df|e]; simpl; [|discriminate].
  now intros [= <-].
Qed.

Lemma get_dashboard_data_of_thumbnail (env : environment) (n : Z)
  (df : list thumbnail_row) :
  query_spectra (bq env) = Some n ->
  query_thumbnail_of_day PARSE_TIMESTAMP (bq env) (CURRENT_DATE env) = Ok df ->
  exists d,
    get_dashboard_data PARSE_TIMESTAMP env = Ok d
    /\ thumbnail_of_day d = thumbnail_entry env df.
Proof.
  intros Hn H. unfold get_dashboard_data. rewrite Hn, H. simpl.
  eexists. split; reflexivity.
Qed.

Lemma get_dashboard_data_Err (env : environment) (e : string) :
  query_thumbnail_of_day PARSE_TIMESTAMP (bq env) (CURRENT_DATE env) = Err e ->
  exists e', get_dashboard_data PARSE_TIMESTAMP env = Err e'.
Proof.
  intros H. unfold get_dashboard_data. rewrite H.
  destruct (query_spectra (bq env)); simpl; eauto.
Qed.

(** A NULL spectra total raises before the thumbnail query is sent. *)
Lemma get_dashboard_data_NA (env : environment) :
  query_spectra (bq env) = None ->
  get_dashboard_data PARSE_TIMESTAMP env = Err NA_TO_INT_ERROR.
Proof. intros H. unfold get_dashboard_data. now rewrite H. Qed.
End AggregationFacts.

(** The resolver never hands back an empty string, so the truthiness test in
    the aggregation keeps every image it returns. *)
Lemma get_thumbnail_image_data_truthy (env : environment) (id : option string) :
  (if truthy (get_thumbnail_image_data env id)
   then get_thumbnail_image_data env id else None)
  = get_thumbnail_image_data env id.
Proof.
  unfold get_thumbnail_image_data.
  destruct (get_dataset_download_links env id) as [links|]; [|reflexivity].
  destruct (jpeg_urls links) as [|url rest]; [reflexivity|].
  destruct (String.eqb url ""); [reflexivity|].
  destruct (requests_get env url) as [r|]; [|reflexivity].
  destruct (status_code r =? 200)%Z; reflexivity.
Qed.

(** ** Grouped breakdowns *)

Lemma sample_types_sum (wh : warehouse) :
  sumZ (List.map st_count (query_sample_types wh))
  = COUNT (List.filter in_project_sample (sample_table wh)).
Proof.
  unfold query_sample_types. rewrite List.map_map. simpl.
  rewrite (order_by_sum by_count_desc snd), group_count_sum.
  unfold COUNT. now rewrite List.length_map.
Qed.

Lemma dataset_groups_sum (wh : warehouse) :
  sumZ (List.map snd (dataset_groups wh)) = query_dataset_count wh.
Proof.
  unfold dataset_groups, query_dataset_count.
  rewrite (order_by_sum by_count_desc snd), group_count_sum.
  unfold COUNT. now rewrite List.length_map.
Qed.

Lemma dataset_groups_positive (wh : warehouse) :
  Forall (fun r => 0 < snd r) (dataset_groups wh).
Proof. apply order_by_Forall, group_count_positive. Qed.

Lemma dataset_types_sum (wh : warehouse) :
  sumZ (List.map dt_count (query_dataset_types wh))
  = sumZ (firstn 10 (List.map snd (dataset_groups wh))).
Proof.
  unfold query_dataset_types, LIMIT. rewrite List.map_map. simpl.
  now rewrite List.firstn_map.
Qed.

(** C3 (as amended).  In every snapshot the [sample_types] counts add up to
    the number of samples of the project; the [dataset_types] counts, which
    cover only the ten largest groups, never exceed [total_datasets], and
    add up to it whenever the project's datasets fall into at most ten
    measurement groups. *)
Theorem grouped_counts_sum
  (PARSE_TIMESTAMP : string -> string -> option Z)
  (env : environment) (d : dashboard_data) :
  get_dashboard_data PARSE_TIMESTAMP env = Ok d ->
  sumZ (List.map st_count (sample_types d))
  = COUNT (List.filter in_project_sample (sample_table (bq env)))
  /\ sumZ (List.map dt_count (dataset_types d)) <= total_datasets d
  /\ ((List.length (dataset_groups (bq env)) <= 10)%nat ->
      sumZ (List.map dt_count (dataset_types d)) = total_datasets d).
Proof.
  intros H. apply get_dashboard_data_Ok in H.
  destruct H as (df & _ & _ & _ & _ & Htot & Hst & Hdt & _).
  rewrite Hst, Hdt, Htot. split; [apply sample_types_sum|].
  rewrite dataset_types_sum, <- dataset_groups_sum. split.
  - apply firstn_sum_le.
    pose proof (dataset_groups_positive (bq env)) as Hp.
    induction Hp; simpl; constructor; auto; lia.
  - intros Hlen. rewrite List.firstn_all2; [reflexivity|].
    now rewrite List.length_map.
Qed.

Lemma grouped_counts_sum_witness :
  exists d,
    get_dashboard_data bq_parse_timestamp (an_environment spectra_tables 200) = Ok d
    /\ (List.length (dataset_groups spectra_tables) <= 10)%nat
    /\ sumZ (List.map dt_count (dataset_types d)) = total_datasets d.
Proof.
  eexists. split; [reflexivity|]. split; [vm_compute; lia|].
  destruct (grouped_counts_sum bq_parse_timestamp (an_environment spectra_tables 200) _ eq_refl)
    as (_ & _ & H).
  apply H. vm_compute. lia.
Defined.

(** C3 (as stated) fails: with eleven measurement labels the breakdown keeps
    ten groups, and its counts add up to 10 while [total_datasets] is 11.
    One of the labels is a spectroscopy label, so the spectra total is a
    number and the snapshot is returned. *)
Lemma dataset_types_sum_counterexample :
  exists d,
    get_dashboard_data bq_parse_timestamp (an_environment eleven_labels_tables 200) = Ok d
    /\ query_spectra eleven_labels_tables = Some 8
    /\ sumZ (List.map dt_count (dataset_types d)) = 10
    /\ total_datasets d = 11
    /\ sumZ (List.map dt_count (dataset_types d)) <> total_datasets d.
Proof. eexists. split; [reflexivity|]. repeat split. discriminate. Qed.

(** ** The JSON endpoint *)

Lemma data_json_keys (d : dashboard_data) (now : string) :
  List.map fst (data_json d ++ [("timestamp", JStr now)]) = RESPONSE_FIELDS.
Proof. reflexivity. Qed.

(** C5.  When the aggregation returns, [GET /api/data] answers 200 with an
    object whose fields are exactly the twelve listed ones; when it raises,
    the answer is 500 with the single field [error] holding the message,
    and nothing of the aggregation. *)
Theorem api_data_response
  (PARSE_TIMESTAMP : string -> string -> option Z) (env : environment) :
  match get_dashboard_data PARSE_TIMESTAMP env with
  | Ok d =>
      fst (api_data PARSE_TIMESTAMP env) = 200
      /\ keys (snd (api_data PARSE_TIMESTAMP env)) = RESPONSE_FIELDS
      /\ List.NoDup RESPONSE_FIELDS
  | Err e => api_data PARSE_TIMESTAMP env = (500, JObj [("error", JStr e)])
  end.
Proof.
  unfold api_data.
  destruct (get_dashboard_data PARSE_TIMESTAMP env) as [d|e]; [|reflexivity].
  split; [reflexivity|]. split; [apply data_json_keys|].
  unfold RESPONSE_FIELDS.
  repeat (apply List.NoDup_cons;
          [simpl; intros H; repeat (destruct H as [H|H]; [discriminate H|]); exact H|]).
  apply List.NoDup_nil.
Qed.

(** Both answers occur. *)
Example api_data_200 :
  fst (api_data bq_parse_timestamp (an_environment zoned_timestamp_tables 200)) = 200.
Proof. reflexivity. Qed.

Example api_data_500 :
  api_data bq_parse_timestamp (an_environment plain_timestamp_tables 200)
  = (500, JObj [("error", JStr "Failed to parse input string 2024-05-01T10:00:00")]).
Proof. reflexivity. Qed.



(** ** The dashboard page *)

(** C9.  Whatever the session holds, [GET /] renders the dashboard template
    and is never a redirect; the user shown is the session's [name], and
    ['Guest'] when the session has none. *)
Theorem index_never_redirects (session : gmap string string) :
  index session = Rendered "dashboard.html" (default "Guest" (session !! "name"))
  /\ (forall endpoint, index session <> Redirected endpoint)
  /\ (session !! "name" = None -> index session = Rendered "dashboard.html" "Guest").
Proof.
  split; [reflexivity|]. split.
  - intros endpoint. discriminate.
  - intros H. unfold index. now rewrite H.
Qed.

Lemma index_never_redirects_witness :
  index ∅ = Rendered "dashboard.html" "Guest".
Proof.
  destruct (index_never_redirects ∅) as (_ & _ & H).
  apply H. apply lookup_empty.
Defined.

(** The decorator, had it been applied, would send an anonymous session to
    the login route. *)
Example login_required_redirects : login_required index ∅ = Redirected "login".
Proof. reflexivity. Qed.

(** ** The thumbnail resolver *)

Lemma jpeg_urls_none (links : list (string * string)) :
  (forall k v, In (k, v) links -> endswith k ".jpeg" = false) -> jpeg_urls links = [].
Proof.
  unfold jpeg_urls. induction links as [|[k v] links IH]; intros H; simpl; [reflexivity|].
  rewrite (H k v) by now left. apply IH. intros k' v' Hin. apply (H k' v'). now right.
Qed.

Lemma jpeg_urls_first (before after : list (string * string)) (k v : string) :
  (forall k' v', In (k', v') before -> endswith k' ".jpeg" = false) ->
  endswith k ".jpeg" = true ->
  jpeg_urls (before ++ (k, v) :: after) = v :: jpeg_urls after.
Proof.
  unfold jpeg_urls. intros Hb Hk. induction before as [|[k' v'] before IH]; simpl.
  - now rewrite Hk.
  - rewrite (Hb k' v') by now left. apply IH.
    intros k'' v'' Hin. apply (Hb k'' v''). now right.
Qed.

Lemma starts_with_cons (c : ascii) (p s : list ascii) :
  starts_with (c :: p) s
  = match s with
    | [] => false
    | d :: s' => Ascii.eqb c d && starts_with p s'
    end.
Proof. destruct s; reflexivity. Qed.

(** Two suffixes that differ in a character cannot both end the same key:
    read the key from its end, one character at a time. *)
Ltac ends_differently k suffix :=
  unfold endswith;
  let other := eval vm_compute in (rev (chars suffix)) in
  change (rev (chars suffix)) with other;
  let jpeg := eval vm_compute in (rev (chars ".jpeg")) in
  change (rev (chars ".jpeg")) with jpeg;
  generalize (rev (chars k)); intros r;
  repeat (rewrite !starts_with_cons;
          destruct r as [|? r]; [try reflexivity; intros; discriminate|];
          match goal with
          | |- context [Ascii.eqb ?a ?c] =>
              destruct (Ascii.eqb_spec a c) as [<-|]; cbn [andb];
              [|try reflexivity; intros; discriminate]
          end;
          try (intros _; reflexivity)).

(** The comparison is exact: a key ending in [.jpg] or in [.JPEG] does not
    end in [.jpeg]. *)
Lemma jpg_is_not_jpeg (k : string) : endswith k ".jpg" = true -> endswith k ".jpeg" = false.
Proof. ends_differently k ".jpg". Qed.

Lemma upper_JPEG_is_not_jpeg (k : string) :
  endswith k ".JPEG" = true -> endswith k ".jpeg" = false.
Proof. ends_differently k ".JPEG". Qed.

Lemma get_thumbnail_image_data_fetch (env : environment) (id : option string)
  (links : list (string * string)) (url : string) (rest : list string) :
  get_dataset_download_links env id = Ok links ->
  jpeg_urls links = url :: rest ->
  get_thumbnail_image_data env id = fetch_image env url.
Proof.
  intros Hl Hu. unfold get_thumbnail_image_data, fetch_image. now rewrite Hl, Hu.
Qed.

(** C6.  A failed link lookup, a link map without a [.jpeg] key, a fetch
    error and a status other than 200 all make the resolver return [None];
    a 200 answer becomes a base64 data reference under the declared content
    type, [image/jpeg] when none is declared.  The resolver is called once
    the spectra total has been converted and the thumbnail query has found
    a row; whatever it returns then, the snapshot is returned, with that
    row's fields and the resolver's result under [image_data]. *)
Theorem thumbnail_resolver_degrades
  (PARSE_TIMESTAMP : string -> string -> option Z)
  (env : environment) (id : option string) :
  (forall e, get_dataset_download_links env id = Err e ->
             get_thumbnail_image_data env id = None)
  /\ (forall links,
        get_dataset_download_links env id = Ok links ->
        (forall k v, In (k, v) links -> endswith k ".jpeg" = false) ->
        get_thumbnail_image_data env id = None)
  /\ (forall links url rest,
        get_dataset_download_links env id = Ok links ->
        jpeg_urls links = url :: rest ->
        (forall e, requests_get env url = Err e ->
                   get_thumbnail_image_data env id = None)
        /\ (forall r, requests_get env url = Ok r -> status_code r <> 200 ->
                      get_thumbnail_image_data env id = None)
        /\ (forall r, requests_get env url = Ok r -> status_code r = 200 -> url <> "" ->
                      get_thumbnail_image_data env id
                      = Some ("data:" ++ COALESCE (content_type_header r) "image/jpeg"
                                ++ ";base64," ++ b64encode (content r))))
  /\ (forall n first rest,
        query_spectra (bq env) = Some n ->
        query_thumbnail_of_day PARSE_TIMESTAMP (bq env) (CURRENT_DATE env)
        = Ok (first :: rest) ->
        exists d t,
          get_dashboard_data PARSE_TIMESTAMP env = Ok d
          /\ thumbnail_of_day d = Some t
          /\ row t = first
          /\ image_data t = get_thumbnail_image_data env (t_unique_id first)
          /\ keys (thumbnail_json t) = THUMBNAIL_FIELDS).
Proof.
  repeat split.
  - intros e H. unfold get_thumbnail_image_data. now rewrite H.
  - intros links Hl Hk. unfold get_thumbnail_image_data.
    now rewrite Hl, (jpeg_urls_none links Hk).
  - intros e He. rewrite (get_thumbnail_image_data_fetch env id links url rest) by assumption.
    unfold fetch_image. rewrite He. now destruct (String.eqb url "").
  - intros r Hr Hs. rewrite (get_thumbnail_image_data_fetch env id links url rest) by assumption.
    unfold fetch_image. rewrite Hr.
    destruct (Z.eqb_spec (status_code r) 200); [contradiction|].
    now destruct (String.eqb url "").
  - intros r Hr Hs Hu. rewrite (get_thumbnail_image_data_fetch env id links url rest) by assumption.
    unfold fetch_image. rewrite Hr, Hs.
    destruct (String.eqb_spec url ""); [contradiction|]. reflexivity.
  - intros n first rest Hn Hq.
    destruct (get_dashboard_data_of_thumbnail PARSE_TIMESTAMP env n _ Hn Hq)
      as (d & Hd & Ht).
    simpl in Ht. rewrite get_thumbnail_image_data_truthy in Ht.
    eexists d, _. split; [exact Hd|]. split; [exact Ht|]. repeat split.
Qed.

Lemma thumbnail_resolver_degrades_witness :
  get_thumbnail_image_data (an_environment zoned_timestamp_tables 404) None = None
  /\ get_thumbnail_image_data (an_environment zoned_timestamp_tables 200) None
     = Some "data:image/jpeg;base64,TWFu"
  /\ exists d t,
       get_dashboard_data bq_parse_timestamp (an_environment zoned_timestamp_tables 404)
       = Ok d
       /\ thumbnail_of_day d = Some t
       /\ t_sample_name (row t) = Some "film-1"
       /\ image_data t = None
       /\ keys (thumbnail_json t) = THUMBNAIL_FIELDS.
Proof.
  split; [|split].
  - destruct (thumbnail_resolver_degrades bq_parse_timestamp
                (an_environment zoned_timestamp_tables 404) None) as (_ & _ & H & _).
    destruct (H _ "https://store/well.jpeg" ["https://store/late.jpeg"] eq_refl eq_refl)
      as (_ & H404 & _).
    apply (H404 _ eq_refl). discriminate.
  - destruct (thumbnail_resolver_degrades bq_parse_timestamp
                (an_environment zoned_timestamp_tables 200) None) as (_ & _ & H & _).
    destruct (H _ "https://store/well.jpeg" ["https://store/late.jpeg"] eq_refl eq_refl)
      as (_ & _ & H200).
    apply (H200 _ eq_refl eq_refl). discriminate.
  - destruct (thumbnail_resolver_degrades bq_parse_timestamp
                (an_environment zoned_timestamp_tables 404) None) as (_ & _ & _ & H).
    destruct (H 8 _ [] eq_refl eq_refl) as (d & t & Hd & Ht & Hrow & Himg & Hkeys).
    exists d, t. split; [exact Hd|]. split; [exact Ht|].
    split; [now rewrite Hrow|]. split; [rewrite Himg; reflexivity|exact Hkeys].
Defined.

(** A non-200 fetch leaves a text-only entry in an answer that is still 200. *)
Example text_only_thumbnail :
  exists body t,
    api_data bq_parse_timestamp (an_environment zoned_timestamp_tables 404) = (200, JObj body)
    /\ assoc "thumbnail_of_day" body = Some t
    /\ field "image_data" t = Some JNull
    /\ field "sample_name" t = Some (JStr "film-1").
Proof. eexists _, _. repeat split. Qed.

(** C10.  Only keys ending in the exact lower-case [.jpeg] are selected: a
    link map whose keys end in [.jpg] or [.JPEG], or more generally never in
    [.jpeg], gives [None]; otherwise the first [.jpeg] entry in map order is
    the URL that is fetched, whatever follows it. *)
Theorem jpeg_link_selection
  (env : environment) (id : option string) (links : list (string * string)) :
  get_dataset_download_links env id = Ok links ->
  ((forall k v, In (k, v) links -> endswith k ".jpg" = true \/ endswith k ".JPEG" = true) ->
   get_thumbnail_image_data env id = None)
  /\ ((forall k v, In (k, v) links -> endswith k ".jpeg" = false) ->
      get_thumbnail_image_data env id = None)
  /\ (forall before k v after,
        links = (before ++ (k, v) :: after)%list ->
        (forall k' v', In (k', v') before -> endswith k' ".jpeg" = false) ->
        endswith k ".jpeg" = true ->
        jpeg_urls links = v :: jpeg_urls after
        /\ get_thumbnail_image_data env id = fetch_image env v).
Proof.
  intros Hl.
  assert (Hnone : (forall k v, In (k, v) links -> endswith k ".jpeg" = false) ->
                  get_thumbnail_image_data env id = None).
  { intros Hk. unfold get_thumbnail_image_data. now rewrite Hl, (jpeg_urls_none links Hk). }
  split; [|split; [exact Hnone|]].
  - intros Hv. apply Hnone. intros k v Hin.
    destruct (Hv k v Hin); auto using jpg_is_not_jpeg, upper_JPEG_is_not_jpeg.
  - intros before k v after -> Hb Hk.
    pose proof (jpeg_urls_first before after k v Hb Hk) as Hu.
    split; [exact Hu|].
    exact (get_thumbnail_image_data_fetch env id _ v _ Hl Hu).
Qed.

Lemma jpeg_link_selection_witness :
  get_thumbnail_image_data (an_environment zoned_timestamp_tables 200) (Some "ds-7")
  = fetch_image (an_environment zoned_timestamp_tables 200) "https://store/well.jpeg".
Proof.
  destruct (jpeg_link_selection (an_environment zoned_timestamp_tables 200) (Some "ds-7") _ eq_refl)
    as (_ & _ & H).
  destruct (H [("notes.txt", "https://store/notes.txt")] "well.jpeg" "https://store/well.jpeg"
              [("late.jpeg", "https://store/late.jpeg")] eq_refl) as (_ & Hf).
  - intros k' v' [[= <- <-]|[]]. reflexivity.
  - reflexivity.
  - exact Hf.
Defined.

(** Variants of the extension select nothing. *)
Example jpg_and_upper_case_links_select_nothing :
  jpeg_urls [("a.jpg", "https://store/a.jpg"); ("b.JPEG", "https://store/b.JPEG")] = [].
Proof. reflexivity. Qed.

(** ** The cumulative time series *)

Lemma bump_keys_In (k x : Z) (g : list (Z * Z)) :
  In x (List.map fst (bump Z.eqb k g)) <-> x = k \/ In x (List.map fst g).
Proof.
  induction g as [|[k' n] g IH]; simpl.
  - intuition.
  - destruct (Z.eqb_spec k k') as [->|Hne]; simpl; [intuition|].
    rewrite IH. intuition.
Qed.

Lemma bump_keys_NoDup (k : Z) (g : list (Z * Z)) :
  List.NoDup (List.map fst g) -> List.NoDup (List.map fst (bump Z.eqb k g)).
Proof.
  induction g as [|[k' n] g IH]; simpl; intros H.
  - repeat constructor. intros [].
  - inversion H as [|? ? Hnotin Hrest]; subst.
    destruct (Z.eqb_spec k k') as [->|Hne]; simpl.
    + now constructor.
    + constructor; [|auto]. rewrite bump_keys_In. intros [->|Hin]; auto.
Qed.

(** [GROUP BY date] yields one row per date. *)
Lemma group_count_keys_NoDup (dates : list Z) :
  List.NoDup (List.map fst (group_count Z.eqb dates)).
Proof.
  unfold group_count.
  assert (H : forall g, List.NoDup (List.map fst g) ->
                        List.NoDup (List.map fst (fold_left (fun g k => bump Z.eqb k g) dates g))).
  { induction dates as [|k dates IH]; intros g Hg; simpl; auto using bump_keys_NoDup. }
  apply H. constructor.
Qed.

Lemma insert_by_date_sorted (x : Z * Z) (l : list (Z * Z)) :
  StronglySorted date_lt l ->
  (forall y, In y l -> fst y <> fst x) ->
  StronglySorted date_lt (insert_by by_date_asc x l).
Proof.
  induction 1 as [|y l Hl IH Hy]; intros Hx; simpl.
  - repeat constructor.
  - assert (Hyx : fst y <> fst x) by (apply Hx; now left).
    unfold by_date_asc at 1. destruct (Z.leb_spec (fst y) (fst x)).
    + constructor.
      * apply IH. intros z Hz. apply Hx. now right.
      * rewrite Forall_forall in *. intros z Hz.
        apply insert_by_In in Hz as [->|Hz]; [unfold date_lt; lia|auto].
    + constructor; [now constructor|].
      constructor; [assumption|].
      rewrite Forall_forall in *. intros z Hz. specialize (Hy z Hz).
      unfold date_lt in *. lia.
Qed.

Lemma fold_insert_date_sorted (l acc : list (Z * Z)) :
  StronglySorted date_lt acc ->
  List.NoDup (List.map fst l) ->
  (forall x y, In x l -> In y acc -> fst y <> fst x) ->
  StronglySorted date_lt (fold_left (fun acc x => insert_by by_date_asc x acc) l acc).
Proof.
  revert acc. induction l as [|x l IH]; intros acc Hacc Hnd Hfresh; simpl; [assumption|].
  inversion Hnd as [|? ? Hx Hl]; subst.
  apply IH; [|assumption|].
  - apply insert_by_date_sorted; [assumption|].
    intros y Hy. apply (Hfresh x y); [now left|assumption].
  - intros z y Hz Hy. apply insert_by_In in Hy as [->|Hy].
    + intros Heq. apply Hx. rewrite Heq. now apply List.in_map.
    + apply (Hfresh z y); [now right|assumption].
Qed.

(** [ORDER BY date] over rows of distinct dates puts them in strictly
    increasing date order. *)
Lemma order_by_date_sorted (l : list (Z * Z)) :
  List.NoDup (List.map fst l) -> StronglySorted date_lt (order_by by_date_asc l).
Proof.
  intros H. apply fold_insert_date_sorted; [constructor|assumption|].
  intros x y _ [].
Qed.

Lemma running_total_In (acc : Z) (l : list (Z * Z)) (r : samples_time_row) :
  Forall (fun g => 0 < snd g) l ->
  In r (running_total acc l) ->
  acc < cumulative_count r /\ exists g, In g l /\ date r = fst g.
Proof.
  intros H. revert acc. induction H as [|[d n] l Hn Hl IH]; intros acc; simpl; [intros []|].
  simpl in Hn. intros [<-|Hin]; simpl.
  - split; [lia|]. exists (d, n). auto.
  - destruct (IH _ Hin) as (Hlt & g & Hg & Hd).
    split; [lia|]. exists g. auto.
Qed.

Lemma running_total_later (acc : Z) (l : list (Z * Z)) :
  StronglySorted date_lt l ->
  Forall (fun g => 0 < snd g) l ->
  StronglySorted later (running_total acc l).
Proof.
  intros Hs. revert acc. induction Hs as [|[d n] l Hl IH Hd]; intros acc Hp; simpl.
  - constructor.
  - inversion Hp as [|? ? Hn Hp']; subst. constructor; [auto|].
    apply Forall_forall. intros r Hr.
    destruct (running_total_In _ _ _ Hp' Hr) as (Hlt & g & Hg & Hdate).
    rewrite Forall_forall in Hd. specialize (Hd g Hg). unfold later, date_lt in *. simpl in *. lia.
Qed.

Lemma running_total_last (acc dflt : Z) (l : list (Z * Z)) :
  l <> [] ->
  List.last (List.map cumulative_count (running_total acc l)) dflt
  = acc + sumZ (List.map snd l).
Proof.
  revert acc. induction l as [|[d n] l IH]; intros acc Hne; [contradiction|].
  destruct l as [|g l].
  - simpl. lia.
  - specialize (IH (acc + n) ltac:(discriminate)).
    change (running_total acc ((d, n) :: g :: l))
      with ({| date := d; daily_count := n; cumulative_count := acc + n |}
              :: running_total (acc + n) (g :: l)).
    destruct g as [d' n']. simpl in *. rewrite IH. lia.
Qed.

Lemma running_total_last_0 (l : list (Z * Z)) :
  List.last (List.map cumulative_count (running_total 0 l)) 0 = sumZ (List.map snd l).
Proof.
  destruct l as [|g l]; [reflexivity|].
  rewrite running_total_last by discriminate. lia.
Qed.

Lemma StronglySorted_compare {A} (R : A -> A -> Prop) (l : list A) (a b : A) :
  StronglySorted R l -> In a l -> In b l -> a = b \/ R a b \/ R b a.
Proof.
  induction 1 as [|x l Hl IH Hx]; [intros []|].
  rewrite Forall_forall in Hx.
  intros [->|Ha] [->|Hb]; auto.
Qed.

Lemma non_null_map_count {A B} (f : A -> option B) (l : list A) :
  COUNT (non_null (List.map f l)) = COUNT (List.filter (fun a => is_not_null (f a)) l).
Proof.
  unfold COUNT. f_equal.
  induction l as [|a l IH]; simpl; [reflexivity|].
  destruct (f a); simpl; congruence.
Qed.

Lemma filter_filter {A} (f g : A -> bool) (l : list A) :
  List.filter f (List.filter g l) = List.filter (fun a => g a && f a) l.
Proof.
  induction l as [|a l IH]; simpl; [reflexivity|].
  destruct (g a); simpl; [destruct (f a)|]; congruence.
Qed.

Section TimeSeriesFacts.
Variable PARSE_TIMESTAMP : string -> string -> option Z.

Lemma daily_totals_sum (wh : warehouse) :
  sumZ (List.map snd (daily_totals PARSE_TIMESTAMP wh))
  = COUNT (List.filter (is_dated_thin_film PARSE_TIMESTAMP) (sample_table wh)).
Proof.
  unfold daily_totals, daily_counts.
  rewrite (order_by_sum by_date_asc snd), group_count_sum, non_null_map_count, filter_filter.
  unfold COUNT, is_dated_thin_film. do 2 f_equal.
  apply List.filter_ext. intros s.
  now destruct (created_timestamp PARSE_TIMESTAMP s).
Qed.

Lemma query_samples_time_later (wh : warehouse) :
  StronglySorted later (query_samples_time PARSE_TIMESTAMP wh).
Proof.
  unfold query_samples_time, daily_totals. apply running_total_later.
  - apply order_by_date_sorted, group_count_keys_NoDup.
  - apply order_by_Forall, group_count_positive.
Qed.

Lemma query_samples_time_final (wh : warehouse) :
  List.last (List.map cumulative_count (query_samples_time PARSE_TIMESTAMP wh)) 0
  = COUNT (List.filter (is_dated_thin_film PARSE_TIMESTAMP) (sample_table wh)).
Proof. unfold query_samples_time. now rewrite running_total_last_0, daily_totals_sum. Qed.

Lemma dated_thin_films_are_thin_films (wh : warehouse) :
  (forall s, In s (sample_table wh) -> is_thin_film s = true ->
             s_sample_type s = Some "thin film"
             /\ created_timestamp PARSE_TIMESTAMP s <> None) ->
  List.filter (is_dated_thin_film PARSE_TIMESTAMP) (sample_table wh)
  = List.filter is_thin_film (sample_table wh).
Proof.
  intros H. apply List.filter_ext_in. intros s Hs.
  unfold is_dated_thin_film, in_daily_counts.
  destruct (is_thin_film s) eqn:Htf.
  - destruct (H s Hs Htf) as [Hty Hts].
    unfold is_thin_film in Htf. apply andb_true_iff in Htf as [Hp _].
    rewrite Hp, Hty. simpl.
    unfold created_timestamp, SAFE_PARSE_TIMESTAMP in *.
    destruct (s_date_created s); simpl.
    + destruct (PARSE_TIMESTAMP FORMAT_ZONED s0); [reflexivity|].
      destruct (PARSE_TIMESTAMP FORMAT_PLAIN s0); [reflexivity|contradiction].
    + contradiction.
  - unfold is_thin_film in Htf.
    destruct (in_project_sample s); [|reflexivity]. simpl in *.
    destruct (s_sample_type s) as [ty|]; [|reflexivity]. simpl in *.
    destruct (String.eqb_spec ty "thin film") as [->|]; [|reflexivity].
    discriminate Htf.
Qed.
End TimeSeriesFacts.

(** C2 (as amended).  The rows of [samples_time] are in increasing date
    order and [cumulative_count] is non-decreasing along them.  Its final
    value (0 for an empty series) is the number of samples of the project
    typed exactly ['thin film'] whose creation timestamp parses; it equals
    [thin_films_count] when every sample counted there is stored with that
    type and a creation timestamp that parses. *)
Theorem cumulative_count_final
  (PARSE_TIMESTAMP : string -> string -> option Z)
  (env : environment) (d : dashboard_data) :
  get_dashboard_data PARSE_TIMESTAMP env = Ok d ->
  StronglySorted later (samples_time d)
  /\ (forall r1 r2, In r1 (samples_time d) -> In r2 (samples_time d) ->
                    date r1 <= date r2 -> cumulative_count r1 <= cumulative_count r2)
  /\ List.last (List.map cumulative_count (samples_time d)) 0
     = COUNT (List.filter (is_dated_thin_film PARSE_TIMESTAMP) (sample_table (bq env)))
  /\ ((forall s, In s (sample_table (bq env)) -> is_thin_film s = true ->
                 s_sample_type s = Some "thin film"
                 /\ created_timestamp PARSE_TIMESTAMP s <> None) ->
      List.last (List.map cumulative_count (samples_time d)) 0 = thin_films_count d).
Proof.
  intros H. apply get_dashboard_data_Ok in H.
  destruct H as (df & _ & _ & Htf & _ & _ & _ & _ & Hst & _).
  rewrite Hst, Htf.
  pose proof (query_samples_time_later PARSE_TIMESTAMP (bq env)) as Hsorted.
  split; [exact Hsorted|]. split; [|split].
  - intros r1 r2 H1 H2 Hle.
    destruct (StronglySorted_compare later _ r1 r2 Hsorted H1 H2) as [->|[[_ Hc]|[Hd _]]]; lia.
  - apply query_samples_time_final.
  - intros Hall. rewrite query_samples_time_final.
    unfold query_thin_films.
    now rewrite (dated_thin_films_are_thin_films PARSE_TIMESTAMP (bq env) Hall).
Qed.

Lemma cumulative_count_final_witness :
  exists d,
    get_dashboard_data bq_parse_timestamp (an_environment zoned_timestamp_tables 200) = Ok d
    /\ List.last (List.map cumulative_count (samples_time d)) 0 = 2
    /\ thin_films_count d = 2.
Proof.
  eexists. split; [reflexivity|].
  destruct (cumulative_count_final bq_parse_timestamp
              (an_environment zoned_timestamp_tables 200) _ eq_refl) as (_ & _ & _ & H).
  split; [|reflexivity].
  apply H. intros s [<-|[<-|[]]] _; split; (reflexivity || discriminate).
Defined.

(** C2 (as stated) fails: a thin film without a creation timestamp is counted
    by [thin_films_count] and left out of the time series.  The tables have
    a spectroscopy dataset, so the spectra total is a number and the
    snapshot is returned. *)
Lemma cumulative_count_final_counterexample :
  exists d,
    get_dashboard_data bq_parse_timestamp (an_environment undated_tables 200) = Ok d
    /\ query_spectra undated_tables = Some 8
    /\ List.last (List.map cumulative_count (samples_time d)) 0 = 1
    /\ thin_films_count d = 2
    /\ List.last (List.map cumulative_count (samples_time d)) 0 <> thin_films_count d.
Proof. eexists. split; [reflexivity|]. repeat split. discriminate. Qed.

(** ** Joins and distinct values *)

Lemma firstn_In {A} (n : nat) (l : list A) (x : A) : In x (firstn n l) -> In x l.
Proof.
  revert n. induction l as [|a l IH]; intros [|n]; simpl; try tauto.
  intros [->|H]; eauto.
Qed.

Lemma left_join_In {A B} (on : A -> B -> bool) (l : list A) (r : list B) (a : A) (b : B) :
  In (a, Some b) (left_join on l r) -> In a l /\ In b r /\ on a b = true.
Proof.
  unfold left_join. rewrite List.in_flat_map. intros (a' & Ha' & Hin).
  unfold left_join_rows in Hin.
  destruct (List.filter (on a') r) as [|b0 bs] eqn:Hf.
  - destruct Hin as [[=]|[]].
  - rewrite <- Hf in Hin. apply List.in_map_iff in Hin as (b' & [= <- <-] & Hb').
    apply List.filter_In in Hb' as [Hb' Hon]. auto.
Qed.

Lemma left_join_fst_In {A B} (on : A -> B -> bool) (l : list A) (r : list B)
  (a : A) (ob : option B) :
  In (a, ob) (left_join on l r) -> In a l.
Proof.
  unfold left_join. rewrite List.in_flat_map. intros (a' & Ha' & Hin).
  unfold left_join_rows in Hin.
  destruct (List.filter (on a') r) as [|b0 bs].
  - destruct Hin as [[= <- _]|[]]. assumption.
  - apply List.in_map_iff in Hin as (b' & [= <- _] & _). assumption.
Qed.

Lemma filter_nil {A} (f : A -> bool) (l : list A) :
  (forall y, In y l -> f y = false) -> List.filter f l = [].
Proof.
  induction l as [|a l IH]; intros H; simpl; [reflexivity|].
  rewrite (H a) by now left. apply IH. intros y Hy. apply H. now right.
Qed.

(** In a table with distinct keys, a filter that only accepts rows with the
    key of [x] selects [x] alone. *)
Lemma filter_unique {A} (key : A -> Z) (f : A -> bool) (l : list A) (x : A) :
  List.NoDup (List.map key l) -> In x l -> f x = true ->
  (forall y, In y l -> f y = true -> key y = key x) ->
  List.filter f l = [x].
Proof.
  induction l as [|a l IH]; intros Hnd Hx Hfx Hkey; [destruct Hx|].
  simpl in Hnd. inversion Hnd as [|? ? Ha Hl]; subst. simpl.
  destruct Hx as [->|Hx].
  - rewrite Hfx. f_equal. apply filter_nil. intros y Hy.
    destruct (f y) eqn:Hfy; [|reflexivity].
    exfalso. apply Ha. rewrite <- (Hkey y (or_intror Hy) Hfy). now apply List.in_map.
  - destruct (f a) eqn:Hfa.
    + exfalso. apply Ha. rewrite (Hkey a (or_introl eq_refl) Hfa). now apply List.in_map.
    + apply IH; auto. intros y Hy. apply Hkey. now right.
Qed.

Lemma NoDup_map_filter {A} (key : A -> Z) (f : A -> bool) (l : list A) :
  List.NoDup (List.map key l) -> List.NoDup (List.map key (List.filter f l)).
Proof.
  induction l as [|a l IH]; simpl; intros H; [constructor|].
  inversion H as [|? ? Ha Hl]; subst.
  destruct (f a); simpl; auto. constructor; auto.
  intros Hin. apply Ha. apply List.in_map_iff in Hin as (y & Hy & Hin).
  apply List.filter_In in Hin as [Hin _]. rewrite <- Hy. now apply List.in_map.
Qed.

Lemma flat_map_singleton {A B} (f : A -> list B) (g : A -> B) (l : list A) :
  (forall a, f a = [g a]) -> flat_map f l = List.map g l.
Proof.
  intros H. induction l as [|a l IH]; simpl; [reflexivity|].
  now rewrite H, IH.
Qed.

(** A [LEFT JOIN] against a one-row table. *)
Lemma left_join_single {A B} (on : A -> B -> bool) (l : list A) (b : B) :
  left_join on l [b] = List.map (fun a => (a, if on a b then Some b else None)) l.
Proof.
  unfold left_join. apply flat_map_singleton. intros a.
  unfold left_join_rows. simpl. now destruct (on a b).
Qed.

(** A [WHERE] that rejects the NULL padding turns a [LEFT JOIN] into the
    inner join of the matching rows. *)
Lemma left_join_reject_null {A B} (on : A -> B -> bool) (p : A * option B -> bool)
  (l : list A) (r : list B) :
  (forall a, p (a, None) = false) ->
  List.filter p (left_join on l r)
  = flat_map (fun a => List.map (fun b => (a, Some b))
                         (List.filter (fun b => on a b && p (a, Some b)) r)) l.
Proof.
  intros Hnull. unfold left_join. induction l as [|a l IH]; [reflexivity|].
  cbn [flat_map]. rewrite List.filter_app, IH. f_equal. unfold left_join_rows.
  rewrite <- (filter_filter (fun b => p (a, Some b)) (on a) r).
  destruct (List.filter (on a) r) as [|b0 bs].
  - simpl. now rewrite Hnull.
  - generalize (b0 :: bs). intros m.
    induction m as [|b m IHm]; simpl; [reflexivity|].
    destruct (p (a, Some b)); simpl; congruence.
Qed.

Lemma flat_map_map {A B C} (g : A -> B) (f : B -> list C) (l : list A) :
  flat_map f (List.map g l) = flat_map (fun a => f (g a)) l.
Proof. induction l as [|a l IH]; simpl; congruence. Qed.

Lemma flat_map_if {A B} (c : A -> bool) (g : A -> B) (l : list A) :
  flat_map (fun a => if c a then [g a] else []) l = List.map g (List.filter c l).
Proof.
  induction l as [|a l IH]; simpl; [reflexivity|].
  destruct (c a); simpl; congruence.
Qed.

Lemma non_null_app {A} (l1 l2 : list (option A)) :
  non_null (l1 ++ l2) = (non_null l1 ++ non_null l2)%list.
Proof. induction l1 as [|[x|] l1 IH]; simpl; congruence. Qed.

Lemma filter_idempotent {A} (f : A -> bool) (l : list A) :
  List.filter f (List.filter f l) = List.filter f l.
Proof.
  rewrite filter_filter. apply List.filter_ext. intros a. now destruct (f a).
Qed.

Lemma distinctZ_stutter (x : Z) (pre m : list Z) :
  (forall y, In y pre -> y = x) ->
  distinctZ (x :: pre ++ m) = x :: List.filter (fun y => negb (y =? x)%Z) (distinctZ m).
Proof.
  induction pre as [|y pre IH]; intros H; [reflexivity|].
  assert (y = x) as -> by (apply H; now left).
  change (distinctZ (x :: (x :: pre) ++ m))
    with (x :: List.filter (fun y => negb (y =? x)%Z) (distinctZ (x :: pre ++ m))).
  rewrite IH by (intros z Hz; apply H; now right).
  simpl. rewrite Z.eqb_refl. simpl. now rewrite filter_idempotent.
Qed.

Lemma distinctZ_NoDup (l : list Z) : List.NoDup l -> distinctZ l = l.
Proof.
  induction 1 as [|x l Hx Hl IH]; simpl; [reflexivity|].
  rewrite IH. f_equal. 
  clear IH Hl. induction l as [|y l IH]; simpl; [reflexivity|].
  destruct (Z.eqb_spec y x) as [->|]; simpl.
  - exfalso. apply Hx. now left.
  - f_equal. apply IH. intros Hin. apply Hx. now right.
Qed.

Section JoinRows.
Context {A B : Type} (on : A -> B -> bool).

Lemma left_join_cons (a : A) (l : list A) (r : list B) :
  left_join on (a :: l) r = (left_join_rows on a r ++ left_join on l r)%list.
Proof. reflexivity. Qed.

Lemma left_join_rows_fst (a : A) (r : list B) (x : A * option B) :
  In x (left_join_rows on a r) -> fst x = a.
Proof.
  unfold left_join_rows. destruct (List.filter (on a) r) as [|b bs].
  - intros [<-|[]]. reflexivity.
  - intros H. apply List.in_map_iff in H as (b' & <- & _). reflexivity.
Qed.

Lemma left_join_rows_nonempty (a : A) (r : list B) :
  exists x rest, left_join_rows on a r = x :: rest.
Proof.
  unfold left_join_rows. destruct (List.filter (on a) r) as [|b bs]; simpl; eauto.
Qed.

Lemma left_join_rows_snd {C} (f : B -> C) (a : A) (r : list B) :
  non_null (List.map (fun x => option_map f (snd x)) (left_join_rows on a r))
  = List.map f (List.filter (on a) r).
Proof.
  unfold left_join_rows. destruct (List.filter (on a) r) as [|b bs]; [reflexivity|].
  generalize (b :: bs). intros m. induction m as [|b' m IH]; simpl; congruence.
Qed.

Lemma filter_left_join_rows (f : A -> bool) (a : A) (r : list B) :
  List.filter (fun x => f (fst x)) (left_join_rows on a r)
  = if f a then left_join_rows on a r else [].
Proof.
  assert (H : forall m : list (A * option B),
             (forall x, In x m -> fst x = a) ->
             List.filter (fun x => f (fst x)) m = if f a then m else []).
  { induction m as [|x m IH]; intros Hm; simpl; [now destruct (f a)|].
    rewrite (Hm x) by now left. rewrite IH by (intros y Hy; apply Hm; now right).
    now destruct (f a). }
  apply H. intros x. apply left_join_rows_fst.
Qed.

(** A [WHERE] on the left table's columns can be applied before the join. *)
Lemma left_join_filter_fst (f : A -> bool) (l : list A) (r : list B) :
  List.filter (fun x => f (fst x)) (left_join on l r) = left_join on (List.filter f l) r.
Proof.
  induction l as [|a l IH]; [reflexivity|].
  rewrite left_join_cons, List.filter_app, IH, filter_left_join_rows. simpl.
  destruct (f a); [now rewrite left_join_cons|reflexivity].
Qed.
End JoinRows.

(** ** The precursor join *)

Lemma precursor_rows_joined (wh : warehouse) (r : precursor_row) :
  In r (query_thin_films_precursors wh) ->
  exists tf sl ps,
    In tf (sample_table wh) /\ is_thin_film tf = true
    /\ In sl (samplelink_table wh) /\ sl_sample_id sl = s_id tf
    /\ In ps (sample_table wh) /\ sl_parent_sample_id sl = s_id ps
    /\ s_sample_type ps = Some "precursor solution"
    /\ r = joined_row tf ps.
Proof.
  unfold query_thin_films_precursors, LIMIT. intros H. apply firstn_In in H.
  apply List.in_map_iff in H as ([[tf osl] ops] & <- & H).
  apply List.filter_In in H as [Hj Hp].
  unfold is_precursor in Hp. simpl in Hp.
  destruct ops as [ps|]; [|discriminate].
  apply left_join_In in Hj as (Hinner & Hps & Hon). simpl in Hon.
  destruct osl as [sl|]; [|discriminate].
  apply left_join_In in Hinner as (Htf & Hsl & Hon1).
  apply List.filter_In in Htf as [Htf Hfilm].
  apply Z.eqb_eq in Hon, Hon1.
  assert (Hty : s_sample_type ps = Some "precursor solution").
  { unfold sql_eq in Hp. destruct (s_sample_type ps) as [ty|]; [|discriminate].
    apply String.eqb_eq in Hp. now subst. }
  exists tf, sl, ps. repeat split; auto.
Qed.

Lemma precursor_single_link (wh : warehouse) (tf ps : sample) (sl : samplelink) :
  List.NoDup (List.map s_id (sample_table wh)) ->
  samplelink_table wh = [sl] ->
  In tf (sample_table wh) -> is_thin_film tf = true -> s_id tf = sl_sample_id sl ->
  In ps (sample_table wh) -> s_id ps = sl_parent_sample_id sl ->
  s_sample_type ps = Some "precursor solution" ->
  query_thin_films_precursors wh = [joined_row tf ps].
Proof.
  intros Hnd Hlinks Htf Hfilm Htfid Hps Hpsid Htype.
  unfold query_thin_films_precursors, precursor_join.
  rewrite left_join_reject_null by reflexivity.
  rewrite Hlinks, left_join_single, flat_map_map.
  rewrite (List.flat_map_ext _
             (fun a => if (s_id a =? sl_sample_id sl)%Z then [((a, Some sl), Some ps)] else [])).
  - rewrite flat_map_if.
    rewrite (filter_unique s_id _ _ tf).
    + reflexivity.
    + now apply NoDup_map_filter.
    + apply List.filter_In. auto.
    + apply Z.eqb_eq. assumption.
    + intros y _ Hy. apply Z.eqb_eq in Hy. lia.
  - intros a. destruct (s_id a =? sl_sample_id sl)%Z; simpl.
    + rewrite (filter_unique s_id _ _ ps); auto.
      * unfold is_precursor. simpl. rewrite Htype. simpl.
        rewrite andb_true_r. apply Z.eqb_eq. lia.
      * intros y _ Hy. apply andb_true_iff in Hy as [Hy _].
        apply Z.eqb_eq in Hy. lia.
    + now rewrite filter_nil.
Qed.

(** C8.  The precursor result has at most 500 rows; each row pairs a thin
    film of the project with a parent typed ['precursor solution'] through a
    row of the link table; and in tables with distinct sample identifiers
    and a single link from a thin film to a precursor solution, the result
    is exactly that one pair with the two names. *)
Theorem precursor_join_result (wh : warehouse) :
  (List.length (query_thin_films_precursors wh) <= 500)%nat
  /\ (forall r, In r (query_thin_films_precursors wh) ->
        exists tf sl ps,
          In tf (sample_table wh) /\ is_thin_film tf = true
          /\ In sl (samplelink_table wh) /\ sl_sample_id sl = s_id tf
          /\ In ps (sample_table wh) /\ sl_parent_sample_id sl = s_id ps
          /\ s_sample_type ps = Some "precursor solution"
          /\ r = joined_row tf ps)
  /\ (forall tf ps sl,
        List.NoDup (List.map s_id (sample_table wh)) ->
        samplelink_table wh = [sl] ->
        In tf (sample_table wh) -> is_thin_film tf = true -> s_id tf = sl_sample_id sl ->
        In ps (sample_table wh) -> s_id ps = sl_parent_sample_id sl ->
        s_sample_type ps = Some "precursor solution" ->
        query_thin_films_precursors wh
        = [{| thin_film_id := s_id tf;
              thin_film_name := s_sample_name tf;
              precursor_name := s_sample_name ps;
              precursor_description := s_description ps |}]).
Proof.
  split; [|split].
  - unfold query_thin_films_precursors, LIMIT. apply List.firstn_le_length.
  - apply precursor_rows_joined.
  - intros tf ps sl. apply precursor_single_link.
Qed.

(** Three thin films, two precursor solutions, one link: one row, with the
    names of the linked pair. *)
Lemma precursor_join_result_witness :
  List.length (List.filter is_thin_film (sample_table precursor_tables)) = 3%nat
  /\ List.length (List.filter (fun s => sql_eq (s_sample_type s) "precursor solution")
                    (sample_table precursor_tables)) = 2%nat
  /\ query_thin_films_precursors precursor_tables
     = [{| thin_film_id := 2; thin_film_name := Some "film-2";
           precursor_name := Some "ink-2"; precursor_description := None |}].
Proof.
  split; [reflexivity|]. split; [reflexivity|].
  destruct (precursor_join_result precursor_tables) as (_ & _ & H).
  apply (H (a_sample 2 (Some "film-2") (Some "Thin Film") None)
           (a_sample 5 (Some "ink-2") (Some "precursor solution") None)
           {| sl_sample_id := 2; sl_parent_sample_id := 5 |}).
  - simpl. repeat (apply List.NoDup_cons;
                   [simpl; intros Hin; repeat (destruct Hin as [Hin|Hin]; [discriminate Hin|]);
                    exact Hin|]).
    apply List.NoDup_nil.
  - reflexivity.
  - simpl. auto.
  - reflexivity.
  - reflexivity.
  - simpl. auto 6.
  - reflexivity.
  - reflexivity.
Defined.

(** ** When the aggregation raises *)

Section FailureFacts.
Variable PARSE_TIMESTAMP : string -> string -> option Z.

Lemma collect_Ok {A B} (f : A -> result B) (l : list A) :
  (forall x, In x l -> exists y, f x = Ok y) -> exists ys, collect f l = Ok ys.
Proof.
  induction l as [|x l IH]; intros H; simpl; [eauto|].
  destruct (H x (or_introl eq_refl)) as [y ->].
  destruct IH as [ys ->]; [intros z Hz; apply H; now right|].
  simpl. eauto.
Qed.

Lemma collect_Err {A B} (f : A -> result B) (l : list A) (x : A) (e : string) :
  In x l -> f x = Err e -> exists e', collect f l = Err e'.
Proof.
  induction l as [|a l IH]; intros Hin Hf; [destruct Hin|]. simpl.
  destruct Hin as [->|Hin].
  - rewrite Hf. simpl. eauto.
  - destruct (f a); simpl; [|eauto].
    destruct (IH Hin Hf) as [e' ->]. simpl. eauto.
Qed.

(** The aggregation returns when the spectra total is not NULL and the
    zoned format parses every creation timestamp the thumbnail query
    selects. *)
Lemma get_dashboard_data_returns (env : environment) :
  query_spectra (bq env) <> None ->
  (forall r s, In r (thumbnail_join (bq env)) -> thumbnail_where r = true ->
               s_date_created (fst (fst r)) = Some s ->
               PARSE_TIMESTAMP FORMAT_ZONED s <> None) ->
  exists d, get_dashboard_data PARSE_TIMESTAMP env = Ok d.
Proof.
  intros Hn H.
  destruct (query_spectra (bq env)) as [n|] eqn:Hq; [|contradiction].
  destruct (collect_Ok (thumbnail_select PARSE_TIMESTAMP (CURRENT_DATE env))
              (List.filter thumbnail_where (thumbnail_join (bq env)))) as [rows Hrows].
  { intros r Hr. apply List.filter_In in Hr as [Hr Hw].
    unfold thumbnail_select, STRICT_PARSE_TIMESTAMP.
    destruct (s_date_created (fst (fst r))) as [s|] eqn:Hs; simpl; [|eauto].
    specialize (H r s Hr Hw Hs).
    destruct (PARSE_TIMESTAMP FORMAT_ZONED s); [simpl; eauto|contradiction]. }
  destruct (get_dashboard_data_of_thumbnail PARSE_TIMESTAMP env n
              (List.map snd (LIMIT 1 (order_by newest_first rows))) Hq) as (d & Hd & _).
  - unfold query_thumbnail_of_day. now rewrite Hrows.
  - eauto.
Qed.

Lemma get_dashboard_data_raises (env : environment)
  (r : (sample * datasetsamplelink) * dataset) (s : string) :
  In r (thumbnail_join (bq env)) -> thumbnail_where r = true ->
  s_date_created (fst (fst r)) = Some s ->
  PARSE_TIMESTAMP FORMAT_ZONED s = None ->
  exists e, get_dashboard_data PARSE_TIMESTAMP env = Err e.
Proof.
  intros Hr Hw Hs Hp.
  destruct (collect_Err (thumbnail_select PARSE_TIMESTAMP (CURRENT_DATE env))
              (List.filter thumbnail_where (thumbnail_join (bq env))) r
              ("Failed to parse input string " ++ s)) as [e He].
  - apply List.filter_In. auto.
  - unfold thumbnail_select, STRICT_PARSE_TIMESTAMP. now rewrite Hs, Hp.
  - apply (get_dashboard_data_Err PARSE_TIMESTAMP env e).
    unfold query_thumbnail_of_day. now rewrite He.
Qed.
End FailureFacts.

(** C1 (the code departs from it).  A creation timestamp without a zone is
    accepted by the time-series query, which falls back to the plain
    format, but the thumbnail query parses it with the zoned format only
    and without [SAFE.]: on these tables the whole aggregation raises and
    [/api/data] answers 500. *)
Theorem plain_timestamp_fails_aggregation :
  query_samples_time bq_parse_timestamp plain_timestamp_tables
  = [{| date := 19844; daily_count := 2; cumulative_count := 2 |}]
  /\ get_dashboard_data bq_parse_timestamp (an_environment plain_timestamp_tables 200)
     = Err "Failed to parse input string 2024-05-01T10:00:00"
  /\ fst (api_data bq_parse_timestamp (an_environment plain_timestamp_tables 200)) = 500.
Proof. repeat split. Qed.

(** ** The spectra count *)

(** *** The pattern and the substring *)

Lemma like_chars_percent (p s : list ascii) :
  like_chars ("%"%char :: p) s
  = like_chars p s
    || match s with [] => false | _ :: s' => like_chars ("%"%char :: p) s' end.
Proof. destruct s; reflexivity. Qed.

Lemma like_chars_cons (c : ascii) (p s : list ascii) :
  like_chars (c :: p) s
  = if Ascii.eqb c "%" then
      like_chars p s || match s with [] => false | _ :: s' => like_chars (c :: p) s' end
    else if Ascii.eqb c "_" then
      match s with [] => false | _ :: s' => like_chars p s' end
    else
      match s with [] => false | d :: s' => Ascii.eqb c d && like_chars p s' end.
Proof.
  cbn [like_chars]. destruct (Ascii.eqb c "%"); [destruct s; reflexivity|].
  destruct (Ascii.eqb c "_"); reflexivity.
Qed.

Lemma like_chars_any (s : list ascii) : like_chars ["%"%char] s = true.
Proof.
  induction s as [|c s IH]; [reflexivity|].
  rewrite like_chars_percent, IH. apply orb_true_r.
Qed.

Lemma chars_append (a b : string) : chars (a ++ b) = (chars a ++ chars b)%list.
Proof.
  unfold chars. induction a as [|c a IH]; simpl; [reflexivity|]. now rewrite IH.
Qed.

Lemma like_prefix (sub s : string) :
  String.prefix sub s = true -> like_chars (chars sub ++ ["%"%char]) (chars s) = true.
Proof.
  revert s. induction sub as [|c sub IH]; intros s H.
  - apply like_chars_any.
  - destruct s as [|d s]; [discriminate|]. simpl in H.
    destruct (ascii_dec c d) as [<-|]; [|discriminate].
    change (chars (String c sub)) with (c :: chars sub).
    change (chars (String c s)) with (c :: chars s).
    cbn [app]. rewrite like_chars_cons.
    destruct (Ascii.eqb c "%") eqn:Hc.
    + rewrite (like_chars_cons c _ (chars s)), Hc, (IH s H). simpl. apply orb_true_r.
    + rewrite (IH s H), Ascii.eqb_refl. now destruct (Ascii.eqb c "_").
Qed.

(** Every label that contains [sub] matches the pattern [%sub%]. *)
Lemma contains_substring_LIKE (sub s : string) :
  contains_substring sub s = true -> LIKE s ("%" ++ sub ++ "%") = true.
Proof.
  unfold LIKE. change (chars ("%" ++ sub ++ "%")) with ("%"%char :: chars (sub ++ "%")).
  rewrite chars_append. change (chars "%") with ["%"%char].
  induction s as [|c s IH]; intros H.
  - rewrite like_chars_percent.
    simpl in H. rewrite orb_false_r in H. now rewrite (like_prefix sub "" H).
  - cbn [contains_substring] in H. apply orb_true_iff in H as [H|H].
    + rewrite like_chars_percent. now rewrite (like_prefix _ _ H).
    + change (chars (String c s)) with (c :: chars s).
      rewrite like_chars_percent, (IH H). apply orb_true_r.
Qed.


(** *** The total over the qualifying datasets *)

Lemma join_group_ids {B} (on : dataset -> B -> bool) (l : list dataset) (r : list B) :
  distinctZ (List.map (fun x => d_id (fst x)) (left_join on l r))
  = distinctZ (List.map d_id l).
Proof.
  induction l as [|a l IH]; [reflexivity|].
  rewrite left_join_cons, List.map_app.
  destruct (left_join_rows_nonempty on a r) as (x & rest & Hb).
  pose proof (left_join_rows_fst on a r) as Hfst. rewrite Hb in *.
  cbn [List.map app]. rewrite (Hfst x) by now left.
  rewrite distinctZ_stutter.
  - simpl. now rewrite IH.
  - intros y Hy. apply List.in_map_iff in Hy as (z & <- & Hz).
    f_equal. apply Hfst. now right.
Qed.

Lemma join_group_samples (on : dataset -> datasetsamplelink -> bool)
  (l : list dataset) (r : list datasetsamplelink) (a : dataset) :
  List.NoDup (List.map d_id l) -> In a l ->
  non_null (List.map (fun x => option_map dsl_sample_id (snd x))
              (List.filter (fun x => (d_id (fst x) =? d_id a)%Z) (left_join on l r)))
  = List.map dsl_sample_id (List.filter (on a) r).
Proof.
  induction l as [|b l IH]; intros Hnd Hin; [destruct Hin|].
  simpl in Hnd. inversion Hnd as [|? ? Hb Hl]; subst.
  rewrite left_join_cons, List.filter_app, List.map_app, non_null_app.
  rewrite (filter_left_join_rows on (fun d => (d_id d =? d_id a)%Z)).
  destruct Hin as [->|Hin].
  - rewrite Z.eqb_refl, left_join_rows_snd.
    rewrite (filter_nil _ (left_join on l r)); [apply List.app_nil_r|].
    intros [d ol] Hd. simpl. apply Z.eqb_neq. intros Heq.
    apply Hb. rewrite <- Heq. apply List.in_map.
    now apply left_join_fst_In in Hd.
  - destruct (Z.eqb_spec (d_id b) (d_id a)) as [Heq|_].
    + exfalso. apply Hb. rewrite Heq. now apply List.in_map.
    + simpl. now apply IH.
Qed.

(** With distinct dataset identifiers, the spectra total is 8 times the
    number of distinct linked samples, summed over the datasets of the
    project whose lower-cased label matches the pattern. *)
Lemma query_spectra_sum (wh : warehouse) :
  List.NoDup (List.map d_id (dataset_table wh)) ->
  query_spectra wh
  = SUM (List.map (fun d => COUNT (linked_samples wh d) * 8)
           (List.filter (measurement_like "%pollux_oospec%") (dataset_table wh))).
Proof.
  intros Hnd. unfold query_spectra, spectra_join.
  rewrite (left_join_filter_fst _ (measurement_like "%pollux_oospec%")).
  set (qualifying := List.filter (measurement_like "%pollux_oospec%") (dataset_table wh)).
  assert (Hq : List.NoDup (List.map d_id qualifying)) by now apply NoDup_map_filter.
  rewrite join_group_ids, (distinctZ_NoDup _ Hq), List.map_map. f_equal.
  apply List.map_ext_in. intros a Ha. unfold sample_count, linked_samples.
  now rewrite join_group_samples.
Qed.

(** The example of the two labelled datasets: (2 + 3) * 8. *)
Example spectra_count_example :
  exists d,
    get_dashboard_data bq_parse_timestamp (an_environment spectra_tables 200) = Ok d
    /\ spectra_count d = 40.
Proof. eexists. split; reflexivity. Qed.

(** No qualifying dataset: the total is NULL, its conversion raises, and
    the endpoint answers 500. *)
Example null_spectra_total_raises :
  query_spectra no_spectra_tables = None
  /\ get_dashboard_data bq_parse_timestamp (an_environment no_spectra_tables 200)
     = Err NA_TO_INT_ERROR
  /\ fst (api_data bq_parse_timestamp (an_environment no_spectra_tables 200)) = 500.
Proof. repeat split. Qed.

(** C4 (the code departs from it).  The pattern's [_] matches any character,
    so a label that does not contain the substring [pollux_oospec] still
    qualifies: the one dataset labelled ['Pollux-OOSpec A'], linked to one
    sample, contributes 8 spectra. *)
Theorem spectra_count_counts_wildcard_match :
  List.map (fun d => contains_substring "pollux_oospec" (LOWER (COALESCE (d_measurement d) "")))
    (dataset_table hyphen_label_tables) = [false]
  /\ exists d,
       get_dashboard_data bq_parse_timestamp (an_environment hyphen_label_tables 200) = Ok d
       /\ spectra_count d = 8.
Proof. split; [reflexivity|]. eexists. split; reflexivity. Qed.

(** * Further properties *)

(** ** Patterns without wildcards *)

Lemma like_literal_prefix (sub t : string) :
  wildcard_free sub = true ->
  like_chars (chars sub ++ ["%"%char]) (chars t) = String.prefix sub t.
Proof.
  unfold wildcard_free. revert t. induction sub as [|c sub IH]; intros t H.
  - rewrite like_chars_any. now destruct t.
  - change (chars (String c sub)) with (c :: chars sub) in *.
    cbn [forallb] in H. apply andb_true_iff in H as [Hc H].
    apply andb_true_iff in Hc as [Hp Hu].
    apply negb_true_iff in Hp, Hu.
    cbn [app]. rewrite like_chars_cons, Hp, Hu.
    destruct t as [|d t]; [reflexivity|].
    change (chars (String d t)) with (d :: chars t). simpl String.prefix.
    destruct (ascii_dec c d) as [<-|Hne].
    + rewrite Ascii.eqb_refl. simpl. now apply IH.
    + apply Ascii.eqb_neq in Hne. now rewrite Hne.
Qed.

(** For a body without wildcards, [LIKE '%body%'] is substring
    containment. *)
Lemma LIKE_contains_substring (sub s : string) :
  wildcard_free sub = true ->
  LIKE s ("%" ++ sub ++ "%") = contains_substring sub s.
Proof.
  intros H. unfold LIKE.
  change (chars ("%" ++ sub ++ "%")) with ("%"%char :: chars (sub ++ "%")).
  rewrite chars_append. change (chars "%") with ["%"%char].
  induction s as [|c s IH].
  - rewrite like_chars_percent, (like_literal_prefix sub "" H).
    simpl. now rewrite !orb_false_r.
  - change (chars (String c s)) with (c :: chars s).
    rewrite like_chars_percent, IH.
    change (c :: chars s) with (chars (String c s)).
    now rewrite (like_literal_prefix sub _ H).
Qed.

Lemma measurement_like_contains (sub : string) (d : dataset) :
  wildcard_free sub = true ->
  measurement_like ("%" ++ sub ++ "%") d = in_project_dataset d && label_contains sub d.
Proof.
  intros H. unfold measurement_like, label_contains, sql_like, sql_lower.
  destruct (d_measurement d); [|reflexivity].
  now rewrite LIKE_contains_substring.
Qed.

(** X1.  The three headline dataset counts are substring counts: each is the
    number of datasets of the project whose lower-cased measurement label
    contains ['spin'], ['sample well'] and ['oospec'] respectively; a NULL
    label is never counted. *)
Theorem dataset_counts_are_substring_counts (wh : warehouse) :
  query_spin_runs wh
  = COUNT (List.filter (fun d => in_project_dataset d && label_contains "spin" d)
             (dataset_table wh))
  /\ query_sample_well wh
     = COUNT (List.filter (fun d => in_project_dataset d && label_contains "sample well" d)
                (dataset_table wh))
  /\ query_uvvis_datasets wh
     = COUNT (List.filter (fun d => in_project_dataset d && label_contains "oospec" d)
                (dataset_table wh)).
Proof.
  unfold query_spin_runs, query_sample_well, query_uvvis_datasets.
  repeat split; f_equal; apply List.filter_ext; intros d.
  - apply (measurement_like_contains "spin"). reflexivity.
  - apply (measurement_like_contains "sample well"). reflexivity.
  - apply (measurement_like_contains "oospec"). reflexivity.
Qed.

(** ** Headline counts *)

Lemma get_dashboard_data_counts
  (PARSE_TIMESTAMP : string -> string -> option Z)
  (env : environment) (d : dashboard_data) :
  get_dashboard_data PARSE_TIMESTAMP env = Ok d ->
  spin_runs_count d = query_spin_runs (bq env)
  /\ sample_well_count d = query_sample_well (bq env)
  /\ uvvis_datasets_count d = query_uvvis_datasets (bq env).
Proof.
  unfold get_dashboard_data.
  destruct (query_spectra (bq env)) as [n|]; simpl; [|discriminate].
  destruct (query_thumbnail_of_day PARSE_TIMESTAMP (bq env) (CURRENT_DATE env))
    as [df|e]; simpl; [|discriminate].
  intros [= <-]. repeat split.
Qed.

Lemma filter_and_count_le {A} (f g : A -> bool) (l : list A) :
  COUNT (List.filter (fun a => f a && g a) l) <= COUNT (List.filter f l).
Proof.
  unfold COUNT. apply inj_le.
  induction l as [|a l IH]; simpl; [lia|].
  destruct (f a), (g a); simpl; lia.
Qed.

Lemma filter_implies_count_le {A} (f g : A -> bool) (l : list A) :
  (forall a, In a l -> f a = true -> g a = true) ->
  COUNT (List.filter f l) <= COUNT (List.filter g l).
Proof.
  unfold COUNT. intros H. apply inj_le.
  induction l as [|a l IH]; simpl; [lia|].
  assert (IH' : (List.length (List.filter f l) <= List.length (List.filter g l))%nat)
    by (apply IH; intros b Hb; apply H; now right).
  destruct (f a) eqn:Hf.
  - rewrite (H a (or_introl eq_refl) Hf). simpl. lia.
  - destruct (g a); simpl; lia.
Qed.

(** X2.  In every snapshot the three filtered dataset counts lie between 0
    and [total_datasets], and [thin_films_count] lies between 0 and the sum
    of the [sample_types] counts. *)
Theorem headline_counts_bounded
  (PARSE_TIMESTAMP : string -> string -> option Z)
  (env : environment) (d : dashboard_data) :
  get_dashboard_data PARSE_TIMESTAMP env = Ok d ->
  (0 <= spin_runs_count d <= total_datasets d)
  /\ (0 <= sample_well_count d <= total_datasets d)
  /\ (0 <= uvvis_datasets_count d <= total_datasets d)
  /\ (0 <= thin_films_count d <= sumZ (List.map st_count (sample_types d))).
Proof.
  intros H. destruct (get_dashboard_data_counts _ _ _ H) as (Hs & Hw & Hu).
  apply get_dashboard_data_Ok in H.
  destruct H as (df & _ & _ & Htf & _ & Htot & Hst & _).
  rewrite Hs, Hw, Hu, Htf, Htot, Hst, sample_types_sum.
  unfold query_spin_runs, query_sample_well, query_uvvis_datasets, query_dataset_count,
    query_thin_films, measurement_like, is_thin_film.
  repeat split; try apply COUNT_nonneg; apply filter_and_count_le.
Qed.

Lemma headline_counts_bounded_witness :
  exists d,
    get_dashboard_data bq_parse_timestamp (an_environment spectra_tables 200) = Ok d
    /\ 0 <= uvvis_datasets_count d <= total_datasets d.
Proof.
  eexists. split; [reflexivity|].
  destruct (headline_counts_bounded bq_parse_timestamp
              (an_environment spectra_tables 200) _ eq_refl) as (_ & _ & H & _).
  exact H.
Defined.

(** ** Spectra and UV-Vis datasets *)

Lemma sumZ_scaled {A} (f : A -> Z) (k : Z) (l : list A) :
  sumZ (List.map (fun a => f a * k) l) = k * sumZ (List.map f l).
Proof. induction l as [|a l IH]; simpl; lia. Qed.

Lemma sumZ_nonneg (l : list Z) : Forall (fun x => 0 <= x) l -> 0 <= sumZ l.
Proof. induction 1; simpl; lia. Qed.

Lemma like_literal_split (a : string) (q : list ascii) (s : string) :
  wildcard_free a = true ->
  like_chars (chars a ++ q) (chars s) = true ->
  exists s', s = a ++ s' /\ like_chars q (chars s') = true.
Proof.
  unfold wildcard_free. revert s. induction a as [|c a IH]; intros s H Hl.
  - exists s. auto.
  - change (chars (String c a)) with (c :: chars a) in *.
    cbn [forallb] in H. apply andb_true_iff in H as [Hc H].
    apply andb_true_iff in Hc as [Hp Hu]. apply negb_true_iff in Hp, Hu.
    cbn [app] in Hl. rewrite like_chars_cons, Hp, Hu in Hl.
    destruct s as [|d s]; [discriminate|].
    change (chars (String d s)) with (d :: chars s) in Hl.
    apply andb_true_iff in Hl as [Hd Hl]. apply Ascii.eqb_eq in Hd. subst d.
    destruct (IH s H Hl) as (s' & -> & Hs'). exists s'. auto.
Qed.

Lemma like_underscore (q : list ascii) (s : string) :
  like_chars ("_"%char :: q) (chars s) = true ->
  exists c s', s = String c s' /\ like_chars q (chars s') = true.
Proof.
  rewrite like_chars_cons. simpl.
  destruct s as [|c s]; [discriminate|]. intros H. exists c, s. auto.
Qed.

Lemma contains_substring_skip (sub a t : string) :
  contains_substring sub t = true -> contains_substring sub (a ++ t) = true.
Proof.
  intros H. induction a as [|c a IH]; [exact H|].
  simpl. rewrite IH. apply orb_true_r.
Qed.

(** Whatever the wildcard of ['%pollux_oospec%'] matches, the label still
    contains ['oospec']. *)
Lemma pollux_label_contains_oospec (s : string) :
  LIKE s "%pollux_oospec%" = true -> contains_substring "oospec" s = true.
Proof.
  unfold LIKE. change (chars "%pollux_oospec%") with ("%"%char :: chars "pollux_oospec%").
  assert (Hhead : forall t, like_chars (chars "pollux_oospec%") (chars t) = true ->
                            contains_substring "oospec" t = true).
  { intros t H.
    change (chars "pollux_oospec%")
      with (chars "pollux" ++ "_"%char :: chars "oospec%")%list in H.
    apply like_literal_split in H as (s1 & -> & H); [|reflexivity].
    apply like_underscore in H as (u & s2 & -> & H).
    change (chars "oospec%") with (chars "oospec" ++ ["%"%char])%list in H.
    rewrite like_literal_prefix in H by reflexivity.
    apply contains_substring_skip. cbn [contains_substring].
    apply orb_true_iff. right.
    destruct s2; cbn [contains_substring]; rewrite H; reflexivity. }
  induction s as [|c s IH]; rewrite like_chars_percent; intros H;
    apply orb_true_iff in H as [H|H].
  - now apply (Hhead "").
  - discriminate.
  - now apply (Hhead (String c s)).
  - change (chars (String c s)) with (c :: chars s) in H.
    cbn [contains_substring]. rewrite (IH H). apply orb_true_r.
Qed.

Lemma spectra_qualifies_as_uvvis (d : dataset) :
  measurement_like "%pollux_oospec%" d = true -> measurement_like "%oospec%" d = true.
Proof.
  unfold measurement_like, sql_like, sql_lower. intros H.
  apply andb_true_iff in H as [Hp H]. rewrite Hp. simpl.
  destruct (d_measurement d) as [m|]; [|discriminate].
  rewrite (LIKE_contains_substring "oospec") by reflexivity.
  now apply pollux_label_contains_oospec.
Qed.

Lemma query_spectra_multiple (wh : warehouse) :
  exists k, 0 <= k /\ COALESCE (query_spectra wh) 0 = 8 * k.
Proof.
  unfold query_spectra.
  set (joined := spectra_join wh).
  set (ids := distinctZ (List.map (fun r => d_id (fst r)) joined)).
  exists (sumZ (List.map (sample_count joined) ids)). split.
  - apply sumZ_nonneg. apply Forall_forall. intros x Hx.
    apply List.in_map_iff in Hx as (id & <- & _). apply COUNT_nonneg.
  - rewrite <- sumZ_scaled. destruct ids; [reflexivity|]. reflexivity.
Qed.

Lemma query_spectra_needs_qualifying (wh : warehouse) :
  List.filter (measurement_like "%pollux_oospec%") (dataset_table wh) = [] ->
  query_spectra wh = None.
Proof.
  intros H. unfold query_spectra, spectra_join.
  rewrite (left_join_filter_fst _ (measurement_like "%pollux_oospec%")), H.
  reflexivity.
Qed.

(** X3.  [spectra_count] is a non-negative multiple of 8.  Every dataset
    that qualifies for it is also counted in [uvvis_datasets_count], so the
    number of qualifying datasets never exceeds that count, and a positive
    [spectra_count] comes with a positive [uvvis_datasets_count]. *)
Theorem spectra_count_shape
  (PARSE_TIMESTAMP : string -> string -> option Z)
  (env : environment) (d : dashboard_data) :
  get_dashboard_data PARSE_TIMESTAMP env = Ok d ->
  (exists k, 0 <= k /\ spectra_count d = 8 * k)
  /\ COUNT (List.filter (measurement_like "%pollux_oospec%") (dataset_table (bq env)))
     <= uvvis_datasets_count d
  /\ (0 < spectra_count d -> 0 < uvvis_datasets_count d).
Proof.
  intros H. destruct (get_dashboard_data_counts _ _ _ H) as (_ & _ & Hu).
  apply get_dashboard_data_Ok in H.
  destruct H as (df & _ & _ & _ & Hs & _).
  rewrite Hs, Hu.
  assert (Hle : COUNT (List.filter (measurement_like "%pollux_oospec%")
                         (dataset_table (bq env)))
                <= query_uvvis_datasets (bq env)).
  { unfold query_uvvis_datasets. apply filter_implies_count_le.
    intros a _. apply spectra_qualifies_as_uvvis. }
  split; [apply query_spectra_multiple|]. split; [exact Hle|].
  intros Hpos.
  destruct (List.filter (measurement_like "%pollux_oospec%") (dataset_table (bq env)))
    as [|q qs] eqn:Hq.
  - rewrite (query_spectra_needs_qualifying _ Hq) in Hpos. simpl in Hpos. lia.
  - unfold COUNT in Hle. simpl in Hle. lia.
Qed.

Lemma spectra_count_shape_witness :
  exists d,
    get_dashboard_data bq_parse_timestamp (an_environment spectra_tables 200) = Ok d
    /\ spectra_count d = 40
    /\ 0 < uvvis_datasets_count d.
Proof.
  eexists. split; [reflexivity|]. split; [reflexivity|].
  destruct (spectra_count_shape bq_parse_timestamp
              (an_environment spectra_tables 200) _ eq_refl) as (_ & _ & H).
  apply H. reflexivity.
Defined.

(** ** The breakdown tables *)

Section WeightedGroups.
Context {K : Type} (eqk : K -> K -> bool) (P : K -> bool).
Hypothesis eqk_P : forall a b, eqk a b = true -> P a = P b.

Lemma bump_selected (k : K) (g : list (K * Z)) :
  sumZ (List.map (selected P) (bump eqk k g))
  = sumZ (List.map (selected P) g) + (if P k then 1 else 0).
Proof.
  induction g as [|[k' n] g IH]; unfold selected in *; simpl.
  - destruct (P k); lia.
  - destruct (eqk k k') eqn:He; simpl.
    + rewrite (eqk_P _ _ He). destruct (P k'); lia.
    + rewrite IH. lia.
Qed.

(** The counts of the groups selected by [P] add up to the number of rows
    whose key [P] selects. *)
Lemma group_count_selected (keys : list K) :
  sumZ (List.map (selected P) (group_count eqk keys)) = COUNT (List.filter P keys).
Proof.
  unfold group_count.
  assert (H : forall g,
             sumZ (List.map (selected P) (fold_left (fun g k => bump eqk k g) keys g))
             = sumZ (List.map (selected P) g) + COUNT (List.filter P keys)).
  { induction keys as [|k keys IH]; intros g; unfold COUNT in *; simpl; [lia|].
    rewrite IH, bump_selected. destruct (P k); simpl; lia. }
  rewrite H. simpl. lia.
Qed.

Lemma sum_filter_selected (l : list (K * Z)) :
  sumZ (List.map snd (List.filter (fun g => P (fst g)) l)) = sumZ (List.map (selected P) l).
Proof.
  induction l as [|g l IH]; unfold selected in *; simpl; [reflexivity|].
  destruct (P (fst g)); simpl; lia.
Qed.
End WeightedGroups.

(** X4.  The headline [thin_films_count] can be read off the [sample_types]
    breakdown: it is the sum of the counts of the rows whose label, in lower
    case, is ['thin film']. *)
Theorem thin_films_count_in_breakdown
  (PARSE_TIMESTAMP : string -> string -> option Z)
  (env : environment) (d : dashboard_data) :
  get_dashboard_data PARSE_TIMESTAMP env = Ok d ->
  sumZ (List.map st_count
          (List.filter (fun r => String.eqb (LOWER (st_sample_type r)) "thin film")
             (sample_types d)))
  = thin_films_count d.
Proof.
  intros H. apply get_dashboard_data_Ok in H.
  destruct H as (df & _ & _ & Htf & _ & _ & Hst & _).
  rewrite Hst, Htf. unfold query_sample_types, query_thin_films.
  set (P := fun k : string => String.eqb (LOWER k) "thin film").
  rewrite List.filter_map_swap, List.map_map. cbn [st_count st_sample_type].
  rewrite (List.filter_ext _ (fun g : string * Z => P (fst g))) by reflexivity.
  rewrite sum_filter_selected, (order_by_sum by_count_desc (selected P)).
  rewrite group_count_selected.
  - rewrite List.filter_map_swap. unfold COUNT. rewrite List.length_map, filter_filter.
    do 2 f_equal. apply List.filter_ext. intros x.
    unfold is_thin_film, P, sample_type_label. now destruct (s_sample_type x).
  - intros a b Hab. apply String.eqb_eq in Hab. now subst.
Qed.

Lemma thin_films_count_in_breakdown_witness :
  exists d,
    get_dashboard_data bq_parse_timestamp (an_environment precursor_tables 200) = Ok d
    /\ sumZ (List.map st_count
               (List.filter (fun r => String.eqb (LOWER (st_sample_type r)) "thin film")
                  (sample_types d))) = 3
    /\ thin_films_count d = 3.
Proof.
  eexists. split; [reflexivity|]. split; [|reflexivity].
  exact (thin_films_count_in_breakdown bq_parse_timestamp
           (an_environment precursor_tables 200) _ eq_refl).
Defined.

Section SortedFacts.
Context {A : Type} (before : A -> A -> bool).
Hypothesis before_total : forall a b, before a b = false -> before b a = true.
Hypothesis before_trans :
  forall a b c, before a b = true -> before b c = true -> before a c = true.

Lemma insert_by_sorted (x : A) (l : list A) :
  StronglySorted (fun a b => before a b = true) l ->
  StronglySorted (fun a b => before a b = true) (insert_by before x l).
Proof.
  induction 1 as [|y l Hl IH Hy]; simpl.
  - repeat constructor.
  - destruct (before y x) eqn:Hyx.
    + constructor; [exact IH|].
      apply Forall_forall. intros z Hz. rewrite Forall_forall in Hy.
      apply insert_by_In in Hz as [->|Hz]; auto.
    + apply before_total in Hyx. constructor; [now constructor|].
      constructor; [exact Hyx|].
      rewrite Forall_forall in *. intros z Hz. eauto.
Qed.

(** [ORDER BY] really orders. *)
Lemma order_by_sorted (l : list A) :
  StronglySorted (fun a b => before a b = true) (order_by before l).
Proof.
  unfold order_by.
  assert (H : forall acc,
             StronglySorted (fun a b => before a b = true) acc ->
             StronglySorted (fun a b => before a b = true)
               (fold_left (fun acc x => insert_by before x acc) l acc)).
  { induction l as [|x l IH]; intros acc Hacc; simpl; auto using insert_by_sorted. }
  apply H. constructor.
Qed.
End SortedFacts.

Lemma StronglySorted_map {A B} (R : B -> B -> Prop) (f : A -> B) (l : list A) :
  StronglySorted (fun a b => R (f a) (f b)) l -> StronglySorted R (List.map f l).
Proof.
  induction 1 as [|a l Hl IH Ha]; simpl; constructor; auto.
  apply Forall_forall. intros b Hb. apply List.in_map_iff in Hb as (x & <- & Hx).
  rewrite Forall_forall in Ha. auto.
Qed.

Lemma StronglySorted_firstn {A} (R : A -> A -> Prop) (n : nat) (l : list A) :
  StronglySorted R l -> StronglySorted R (firstn n l).
Proof.
  intros H. revert n. induction H as [|a l Hl IH Ha]; intros [|n]; simpl; try constructor.
  - apply IH.
  - rewrite Forall_forall in *. intros b Hb. apply Ha. now apply firstn_In in Hb.
Qed.

Lemma StronglySorted_cut {A} (R : A -> A -> Prop) (n : nat) (l : list A) (a b : A) :
  StronglySorted R l -> In a (firstn n l) -> In b (skipn n l) -> R a b.
Proof.
  intros H. revert n. induction H as [|x l Hl IH Hx]; intros n Ha Hb.
  - destruct n; destruct Ha.
  - destruct n as [|n]; [destruct Ha|]. simpl in Ha, Hb.
    destruct Ha as [->|Ha]; [|eauto].
    rewrite Forall_forall in Hx. apply Hx.
    clear -Hb. revert n Hb. induction l as [|y l IH]; intros [|n] Hb; simpl in *; auto.
    right. eauto.
Qed.

Lemma by_count_desc_sorted {K} (l : list (K * Z)) :
  StronglySorted (fun a b => snd b <= snd a) (order_by by_count_desc l).
Proof.
  assert (H : StronglySorted (fun a b : K * Z => by_count_desc a b = true)
                (order_by by_count_desc l)).
  { apply order_by_sorted; unfold by_count_desc; intros; lia. }
  induction H as [|a m Hm IH Ha]; constructor; auto.
  rewrite Forall_forall in *. intros b Hb. specialize (Ha b Hb).
  unfold by_count_desc in Ha. lia.
Qed.

(** X5.  The [sample_types] breakdown lists the groups from the largest to
    the smallest, and every listed group has at least one sample. *)
Theorem sample_types_ordered
  (PARSE_TIMESTAMP : string -> string -> option Z)
  (env : environment) (d : dashboard_data) :
  get_dashboard_data PARSE_TIMESTAMP env = Ok d ->
  StronglySorted (fun a b => st_count b <= st_count a) (sample_types d)
  /\ Forall (fun r => 1 <= st_count r) (sample_types d).
Proof.
  intros H. apply get_dashboard_data_Ok in H.
  destruct H as (df & _ & _ & _ & _ & _ & Hst & _).
  rewrite Hst. unfold query_sample_types. split.
  - apply StronglySorted_map. cbn [st_count]. apply by_count_desc_sorted.
  - apply Forall_forall. intros r Hr.
    apply List.in_map_iff in Hr as (g & <- & Hg). cbn [st_count].
    apply order_by_In in Hg.
    pose proof (group_count_positive String.eqb
                  (List.map sample_type_label
                     (List.filter in_project_sample (sample_table (bq env))))) as Hp.
    rewrite Forall_forall in Hp. specialize (Hp g Hg). lia.
Qed.

Lemma sample_types_ordered_witness :
  exists d,
    get_dashboard_data bq_parse_timestamp (an_environment precursor_tables 200) = Ok d
    /\ List.map st_count (sample_types d) = [2; 2; 1]
    /\ Forall (fun r => 1 <= st_count r) (sample_types d).
Proof.
  eexists. split; [reflexivity|]. split; [reflexivity|].
  exact (proj2 (sample_types_ordered bq_parse_timestamp
                  (an_environment precursor_tables 200) _ eq_refl)).
Defined.

(** X6.  The [dataset_types] breakdown has at most ten rows, listed from the
    largest group to the smallest, and they are the largest groups: no
    measurement group that [LIMIT 10] leaves out is larger than a listed
    one. *)
Theorem dataset_types_top_ten
  (PARSE_TIMESTAMP : string -> string -> option Z)
  (env : environment) (d : dashboard_data) :
  get_dashboard_data PARSE_TIMESTAMP env = Ok d ->
  (List.length (dataset_types d) <= 10)%nat
  /\ StronglySorted (fun a b => dt_count b <= dt_count a) (dataset_types d)
  /\ (forall r g, In r (dataset_types d) -> In g (skipn 10 (dataset_groups (bq env))) ->
                  snd g <= dt_count r).
Proof.
  intros H. apply get_dashboard_data_Ok in H.
  destruct H as (df & _ & _ & _ & _ & _ & _ & Hdt & _).
  rewrite Hdt. unfold query_dataset_types, LIMIT.
  pose proof (by_count_desc_sorted
                (group_count String.eqb
                   (List.map measurement_label
                      (List.filter in_project_dataset (dataset_table (bq env)))))) as Hs.
  fold (dataset_groups (bq env)) in Hs.
  split; [rewrite List.length_map; apply List.firstn_le_length|]. split.
  - apply StronglySorted_map. cbn [dt_count]. now apply StronglySorted_firstn.
  - intros r g Hr Hg. apply List.in_map_iff in Hr as (k & <- & Hk). cbn [dt_count].
    exact (StronglySorted_cut _ 10 _ k g Hs Hk Hg).
Qed.

Lemma dataset_types_top_ten_witness :
  exists d,
    get_dashboard_data bq_parse_timestamp (an_environment eleven_labels_tables 200) = Ok d
    /\ List.map snd (skipn 10 (dataset_groups eleven_labels_tables)) = [1]
    /\ forall r, In r (dataset_types d) -> 1 <= dt_count r.
Proof.
  eexists. split; [reflexivity|]. split; [reflexivity|].
  destruct (dataset_types_top_ten bq_parse_timestamp
              (an_environment eleven_labels_tables 200) _ eq_refl) as (_ & _ & H).
  intros r Hr. apply (H r ("kkkkkkkkkkk", 1) Hr). left. reflexivity.
Defined.

(** ** The running total *)

Lemma running_total_prefix (acc : Z) (l : list (Z * Z))
  (l1 l2 : list samples_time_row) (r : samples_time_row) :
  running_total acc l = (l1 ++ r :: l2)%list ->
  cumulative_count r = acc + sumZ (List.map daily_count l1) + daily_count r.
Proof.
  revert acc l1. induction l as [|[d n] l IH]; intros acc l1 H; simpl in H.
  - destruct l1; discriminate.
  - destruct l1 as [|x l1]; simpl in H.
    + injection H as <- _. simpl. lia.
    + injection H as <- H. apply IH in H. simpl. lia.
Qed.

Lemma running_total_daily (acc : Z) (l : list (Z * Z)) :
  List.map daily_count (running_total acc l) = List.map snd l.
Proof.
  revert acc. induction l as [|[d n] l IH]; intros acc; simpl; [reflexivity|].
  now rewrite IH.
Qed.

Lemma dated_thin_film_is_thin_film
  (PARSE_TIMESTAMP : string -> string -> option Z) (s : sample) :
  is_dated_thin_film PARSE_TIMESTAMP s = true -> is_thin_film s = true.
Proof.
  unfold is_dated_thin_film, in_daily_counts, is_thin_film. intros H.
  apply andb_true_iff in H as [H _]. apply andb_true_iff in H as [H _].
  apply andb_true_iff in H as [Hp Ht]. rewrite Hp. simpl.
  destruct (s_sample_type s) as [ty|]; [|discriminate]. simpl in *.
  apply String.eqb_eq in Ht. now subst.
Qed.

(** X7.  [samples_time] is a running total: every row counts at least one
    sample, its [cumulative_count] is the sum of the [daily_count]s up to
    and including the row, and no [cumulative_count] exceeds
    [thin_films_count]. *)
Theorem samples_time_running_total
  (PARSE_TIMESTAMP : string -> string -> option Z)
  (env : environment) (d : dashboard_data) :
  get_dashboard_data PARSE_TIMESTAMP env = Ok d ->
  Forall (fun r => 1 <= daily_count r) (samples_time d)
  /\ (forall l1 r l2,
        samples_time d = (l1 ++ r :: l2)%list ->
        cumulative_count r = sumZ (List.map daily_count l1) + daily_count r)
  /\ Forall (fun r => cumulative_count r <= thin_films_count d) (samples_time d).
Proof.
  intros H. apply get_dashboard_data_Ok in H.
  destruct H as (df & _ & _ & Htf & _ & _ & _ & _ & Hst & _).
  rewrite Hst, Htf. unfold query_samples_time.
  assert (Hpos : Forall (fun r => 1 <= daily_count r)
                   (running_total 0 (daily_totals PARSE_TIMESTAMP (bq env)))).
  { apply Forall_forall. intros r Hr.
    apply (List.in_map daily_count) in Hr. rewrite running_total_daily in Hr.
    apply List.in_map_iff in Hr as (g & <- & Hg).
    unfold daily_totals in Hg. apply order_by_In in Hg.
    pose proof (group_count_positive Z.eqb
                  (non_null (daily_counts PARSE_TIMESTAMP (bq env)))) as Hp.
    rewrite Forall_forall in Hp. specialize (Hp g Hg). lia. }
  assert (Hpre : forall l1 r l2,
             running_total 0 (daily_totals PARSE_TIMESTAMP (bq env)) = (l1 ++ r :: l2)%list ->
             cumulative_count r = sumZ (List.map daily_count l1) + daily_count r).
  { intros l1 r l2 Hsplit. apply running_total_prefix in Hsplit. lia. }
  split; [exact Hpos|]. split; [exact Hpre|].
  apply Forall_forall. intros r Hr.
  destruct (List.in_split _ _ Hr) as (l1 & l2 & Hsplit).
  rewrite (Hpre _ _ _ Hsplit).
  assert (Htotal : sumZ (List.map daily_count
                           (running_total 0 (daily_totals PARSE_TIMESTAMP (bq env))))
                   <= query_thin_films (bq env)).
  { rewrite running_total_daily, daily_totals_sum. unfold query_thin_films.
    apply filter_implies_count_le. intros s _. apply dated_thin_film_is_thin_film. }
  rewrite Hsplit, List.map_app, sumZ_app in Htotal. simpl in Htotal.
  assert (0 <= sumZ (List.map daily_count l2)).
  { apply sumZ_nonneg. apply Forall_forall. intros x Hx.
    apply List.in_map_iff in Hx as (r' & <- & Hr').
    rewrite Hsplit in Hpos. rewrite Forall_forall in Hpos.
    assert (1 <= daily_count r') by (apply Hpos; apply List.in_or_app; right; now right).
    lia. }
  lia.
Qed.

Lemma samples_time_running_total_witness :
  exists d,
    get_dashboard_data bq_parse_timestamp (an_environment undated_tables 200) = Ok d
    /\ List.map cumulative_count (samples_time d) = [1]
    /\ thin_films_count d = 2
    /\ Forall (fun r => cumulative_count r <= thin_films_count d) (samples_time d).
Proof.
  eexists. split; [reflexivity|]. split; [reflexivity|]. split; [reflexivity|].
  destruct (samples_time_running_total bq_parse_timestamp
              (an_environment undated_tables 200) _ eq_refl) as (_ & _ & H).
  exact H.
Defined.

(** ** The thumbnail of the day *)

Lemma inner_join_In {A B} (on : A -> B -> bool) (l : list A) (r : list B) (a : A) (b : B) :
  In (a, b) (inner_join on l r) <-> In a l /\ In b r /\ on a b = true.
Proof.
  unfold inner_join. rewrite List.in_flat_map. split.
  - intros (a' & Ha & Hin). apply List.in_map_iff in Hin as (b' & [= <- <-] & Hb).
    apply List.filter_In in Hb. tauto.
  - intros (Ha & Hb & Hon). exists a. split; [exact Ha|].
    apply List.in_map. apply List.filter_In. auto.
Qed.

Lemma collect_In {A B} (f : A -> result B) (l : list A) (ys : list B) :
  collect f l = Ok ys ->
  (forall y, In y ys -> exists x, In x l /\ f x = Ok y)
  /\ (forall x, In x l -> exists y, In y ys /\ f x = Ok y).
Proof.
  revert ys. induction l as [|a l IH]; intros ys H; simpl in H.
  - injection H as <-. split; intros ? [].
  - destruct (f a) as [y0|] eqn:Hf; simpl in H; [|discriminate].
    destruct (collect f l) as [ys0|]; simpl in H; [|discriminate].
    injection H as <-. destruct (IH ys0 eq_refl) as [H1 H2]. split.
    + intros y [<-|Hy]; [exists a; simpl; auto|].
      destruct (H1 y Hy) as (x & Hx & Hfx). exists x. simpl. auto.
    + intros x [<-|Hx]; [exists y0; simpl; auto|].
      destruct (H2 x Hx) as (y & Hy & Hfx). exists y. simpl. auto.
Qed.

Lemma newest_first_total (a b : option Z * thumbnail_row) :
  newest_first a b = false -> newest_first b a = true.
Proof.
  unfold newest_first. destruct (fst a), (fst b); try discriminate; auto.
  intros H. apply Z.leb_gt in H. apply Z.leb_le. lia.
Qed.

Lemma newest_first_trans (a b c : option Z * thumbnail_row) :
  newest_first a b = true -> newest_first b c = true -> newest_first a c = true.
Proof.
  unfold newest_first. destruct (fst a), (fst b), (fst c); try discriminate; auto.
  rewrite !Z.leb_le. lia.
Qed.

Lemma thumbnail_select_Ok
  (PARSE_TIMESTAMP : string -> string -> option Z) (today : Z)
  (r : (sample * datasetsamplelink) * dataset) (str : string) :
  s_date_created (fst (fst r)) = Some str ->
  thumbnail_select PARSE_TIMESTAMP today r
  = match PARSE_TIMESTAMP FORMAT_ZONED str with
    | Some ts =>
        Ok (Some ts,
            {| t_sample_id := s_id (fst (fst r));
               t_sample_name := s_sample_name (fst (fst r));
               t_description := s_description (fst (fst r));
               t_date_created := Some str;
               t_owner_orcid := s_owner_orcid (fst (fst r));
               t_sample_type := s_sample_type (fst (fst r));
               t_file_to_upload := d_file_to_upload (snd r);
               t_dataset_name := d_dataset_name (snd r);
               t_source_folder := d_source_folder (snd r);
               t_dataset_id := d_id (snd r);
               t_unique_id := d_unique_id (snd r);
               t_sample_date := Some (DATE ts);
               t_is_today := (DATE ts =? today)%Z |})
    | None => Err ("Failed to parse input string " ++ str)
    end.
Proof.
  intros H. unfold thumbnail_select, STRICT_PARSE_TIMESTAMP. rewrite H.
  destruct (PARSE_TIMESTAMP FORMAT_ZONED str); reflexivity.
Qed.

Lemma thumbnail_where_dated (r : (sample * datasetsamplelink) * dataset) :
  thumbnail_where r = true -> exists str, s_date_created (fst (fst r)) = Some str.
Proof.
  unfold thumbnail_where. intros H. apply andb_true_iff in H as [_ H].
  destruct (s_date_created (fst (fst r))) as [str|]; [eauto|discriminate].
Qed.

(** X8.  When the thumbnail query returns a row it returns exactly one: it
    joins a sample of the project to a linked dataset whose lower-cased
    label contains ['sample well'] and that has an uploaded file, it carries
    the date of the sample's creation timestamp and says whether that date
    is the current one, and no other qualifying pair has a later creation
    timestamp. *)
Theorem thumbnail_of_day_is_newest
  (PARSE_TIMESTAMP : string -> string -> option Z)
  (wh : warehouse) (today : Z) (first : thumbnail_row) (rest : list thumbnail_row) :
  query_thumbnail_of_day PARSE_TIMESTAMP wh today = Ok (first :: rest) ->
  rest = []
  /\ exists s l d str ts,
       In s (sample_table wh) /\ In l (datasetsamplelink_table wh)
       /\ In d (dataset_table wh)
       /\ dsl_sample_id l = s_id s /\ dsl_dataset_id l = d_id d
       /\ in_project_sample s = true
       /\ label_contains "sample well" d = true
       /\ d_file_to_upload d <> None
       /\ s_date_created s = Some str
       /\ PARSE_TIMESTAMP FORMAT_ZONED str = Some ts
       /\ t_sample_id first = s_id s /\ t_dataset_id first = d_id d
       /\ t_unique_id first = d_unique_id d
       /\ t_sample_date first = Some (DATE ts)
       /\ t_is_today first = (DATE ts =? today)%Z
       /\ (forall r' str' ts',
             In r' (thumbnail_join wh) -> thumbnail_where r' = true ->
             s_date_created (fst (fst r')) = Some str' ->
             PARSE_TIMESTAMP FORMAT_ZONED str' = Some ts' ->
             ts' <= ts).
Proof.
  unfold query_thumbnail_of_day.
  destruct (collect (thumbnail_select PARSE_TIMESTAMP today)
              (List.filter thumbnail_where (thumbnail_join wh))) as [keyed|] eqn:Hc;
    simpl; [|discriminate].
  destruct (collect_In _ _ _ Hc) as [Hfrom Hto].
  pose proof (order_by_sorted newest_first newest_first_total newest_first_trans keyed)
    as Hsorted.
  pose proof (order_by_In newest_first) as Hin.
  destruct (order_by newest_first keyed) as [|[k row0] others] eqn:Ho; simpl; [discriminate|].
  intros [= <- <-]. split; [reflexivity|].
  destruct (Hfrom (k, row0)) as (r & Hr & Hsel).
  { apply (Hin (k, row0) keyed). rewrite Ho. now left. }
  apply List.filter_In in Hr as [Hr Hw].
  destruct (thumbnail_where_dated r Hw) as [str Hstr].
  rewrite (thumbnail_select_Ok _ _ _ _ Hstr) in Hsel.
  destruct (PARSE_TIMESTAMP FORMAT_ZONED str) as [ts|] eqn:Hts; [|discriminate].
  injection Hsel as <- <-.
  destruct r as [[s l] d]. simpl in *.
  apply inner_join_In in Hr as (Hsl & Hd & Hld).
  apply inner_join_In in Hsl as (Hs & Hl & Hsl). simpl in Hld.
  apply Z.eqb_eq in Hld, Hsl.
  unfold thumbnail_where in Hw. simpl in Hw.
  apply andb_true_iff in Hw as [Hw _]. apply andb_true_iff in Hw as [Hw Hfile].
  apply andb_true_iff in Hw as [Hproj Hlike].
  exists s, l, d, str, ts. repeat split; auto.
  - unfold label_contains. unfold sql_like, sql_lower in Hlike.
    destruct (d_measurement d) as [m|]; [|discriminate].
    now rewrite <- (LIKE_contains_substring "sample well").
  - destruct (d_file_to_upload d); [discriminate|discriminate].
  - intros r' str' ts' Hr' Hw' Hstr' Hts'.
    destruct (Hto r') as (y & Hy & Hsel'); [apply List.filter_In; auto|].
    rewrite (thumbnail_select_Ok _ _ _ _ Hstr'), Hts' in Hsel'.
    injection Hsel' as <-.
    apply (Hin _ keyed) in Hy. rewrite Ho in Hy.
    destruct Hy as [Hy|Hy].
    + apply (f_equal fst) in Hy. simpl in Hy. injection Hy as ->. lia.
    + inversion Hsorted as [|? ? _ Hall]; subst.
      rewrite Forall_forall in Hall. specialize (Hall _ Hy).
      unfold newest_first in Hall. simpl in Hall. apply Z.leb_le in Hall. exact Hall.
Qed.

Lemma thumbnail_of_day_is_newest_witness :
  exists first,
    query_thumbnail_of_day bq_parse_timestamp zoned_timestamp_tables 19844 = Ok [first]
    /\ t_sample_id first = 1
    /\ forall r' str' ts',
         In r' (thumbnail_join zoned_timestamp_tables) -> thumbnail_where r' = true ->
         s_date_created (fst (fst r')) = Some str' ->
         bq_parse_timestamp FORMAT_ZONED str' = Some ts' ->
         ts' <= 1714555800000000.
Proof.
  eexists. split; [reflexivity|]. split; [reflexivity|].
  destruct (thumbnail_of_day_is_newest bq_parse_timestamp zoned_timestamp_tables 19844
              _ _ eq_refl)
    as (_ & s & l & d & str & ts & Hs & _ & _ & _ & _ & _ & _ & _ & Hstr & Hts & Hid & _
        & _ & _ & _ & Hmax).
  simpl in Hid.
  assert (Hts' : ts = 1714555800000000).
  { destruct Hs as [<-|[<-|[]]]; simpl in Hid, Hstr; [|discriminate].
    injection Hstr as <-. vm_compute in Hts. now injection Hts as <-. }
  rewrite <- Hts'. exact Hmax.
Defined.

(** ** When the endpoint answers 200 *)

(** X9.  [/api/data] answers 200 exactly when the spectra total is not
    NULL, that is when some dataset of the project carries the spectra
    label, and the zoned format parses the creation timestamp of every pair
    the thumbnail query selects; it answers 500 otherwise.  Nothing else in
    the tables can make the aggregation raise. *)
Theorem api_data_status
  (PARSE_TIMESTAMP : string -> string -> option Z) (env : environment) :
  (fst (api_data PARSE_TIMESTAMP env) = 200
   <-> query_spectra (bq env) <> None
       /\ forall r str,
            In r (thumbnail_join (bq env)) -> thumbnail_where r = true ->
            s_date_created (fst (fst r)) = Some str ->
            PARSE_TIMESTAMP FORMAT_ZONED str <> None)
  /\ (fst (api_data PARSE_TIMESTAMP env) = 200 \/ fst (api_data PARSE_TIMESTAMP env) = 500).
Proof.
  unfold api_data. split; [split|].
  - intros H. split.
    + intros Hn. rewrite (get_dashboard_data_NA PARSE_TIMESTAMP env Hn) in H.
      discriminate.
    + intros r str Hr Hw Hs Hp.
      destruct (get_dashboard_data_raises PARSE_TIMESTAMP env r str Hr Hw Hs Hp)
        as [e He].
      rewrite He in H. discriminate.
  - intros [Hn H].
    destruct (get_dashboard_data_returns PARSE_TIMESTAMP env Hn H) as [d ->].
    reflexivity.
  - destruct (get_dashboard_data PARSE_TIMESTAMP env); auto.
Qed.

Lemma api_data_status_witness :
  fst (api_data bq_parse_timestamp (an_environment zoned_timestamp_tables 200)) = 200
  /\ query_spectra zoned_timestamp_tables = Some 8
  /\ fst (api_data bq_parse_timestamp (an_environment no_spectra_tables 200)) = 500
  /\ forall r str,
       In r (thumbnail_join zoned_timestamp_tables) -> thumbnail_where r = true ->
       s_date_created (fst (fst r)) = Some str ->
       bq_parse_timestamp FORMAT_ZONED str <> None.
Proof.
  split; [reflexivity|]. split; [reflexivity|]. split; [reflexivity|].
  apply (proj1 (api_data_status bq_parse_timestamp
                  (an_environment zoned_timestamp_tables 200))).
  reflexivity.
Defined.

(** ** What the resolver depends on *)

(** X10.  The resolver looks at the link map and at the answer to one
    request, for the first [.jpeg] link: two environments that agree on
    these give the same image, whatever they answer for any other URL. *)
Theorem resolver_reads_one_url (env env' : environment) (id : option string) :
  get_dataset_download_links env id = get_dataset_download_links env' id ->
  (forall links url rest,
     get_dataset_download_links env id = Ok links ->
     jpeg_urls links = url :: rest ->
     requests_get env url = requests_get env' url) ->
  get_thumbnail_image_data env id = get_thumbnail_image_data env' id.
Proof.
  intros Hl Hg. unfold get_thumbnail_image_data. rewrite <- Hl.
  destruct (get_dataset_download_links env id) as [links|]; [|reflexivity].
  destruct (jpeg_urls links) as [|url rest] eqn:Hu; [reflexivity|].
  now rewrite (Hg links url rest eq_refl Hu).
Qed.

Lemma resolver_reads_one_url_witness :
  get_thumbnail_image_data (an_environment undated_tables 200) None
  = get_thumbnail_image_data
      {| bq := undated_tables;
         CURRENT_DATE := 0;
         get_dataset_download_links :=
           get_dataset_download_links (an_environment undated_tables 200);
         requests_get :=
           fun url =>
             if String.eqb url "https://store/late.jpeg"
             then Ok {| status_code := 200; content := []; content_type_header := None |}
             else requests_get (an_environment undated_tables 200) url;
         datetime_now_isoformat := "" |} None.
Proof.
  apply resolver_reads_one_url; [reflexivity|].
  intros links url rest [= <-] [= <- _]. reflexivity.
Defined.

(** ** The login flow *)

(** X11.  When the token exchange succeeds and the token has an ['orcid']
    key, [authorize] stores the identifier and the name in the session the
    library call left and redirects to the index; from then on a handler
    behind [login_required] runs, and the index shows the token's name, or
    ['User'] when the token has none.  The handler touches no other key:
    every other entry is as the library call left it. *)
Theorem authorize_logs_in
  (authorize_access_token : token_exchange)
  (session session1 token : gmap string string) (orcid_id : string)
  (f : gmap string string -> page) :
  authorize_access_token session = (session1, Ok token) ->
  token !! "orcid" = Some orcid_id ->
  authorize authorize_access_token session
  = (<["name" := default "User" (token !! "name")]> (<["orcid" := orcid_id]> session1),
     Ok (Redirected "index"))
  /\ fst (authorize authorize_access_token session) !! "orcid" = Some orcid_id
  /\ fst (authorize authorize_access_token session) !! "name"
     = Some (default "User" (token !! "name"))
  /\ login_required f (fst (authorize authorize_access_token session))
     = f (fst (authorize authorize_access_token session))
  /\ index (fst (authorize authorize_access_token session))
     = Rendered "dashboard.html" (default "User" (token !! "name"))
  /\ (forall k, k <> "orcid" -> k <> "name" ->
                fst (authorize authorize_access_token session) !! k = session1 !! k).
Proof.
  intros Hx H. unfold authorize. rewrite Hx, H. simpl.
  assert (Ho : (<["name" := default "User" (token !! "name")]>
                  (<["orcid" := orcid_id]> session1) : gmap string string) !! "orcid"
               = Some orcid_id).
  { rewrite lookup_insert_ne by discriminate. apply lookup_insert_eq. }
  split; [reflexivity|]. split; [exact Ho|]. split; [apply lookup_insert_eq|].
  split; [|split].
  - unfold login_required. now rewrite Ho.
  - unfold index. now rewrite lookup_insert_eq.
  - intros k Hk Hn. rewrite !lookup_insert_ne by congruence. reflexivity.
Qed.

Lemma authorize_logs_in_witness :
  authorize (an_exchange (Ok {["orcid" := "0000-0002-1825-0097"]})) a_pending_session
  = ({["name" := "User"; "orcid" := "0000-0002-1825-0097"]}, Ok (Redirected "index"))
  /\ index (fst (authorize (an_exchange (Ok {["orcid" := "0000-0002-1825-0097"]}))
                   a_pending_session))
     = Rendered "dashboard.html" "User"
  /\ fst (authorize (an_exchange (Ok {["orcid" := "0000-0002-1825-0097"]}))
            a_pending_session) !! STATE_KEY = None.
Proof.
  destruct (authorize_logs_in (an_exchange (Ok {["orcid" := "0000-0002-1825-0097"]}))
              a_pending_session ∅ {["orcid" := "0000-0002-1825-0097"]}
              "0000-0002-1825-0097" index) as (Ha & _ & _ & _ & Hi & Hk).
  - unfold an_exchange, a_pending_session. now rewrite delete_singleton_eq.
  - apply lookup_singleton_eq.
  - split; [|split].
    + rewrite Ha. rewrite lookup_singleton_ne by discriminate. simpl.
      now rewrite insert_empty.
    + rewrite Hi. now rewrite lookup_singleton_ne by discriminate.
    + rewrite Hk by discriminate. apply lookup_empty.
Defined.

(** X12.  A failed login stores nothing: when the token exchange raises, or
    the token has no ['orcid'] key, [authorize] raises and the session is
    the one the library call left, to which the handler has added no
    entry; if that session has no ['orcid'] entry, [login_required] still
    sends it to the login route. *)
Theorem authorize_failure_stores_nothing
  (authorize_access_token : token_exchange)
  (session session1 : gmap string string) (access_token : result (gmap string string))
  (f : gmap string string -> page) :
  authorize_access_token session = (session1, access_token) ->
  (forall token, access_token = Ok token -> token !! "orcid" = None) ->
  fst (authorize authorize_access_token session) = session1
  /\ (exists e, snd (authorize authorize_access_token session) = Err e)
  /\ (forall e, access_token = Err e ->
                snd (authorize authorize_access_token session) = Err e)
  /\ (forall token, access_token = Ok token ->
                    snd (authorize authorize_access_token session) = Err "'orcid'")
  /\ (session1 !! "orcid" = None ->
      login_required f (fst (authorize authorize_access_token session))
      = Redirected "login").
Proof.
  intros Hx H. unfold authorize. rewrite Hx.
  destruct access_token as [token|e].
  - rewrite (H token eq_refl). simpl.
    split; [reflexivity|]. split; [eauto|]. split; [discriminate|].
    split; [reflexivity|].
    intros Hs. unfold login_required. now rewrite Hs.
  - simpl. split; [reflexivity|]. split; [eauto|]. split; [now intros ? [= <-]|].
    split; [discriminate|].
    intros Hs. unfold login_required. now rewrite Hs.
Qed.

Lemma authorize_failure_stores_nothing_witness :
  authorize (an_exchange (Ok {["name" := "Ada"]})) a_pending_session
  = (∅, Err "'orcid'")
  /\ login_required index
       (fst (authorize (an_exchange (Ok {["name" := "Ada"]})) a_pending_session))
     = Redirected "login".
Proof.
  destruct (authorize_failure_stores_nothing (an_exchange (Ok {["name" := "Ada"]}))
              a_pending_session ∅ (Ok {["name" := "Ada"]}) index)
    as (Hs & _ & _ & He & Hl).
  - unfold an_exchange, a_pending_session. now rewrite delete_singleton_eq.
  - intros token [= <-]. now rewrite lookup_singleton_ne by discriminate.
  - split; [|exact (Hl (lookup_empty _))].
    rewrite (surjective_pairing (authorize _ _)), Hs, (He _ eq_refl). reflexivity.
Defined.

(** X13.  [logout] empties the session whatever it held: afterwards every
    handler behind [login_required] redirects to the login route, a name
    stored at login is gone, and the index shows ['Guest']. *)
Theorem logout_forgets_login
  (authorize_access_token : token_exchange)
  (session : gmap string string) (f : gmap string string -> page) :
  snd (logout (fst (authorize authorize_access_token session))) = Redirected "login"
  /\ login_required f (fst (logout (fst (authorize authorize_access_token session))))
     = Redirected "login"
  /\ index (fst (logout (fst (authorize authorize_access_token session))))
     = Rendered "dashboard.html" "Guest"
  /\ forall k, fst (logout (fst (authorize authorize_access_token session))) !! k = None.
Proof.
  unfold logout, login_required, index. simpl.
  split; [reflexivity|]. split; [reflexivity|]. split; [reflexivity|].
  intros k. apply lookup_empty.
Qed.

(** ** Spectra per dataset *)

Lemma COUNT_distinct_le (l : list Z) : COUNT (distinctZ l) <= COUNT l.
Proof.
  unfold COUNT. apply inj_le. induction l as [|x l IH]; simpl; [lia|].
  pose proof (List.filter_length_le (fun y => negb (y =? x)%Z) (distinctZ l)). lia.
Qed.

Lemma COALESCE_SUM (l : list Z) : COALESCE (SUM l) 0 = sumZ l.
Proof. destruct l; reflexivity. Qed.

(** X14.  When dataset identifiers are distinct, [spectra_count] is 8 times
    the number of distinct samples linked to a dataset, summed over the
    datasets of the project whose lower-cased label matches
    ['%pollux_oospec%']: a link stored twice counts once, and a dataset
    without links adds nothing. *)
Theorem spectra_count_per_dataset
  (PARSE_TIMESTAMP : string -> string -> option Z)
  (env : environment) (d : dashboard_data) :
  get_dashboard_data PARSE_TIMESTAMP env = Ok d ->
  List.NoDup (List.map d_id (dataset_table (bq env))) ->
  spectra_count d
  = 8 * sumZ (List.map (fun q => COUNT (linked_samples (bq env) q))
                (List.filter (measurement_like "%pollux_oospec%") (dataset_table (bq env))))
  /\ (forall q, COUNT (linked_samples (bq env) q)
                <= COUNT (List.filter (fun l => (d_id q =? dsl_dataset_id l)%Z)
                            (datasetsamplelink_table (bq env)))).
Proof.
  intros H Hnd. apply get_dashboard_data_Ok in H.
  destruct H as (df & _ & _ & _ & Hs & _). rewrite Hs. split.
  - rewrite (query_spectra_sum _ Hnd), COALESCE_SUM. apply sumZ_scaled.
  - intros q. unfold linked_samples.
    etransitivity; [apply COUNT_distinct_le|].
    unfold COUNT. rewrite List.length_map. lia.
Qed.

Lemma spectra_count_per_dataset_witness :
  exists d,
    get_dashboard_data bq_parse_timestamp (an_environment spectra_tables 200) = Ok d
    /\ spectra_count d = 8 * (2 + (3 + 0)).
Proof.
  eexists. split; [reflexivity|].
  destruct (spectra_count_per_dataset bq_parse_timestamp
              (an_environment spectra_tables 200) _ eq_refl) as [H _].
  - simpl. repeat (apply List.NoDup_cons;
                   [simpl; intros Hin;
                    repeat (destruct Hin as [Hin|Hin]; [discriminate Hin|]); exact Hin|]).
    apply List.NoDup_nil.
  - exact H.
Defined.

(** ** Daily buckets *)

Lemma selected_unique (k n : Z) (g : list (Z * Z)) :
  List.NoDup (List.map fst g) -> In (k, n) g ->
  sumZ (List.map (selected (Z.eqb k)) g) = n.
Proof.
  induction g as [|[k' n'] g IH]; intros Hnd Hin; [destruct Hin|].
  simpl in Hnd. inversion Hnd as [|? ? Hk Hg]; subst.
  simpl. unfold selected at 1. simpl.
  destruct Hin as [[= -> ->]|Hin].
  - rewrite Z.eqb_refl.
    assert (Hz : sumZ (List.map (selected (Z.eqb k)) g) = 0).
    { clear IH Hg Hnd. induction g as [|[k2 n2] g IH]; simpl; [reflexivity|].
      unfold selected at 1. simpl.
      destruct (Z.eqb_spec k k2) as [->|_].
      - exfalso. apply Hk. now left.
      - apply IH. intros Hin. apply Hk. now right. }
    lia.
  - destruct (Z.eqb_spec k k') as [->|_].
    + exfalso. apply Hk. apply (List.in_map fst) in Hin. exact Hin.
    + rewrite IH; auto.
Qed.

(** Each group's count is the number of rows with its key. *)
Lemma group_count_lookup (k n : Z) (keys : list Z) :
  In (k, n) (group_count Z.eqb keys) -> n = COUNT (List.filter (Z.eqb k) keys).
Proof.
  intros Hin.
  rewrite <- (group_count_selected Z.eqb (Z.eqb k)).
  - symmetry. apply selected_unique; [apply group_count_keys_NoDup|exact Hin].
  - intros a b Hab. apply Z.eqb_eq in Hab. now subst.
Qed.

Lemma group_count_keys_In (k : Z) (keys : list Z) :
  In k (List.map fst (group_count Z.eqb keys)) <-> In k keys.
Proof.
  unfold group_count.
  assert (H : forall g,
             In k (List.map fst (fold_left (fun g k => bump Z.eqb k g) keys g))
             <-> In k keys \/ In k (List.map fst g)).
  { induction keys as [|x keys IH]; intros g; simpl; [tauto|].
    rewrite IH, bump_keys_In. intuition. }
  rewrite H. simpl. tauto.
Qed.

Lemma running_total_rows (acc : Z) (l : list (Z * Z)) (k n : Z) :
  In (k, n) l <-> exists r, In r (running_total acc l) /\ date r = k /\ daily_count r = n.
Proof.
  revert acc. induction l as [|[d m] l IH]; intros acc; simpl.
  - split; [intros []|intros (r & [] & _)].
  - split.
    + intros [[= -> ->]|Hin]; [eexists; split; [left; reflexivity|auto]|].
      apply (IH (acc + m)) in Hin as (r & Hr & Hd & Hn). eauto.
    + intros (r & [<-|Hr] & Hd & Hn); [left; simpl in *; congruence|].
      right. apply (IH (acc + m)). eauto.
Qed.

Lemma non_null_filter_count {A} (f : A -> option Z) (k : Z) (l : list A) :
  COUNT (List.filter (Z.eqb k) (non_null (List.map f l)))
  = COUNT (List.filter (fun a => match f a with
                                 | Some x => (k =? x)%Z
                                 | None => false
                                 end) l).
Proof.
  unfold COUNT. f_equal. induction l as [|a l IH]; simpl; [reflexivity|].
  destruct (f a) as [x|]; simpl; [|exact IH].
  destruct (k =? x)%Z; simpl; congruence.
Qed.

Lemma non_null_In {A} (x : A) (l : list (option A)) : In x (non_null l) <-> In (Some x) l.
Proof.
  induction l as [|[y|] l IH]; simpl; [tauto| |].
  - rewrite IH. split; intros [H|H]; auto; left; congruence.
  - rewrite IH. split; [auto|intros [H|H]; [discriminate|auto]].
Qed.

(** X15.  Each row of [samples_time] is a calendar day on which a counted
    thin film was created, its [daily_count] is the number of such samples
    created that day, and every such day has its row. *)
Theorem samples_time_buckets
  (PARSE_TIMESTAMP : string -> string -> option Z)
  (env : environment) (d : dashboard_data) :
  get_dashboard_data PARSE_TIMESTAMP env = Ok d ->
  (forall r, In r (samples_time d) ->
             daily_count r
             = COUNT (List.filter (created_on PARSE_TIMESTAMP (date r))
                        (sample_table (bq env))))
  /\ (forall s day, In s (sample_table (bq env)) ->
                    created_on PARSE_TIMESTAMP day s = true ->
                    exists r, In r (samples_time d) /\ date r = day).
Proof.
  intros H. apply get_dashboard_data_Ok in H.
  destruct H as (df & _ & _ & _ & _ & _ & _ & _ & Hst & _).
  rewrite Hst. unfold query_samples_time, daily_totals. split.
  - intros r Hr.
    assert (Hg : In (date r, daily_count r)
                   (group_count Z.eqb (non_null (daily_counts PARSE_TIMESTAMP (bq env))))).
    { apply (order_by_In by_date_asc). apply (running_total_rows 0). eauto. }
    rewrite (group_count_lookup _ _ _ Hg). unfold daily_counts.
    rewrite non_null_filter_count, filter_filter. unfold COUNT. do 2 f_equal.
    apply List.filter_ext. intros s. unfold created_on.
    now destruct (created_timestamp PARSE_TIMESTAMP s).
  - intros s day Hs Hday. unfold created_on in Hday.
    apply andb_true_iff in Hday as [Hin Hts].
    destruct (created_timestamp PARSE_TIMESTAMP s) as [ts|] eqn:Hc; [|discriminate].
    apply Z.eqb_eq in Hts.
    assert (Hk : In day (List.map fst
                           (group_count Z.eqb
                              (non_null (daily_counts PARSE_TIMESTAMP (bq env)))))).
    { apply group_count_keys_In, non_null_In. unfold daily_counts.
      apply List.in_map_iff. exists s. rewrite Hc. simpl. split; [congruence|].
      apply List.filter_In. auto. }
    apply List.in_map_iff in Hk as ([k n] & Hk & Hg). simpl in Hk. subst k.
    apply (order_by_In by_date_asc) in Hg.
    apply (running_total_rows 0) in Hg as (r & Hr & Hd & _). eauto.
Qed.

Lemma samples_time_buckets_witness :
  exists d r,
    get_dashboard_data bq_parse_timestamp (an_environment zoned_timestamp_tables 200) = Ok d
    /\ In r (samples_time d) /\ date r = 19844 /\ daily_count r = 2.
Proof.
  eexists. 
  destruct (samples_time_buckets bq_parse_timestamp
              (an_environment zoned_timestamp_tables 200) _ eq_refl) as [Hcount Hrow].
  destruct (Hrow (a_sample 2 (Some "film-2") (Some "thin film") (Some "2024-05-01T10:00:00"))
              19844) as (r & Hr & Hd); [simpl; auto|reflexivity|].
  exists r. split; [reflexivity|]. split; [exact Hr|]. split; [exact Hd|].
  rewrite (Hcount r Hr), Hd. reflexivity.
Defined.

(** ** What a breakdown row counts *)

Section GroupLookup.
Context {K : Type} (eqk : K -> K -> bool).
Hypothesis eqk_eq : forall a b, eqk a b = true <-> a = b.

Lemma eqk_refl (a : K) : eqk a a = true.
Proof. now apply eqk_eq. Qed.

Lemma bump_groups_In (k x : K) (g : list (K * Z)) :
  In x (List.map fst (bump eqk k g)) <-> x = k \/ In x (List.map fst g).
Proof.
  induction g as [|[k' n] g IH]; simpl; [intuition|].
  destruct (eqk k k') eqn:He; simpl.
  - apply eqk_eq in He. subst. intuition.
  - rewrite IH. intuition.
Qed.

Lemma bump_groups_NoDup (k : K) (g : list (K * Z)) :
  List.NoDup (List.map fst g) -> List.NoDup (List.map fst (bump eqk k g)).
Proof.
  induction g as [|[k' n] g IH]; simpl; intros H.
  - repeat constructor. intros [].
  - inversion H as [|? ? Hnotin Hrest]; subst.
    destruct (eqk k k') eqn:He; simpl.
    + now constructor.
    + constructor; [|auto]. rewrite bump_groups_In. intros [->|Hin]; auto.
      rewrite eqk_refl in He. discriminate.
Qed.

Lemma group_count_groups_NoDup (keys : list K) :
  List.NoDup (List.map fst (group_count eqk keys)).
Proof.
  unfold group_count.
  assert (H : forall g, List.NoDup (List.map fst g) ->
                        List.NoDup (List.map fst (fold_left (fun g k => bump eqk k g) keys g))).
  { induction keys as [|k keys IH]; intros g Hg; simpl; auto using bump_groups_NoDup. }
  apply H. constructor.
Qed.

Lemma selected_one_group (k : K) (n : Z) (g : list (K * Z)) :
  List.NoDup (List.map fst g) -> In (k, n) g ->
  sumZ (List.map (selected (eqk k)) g) = n.
Proof.
  induction g as [|[k' n'] g IH]; intros Hnd Hin; [destruct Hin|].
  simpl in Hnd. inversion Hnd as [|? ? Hk Hg]; subst.
  simpl. unfold selected at 1. simpl.
  destruct Hin as [[= -> ->]|Hin].
  - rewrite eqk_refl.
    assert (Hz : sumZ (List.map (selected (eqk k)) g) = 0).
    { clear IH Hg Hnd. induction g as [|[k2 n2] g IH]; simpl; [reflexivity|].
      unfold selected at 1. simpl.
      destruct (eqk k k2) eqn:He.
      - apply eqk_eq in He. subst. exfalso. apply Hk. now left.
      - apply IH. intros Hin. apply Hk. now right. }
    lia.
  - destruct (eqk k k') eqn:He.
    + apply eqk_eq in He. subst. exfalso. apply Hk.
      apply (List.in_map fst) in Hin. exact Hin.
    + rewrite IH; auto.
Qed.

(** A group's count is the number of rows that carry its key. *)
Lemma group_count_rows (k : K) (n : Z) (keys : list K) :
  In (k, n) (group_count eqk keys) -> n = COUNT (List.filter (eqk k) keys).
Proof.
  intros Hin.
  rewrite <- (group_count_selected eqk (eqk k)).
  - symmetry. apply selected_one_group; [apply group_count_groups_NoDup|exact Hin].
  - intros a b Hab. apply eqk_eq in Hab. now subst.
Qed.
End GroupLookup.

Lemma insert_by_Permutation {A} (before : A -> A -> bool) (x : A) (l : list A) :
  Permutation (insert_by before x l) (x :: l).
Proof.
  induction l as [|y l IH]; simpl; [reflexivity|].
  destruct (before y x); [|reflexivity].
  rewrite IH. apply perm_swap.
Qed.

Lemma fold_insert_Permutation {A} (before : A -> A -> bool) (l acc : list A) :
  Permutation (fold_left (fun acc x => insert_by before x acc) l acc) (l ++ acc).
Proof.
  revert acc. induction l as [|x l IH]; intros acc; simpl; [reflexivity|].
  rewrite IH, insert_by_Permutation. symmetry. apply Permutation_middle.
Qed.

(** [ORDER BY] only reorders the rows. *)
Lemma order_by_Permutation {A} (before : A -> A -> bool) (l : list A) :
  Permutation (order_by before l) l.
Proof. unfold order_by. rewrite fold_insert_Permutation. now rewrite List.app_nil_r. Qed.

Lemma order_by_NoDup_map {A B} (before : A -> A -> bool) (f : A -> B) (l : list A) :
  List.NoDup (List.map f l) -> List.NoDup (List.map f (order_by before l)).
Proof.
  intros H. eapply Permutation_NoDup; [|exact H].
  apply Permutation_map. symmetry. apply order_by_Permutation.
Qed.

Lemma NoDup_firstn {A} (n : nat) (l : list A) : List.NoDup l -> List.NoDup (firstn n l).
Proof.
  intros H. revert n. induction H as [|x l Hx Hl IH]; intros [|n]; simpl; try constructor.
  - intros Hin. apply Hx. now apply firstn_In in Hin.
  - apply IH.
Qed.

(** X16.  Every row of the two breakdowns stands for one label, the stored
    value with NULL read as ['Unknown']: no label is listed twice, and a
    row's count is the number of rows of the project with that label. *)
Theorem breakdown_rows_count
  (PARSE_TIMESTAMP : string -> string -> option Z)
  (env : environment) (d : dashboard_data) :
  get_dashboard_data PARSE_TIMESTAMP env = Ok d ->
  (List.NoDup (List.map st_sample_type (sample_types d))
   /\ forall r, In r (sample_types d) ->
        st_count r
        = COUNT (List.filter
                   (fun s => in_project_sample s
                             && String.eqb (st_sample_type r)
                                  (COALESCE (s_sample_type s) "Unknown"))
                   (sample_table (bq env))))
  /\ (List.NoDup (List.map dt_measurement (dataset_types d))
      /\ forall r, In r (dataset_types d) ->
           dt_count r
           = COUNT (List.filter
                      (fun x => in_project_dataset x
                                && String.eqb (dt_measurement r)
                                     (COALESCE (d_measurement x) "Unknown"))
                      (dataset_table (bq env)))).
Proof.
  intros H. apply get_dashboard_data_Ok in H.
  destruct H as (df & _ & _ & _ & _ & _ & Hst & Hdt & _).
  rewrite Hst, Hdt. split; split.
  - unfold query_sample_types. rewrite List.map_map. cbn [st_sample_type].
    apply order_by_NoDup_map, group_count_groups_NoDup. apply String.eqb_eq.
  - intros r Hr. unfold query_sample_types in Hr.
    apply List.in_map_iff in Hr as ([k n] & <- & Hg).
    apply order_by_In in Hg.
    apply (group_count_rows String.eqb String.eqb_eq) in Hg.
    cbn [st_count st_sample_type fst snd]. rewrite Hg, List.filter_map_swap. unfold COUNT.
    now rewrite List.length_map, filter_filter.
  - unfold query_dataset_types, LIMIT. rewrite List.map_map. cbn [dt_measurement].
    rewrite <- List.firstn_map. apply NoDup_firstn.
    unfold dataset_groups. apply order_by_NoDup_map, group_count_groups_NoDup.
    apply String.eqb_eq.
  - intros r Hr. unfold query_dataset_types, LIMIT in Hr.
    apply List.in_map_iff in Hr as ([k n] & <- & Hg).
    apply firstn_In in Hg. unfold dataset_groups in Hg. apply order_by_In in Hg.
    apply (group_count_rows String.eqb String.eqb_eq) in Hg.
    cbn [dt_count dt_measurement fst snd]. rewrite Hg, List.filter_map_swap. unfold COUNT.
    now rewrite List.length_map, filter_filter.
Qed.

Lemma breakdown_rows_count_witness :
  exists d,
    get_dashboard_data bq_parse_timestamp (an_environment precursor_tables 200) = Ok d
    /\ List.map st_sample_type (sample_types d)
       = ["thin film"; "precursor solution"; "Thin Film"]
    /\ forall r, In r (sample_types d) ->
         st_count r
         = COUNT (List.filter
                    (fun s => in_project_sample s
                              && String.eqb (st_sample_type r)
                                   (COALESCE (s_sample_type s) "Unknown"))
                    (sample_table precursor_tables)).
Proof.
  eexists. split; [reflexivity|]. split; [reflexivity|].
  exact (proj2 (proj1 (breakdown_rows_count bq_parse_timestamp
                         (an_environment precursor_tables 200) _ eq_refl))).
Defined.

(** NULL and a stored ['Unknown'] are one row of each breakdown. *)
Example unknown_labels_merge :
  exists d,
    get_dashboard_data bq_parse_timestamp (an_environment unknown_label_tables 200) = Ok d
    /\ sample_types d = [{| st_sample_type := "Unknown"; st_count := 3 |}]
    /\ dataset_types d
       = [{| dt_measurement := "Unknown"; dt_count := 2 |};
          {| dt_measurement := "Pollux_OOSpec scan"; dt_count := 1 |}].
Proof. eexists. split; [reflexivity|]. split; reflexivity. Qed.

(** ** How many precursor rows *)

Lemma flat_map_length_le {A B} (f : A -> list B) (g : A -> nat) (l : list A) :
  (forall a, In a l -> (List.length (f a) <= g a)%nat) ->
  (List.length (flat_map f l) <= list_sum (List.map g l))%nat.
Proof.
  induction l as [|a l IH]; intros H; simpl; [lia|].
  rewrite List.length_app.
  specialize (H a (or_introl eq_refl)) as Ha.
  assert ((List.length (flat_map f l) <= list_sum (List.map g l))%nat)
    by (apply IH; intros b Hb; apply H; now right).
  lia.
Qed.

(** Counting the matching pairs row by row or column by column. *)
Lemma matches_double_count {A B} (on : A -> B -> bool) (l : list A) (r : list B) :
  list_sum (List.map (fun a => List.length (List.filter (on a) r)) l)
  = list_sum (List.map (fun b => List.length (List.filter (fun a => on a b) l)) r).
Proof.
  induction l as [|a l IH]; simpl.
  - induction r as [|b r IHr]; simpl; [reflexivity|exact IHr].
  - rewrite IH. clear IH. induction r as [|b r IHr]; simpl; [reflexivity|].
    destruct (on a b); simpl; lia.
Qed.

Lemma list_sum_le_length {B} (g : B -> nat) (r : list B) :
  (forall b, (g b <= 1)%nat) -> (list_sum (List.map g r) <= List.length r)%nat.
Proof.
  intros H. induction r as [|b r IH]; simpl; [lia|]. specialize (H b). lia.
Qed.

Lemma filter_key_at_most_one {A} (key : A -> Z) (k : Z) (l : list A) :
  List.NoDup (List.map key l) ->
  (List.length (List.filter (fun x => (k =? key x)%Z) l) <= 1)%nat.
Proof.
  induction l as [|a l IH]; simpl; intros H; [lia|].
  inversion H as [|? ? Ha Hl]; subst. specialize (IH Hl).
  destruct (Z.eqb_spec k (key a)) as [->|_]; simpl; [|lia].
  rewrite filter_nil; [simpl; lia|].
  intros y Hy. apply Z.eqb_neq. intros Heq. apply Ha. rewrite Heq. now apply List.in_map.
Qed.

Lemma left_join_matched {A B} (on : A -> B -> bool) (l : list A) (r : list B) :
  list_sum (List.map matched (left_join on l r))
  = list_sum (List.map (fun a => List.length (List.filter (on a) r)) l).
Proof.
  induction l as [|a l IH]; [reflexivity|].
  rewrite left_join_cons, List.map_app, List.list_sum_app, IH. simpl. f_equal.
  unfold left_join_rows. destruct (List.filter (on a) r) as [|b bs]; [reflexivity|].
  generalize (b :: bs). intros m. unfold list_sum.
  induction m as [|x m IHm]; simpl; [reflexivity|]. now rewrite IHm.
Qed.

(** X17.  With distinct sample identifiers, a row of the link table gives at
    most one row of the precursor result: the result is never longer than
    the link table. *)
Theorem precursor_rows_bounded_by_links (wh : warehouse) :
  List.NoDup (List.map s_id (sample_table wh)) ->
  (List.length (query_thin_films_precursors wh) <= List.length (samplelink_table wh))%nat.
Proof.
  intros Hnd. unfold query_thin_films_precursors, LIMIT, precursor_join.
  rewrite List.length_firstn. etransitivity; [apply Nat.le_min_r|].
  rewrite List.length_map.
  rewrite left_join_reject_null by reflexivity.
  etransitivity.
  { apply (flat_map_length_le _ matched). intros [tf [sl|]] _; unfold matched; simpl.
    - rewrite List.length_map.
      etransitivity; [|apply (filter_key_at_most_one s_id (sl_parent_sample_id sl) _ Hnd)].
      rewrite <- (filter_filter (fun b => is_precursor ((tf, Some sl), Some b))).
      apply List.filter_length_le.
    - rewrite List.length_map, filter_nil; [simpl; lia|reflexivity || auto]. }
  rewrite left_join_matched, matches_double_count.
  apply list_sum_le_length. intros sl.
  pose proof (filter_key_at_most_one s_id (sl_sample_id sl)
                (List.filter is_thin_film (sample_table wh))
                (NoDup_map_filter s_id _ _ Hnd)) as H1.
  etransitivity; [|exact H1]. apply Nat.eq_le_incl. f_equal.
  apply List.filter_ext. intros tf. apply Z.eqb_sym.
Qed.

Lemma precursor_rows_bounded_by_links_witness :
  (List.length (query_thin_films_precursors precursor_tables)
   <= List.length (samplelink_table precursor_tables))%nat.
Proof.
  apply precursor_rows_bounded_by_links.
  simpl. repeat (apply List.NoDup_cons;
                 [simpl; intros Hin;
                  repeat (destruct Hin as [Hin|Hin]; [discriminate Hin|]); exact Hin|]).
  apply List.NoDup_nil.
Defined.

(** ** The image behind [image_data] *)

Lemma land_shiftl_low (hi lo k : Z) :
  0 <= k -> 0 <= lo < 2 ^ k -> Z.land (Z.shiftl hi k) lo = 0.
Proof.
  intros Hk Hlo. apply Z.bits_inj'. intros i Hi.
  rewrite Z.land_spec, Z.bits_0.
  destruct (Z.lt_ge_cases i k) as [Hlt|Hge].
  - rewrite Z.shiftl_spec_low by assumption. reflexivity.
  - destruct (Z.eq_dec lo 0) as [->|Hne].
    + rewrite Z.bits_0. apply andb_false_r.
    + rewrite (Z.bits_above_log2 lo i); [apply andb_false_r|lia|].
      apply Z.lt_le_trans with k; [|assumption].
      apply Z.log2_lt_pow2; lia.
Qed.

Lemma lor_shiftl_add (hi lo k : Z) :
  0 <= k -> 0 <= lo < 2 ^ k -> Z.lor (Z.shiftl hi k) lo = hi * 2 ^ k + lo.
Proof.
  intros Hk Hlo.
  pose proof (Z.add_lor_land (Z.shiftl hi k) lo) as H.
  rewrite land_shiftl_low in H by assumption.
  rewrite <- (Z.shiftl_mul_pow2 hi k) by assumption. lia.
Qed.

Lemma sextet (x : Z) : Z.land x 63 = x mod 64.
Proof. exact (Z.land_ones x 6 ltac:(lia)). Qed.

Lemma octet (x : Z) : Z.land x 255 = x mod 256.
Proof. exact (Z.land_ones x 8 ltac:(lia)). Qed.

Lemma shiftl_bound (x k m : Z) :
  0 <= k -> 0 <= x -> x * 2 ^ k < m -> 0 <= Z.shiftl x k < m.
Proof. intros Hk Hx Hm. rewrite Z.shiftl_mul_pow2 by assumption. split; [|exact Hm]. apply Z.mul_nonneg_nonneg; [assumption|]. apply Z.pow_nonneg. lia. Qed.

Lemma pack3 (a b c : Z) :
  0 <= a < 256 -> 0 <= b < 256 -> 0 <= c < 256 ->
  Z.lor (Z.lor (Z.shiftl a 16) (Z.shiftl b 8)) c = a * 65536 + b * 256 + c.
Proof.
  intros Ha Hb Hc.
  rewrite (lor_shiftl_add a (Z.shiftl b 8) 16);
    [|lia|apply shiftl_bound; [lia|lia|change (2 ^ 8) with 256; change (2 ^ 16) with 65536; lia]].
  rewrite (Z.shiftl_mul_pow2 b 8) by lia.
  change (2 ^ 16) with 65536. change (2 ^ 8) with 256.
  replace (a * 65536 + b * 256) with (Z.shiftl (a * 256 + b) 8)
    by (rewrite Z.shiftl_mul_pow2 by lia; change (2 ^ 8) with 256; lia).
  rewrite lor_shiftl_add; [|lia|change (2 ^ 8) with 256; lia].
  rewrite ?Z.shiftl_mul_pow2 by lia. change (2 ^ 8) with 256. lia.
Qed.

Lemma pack4 (s1 s2 s3 s4 : Z) :
  0 <= s1 < 64 -> 0 <= s2 < 64 -> 0 <= s3 < 64 -> 0 <= s4 < 64 ->
  Z.lor (Z.lor (Z.lor (Z.shiftl s1 18) (Z.shiftl s2 12)) (Z.shiftl s3 6)) s4
  = s1 * 262144 + s2 * 4096 + s3 * 64 + s4.
Proof.
  intros H1 H2 H3 H4.
  rewrite (lor_shiftl_add s1 (Z.shiftl s2 12) 18);
    [|lia|apply shiftl_bound; [lia|lia|change (2 ^ 12) with 4096; change (2 ^ 18) with 262144; lia]].
  rewrite (Z.shiftl_mul_pow2 s2 12), (Z.shiftl_mul_pow2 s3 6) by lia.
  change (2 ^ 18) with 262144. change (2 ^ 12) with 4096. change (2 ^ 6) with 64.
  replace (s1 * 262144 + s2 * 4096) with (Z.shiftl (s1 * 64 + s2) 12)
    by (rewrite Z.shiftl_mul_pow2 by lia; change (2 ^ 12) with 4096; lia).
  rewrite (lor_shiftl_add (s1 * 64 + s2) (s3 * 64) 12);
    [|lia|change (2 ^ 12) with 4096; lia].
  change (2 ^ 12) with 4096.
  replace ((s1 * 64 + s2) * 4096 + s3 * 64) with (Z.shiftl ((s1 * 64 + s2) * 64 + s3) 6)
    by (rewrite Z.shiftl_mul_pow2 by lia; change (2 ^ 6) with 64; lia).
  rewrite lor_shiftl_add; [|lia|change (2 ^ 6) with 64; lia].
  rewrite ?Z.shiftl_mul_pow2 by lia. change (2 ^ 12) with 4096. change (2 ^ 6) with 64. lia.
Qed.

Lemma b64_char_index (x : Z) :
  b64_index (b64_char x) = Some (x mod 64)
  /\ Ascii.eqb (b64_char x) "=" = false.
Proof.
  unfold b64_char. rewrite sextet.
  assert (Hall : forallb
                   (fun s => match b64_index (nth (Z.to_nat s) b64_alphabet "="%char) with
                             | Some s' => (s' =? s)%Z
                             | None => false
                             end
                             && negb (Ascii.eqb (nth (Z.to_nat s) b64_alphabet "="%char) "="))
                   (List.map Z.of_nat (seq 0 64)) = true)
    by (vm_compute; reflexivity).
  rewrite forallb_forall in Hall.
  assert (Hr : 0 <= x mod 64 < 64) by (apply Z.mod_pos_bound; lia).
  assert (Hin : In (x mod 64) (List.map Z.of_nat (seq 0 64))).
  { apply List.in_map_iff. exists (Z.to_nat (x mod 64)). split; [lia|].
    apply List.in_seq. lia. }
  apply Hall in Hin. apply andb_true_iff in Hin as [H1 H2].
  split.
  - destruct (b64_index _) as [s'|]; [|discriminate].
    apply Z.eqb_eq in H1. now subst.
  - now apply negb_true_iff.
Qed.

Lemma triple_ind (P : list Z -> Prop) :
  P [] -> (forall a, P [a]) -> (forall a b, P [a; b]) ->
  (forall a b c rest, P rest -> P (a :: b :: c :: rest)) ->
  forall l, P l.
Proof.
  intros H0 H1 H2 H3 l.
  assert (H : P l /\ (forall a, P (a :: l)) /\ (forall a b, P (a :: b :: l))).
  { induction l as [|x l (IH0 & IH1 & IH2)]; [auto|].
    split; [apply IH1|]. split; [intros a; apply IH2|]. intros a b. apply H3, IH0. }
  apply H.
Qed.

Lemma decode_group (a b c : Z) (tail : list ascii) (bs : list Z) :
  0 <= a < 256 -> 0 <= b < 256 -> 0 <= c < 256 ->
  b64decode_chars tail = Some bs ->
  b64decode_chars (b64encode_chars [a; b; c] ++ tail) = Some (a :: b :: c :: bs).
Proof.
  intros Ha Hb Hc Ht. cbn [b64encode_chars app].
  rewrite pack3 by assumption. set (n := a * 65536 + b * 256 + c).
  cbn [b64decode_chars].
  destruct (b64_char_index (Z.shiftr n 18)) as [-> _].
  destruct (b64_char_index (Z.shiftr n 12)) as [-> _].
  destruct (b64_char_index (Z.shiftr n 6)) as [-> _].
  destruct (b64_char_index n) as [-> ->]. rewrite Ht.
  rewrite !Z.shiftr_div_pow2 by lia.
  change (2 ^ 18) with 262144. change (2 ^ 12) with 4096. change (2 ^ 6) with 64.
  unfold unpack, octet_at.
  rewrite pack4 by (repeat split; apply Z.mod_pos_bound; lia).
  rewrite !octet, !Z.shiftr_div_pow2 by lia.
  change (2 ^ 16) with 65536. change (2 ^ 8) with 256. change (2 ^ 0) with 1.
  assert (E : (n / 262144) mod 64 * 262144 + (n / 4096) mod 64 * 4096
              + (n / 64) mod 64 * 64 + n mod 64 = n)
    by (subst n; Z.to_euclidean_division_equations; lia).
  rewrite E. subst n. repeat f_equal; Z.to_euclidean_division_equations; lia.
Qed.

Lemma decode_last_two (a b : Z) :
  0 <= a < 256 -> 0 <= b < 256 ->
  b64decode_chars (b64encode_chars [a; b]) = Some [a; b].
Proof.
  intros Ha Hb. cbn [b64encode_chars].
  rewrite <- (Z.lor_0_r (Z.lor (Z.shiftl a 16) (Z.shiftl b 8))), pack3 by lia.
  set (n := a * 65536 + b * 256 + 0).
  cbn [b64decode_chars].
  destruct (b64_char_index (Z.shiftr n 18)) as [-> _].
  destruct (b64_char_index (Z.shiftr n 12)) as [-> _].
  destruct (b64_char_index (Z.shiftr n 6)) as [-> ->].
  change (Ascii.eqb "=" "=") with true. cbv iota.
  rewrite !Z.shiftr_div_pow2 by lia.
  change (2 ^ 18) with 262144. change (2 ^ 12) with 4096. change (2 ^ 6) with 64.
  unfold unpack, octet_at.
  rewrite pack4 by (repeat split; try lia; apply Z.mod_pos_bound; lia).
  rewrite !octet, !Z.shiftr_div_pow2 by lia.
  change (2 ^ 16) with 65536. change (2 ^ 8) with 256.
  subst n. repeat f_equal; Z.to_euclidean_division_equations; lia.
Qed.

Lemma decode_last_one (a : Z) :
  0 <= a < 256 -> b64decode_chars (b64encode_chars [a]) = Some [a].
Proof.
  intros Ha. cbn [b64encode_chars].
  replace (Z.shiftl a 16) with (a * 65536 + 0 * 256 + 0)
    by (rewrite Z.shiftl_mul_pow2 by lia; change (2 ^ 16) with 65536; lia).
  set (n := a * 65536 + 0 * 256 + 0).
  cbn [b64decode_chars].
  destruct (b64_char_index (Z.shiftr n 18)) as [-> _].
  destruct (b64_char_index (Z.shiftr n 12)) as [-> _].
  change (Ascii.eqb "=" "=") with true. cbv iota.
  rewrite !Z.shiftr_div_pow2 by lia.
  change (2 ^ 18) with 262144. change (2 ^ 12) with 4096.
  unfold unpack, octet_at.
  rewrite pack4 by (repeat split; try lia; apply Z.mod_pos_bound; lia).
  rewrite !octet, !Z.shiftr_div_pow2 by lia.
  change (2 ^ 16) with 65536.
  subst n. repeat f_equal; Z.to_euclidean_division_equations; lia.
Qed.

(** Decoding undoes encoding, for every sequence of byte values. *)
Lemma b64decode_encode_chars (bs : list Z) :
  Forall (fun b => 0 <= b < 256) bs ->
  b64decode_chars (b64encode_chars bs) = Some bs.
Proof.
  induction bs as [|a|a b|a b c rest IH] using triple_ind; intros H.
  - reflexivity.
  - inversion H; subst. now apply decode_last_one.
  - inversion H as [|? ? Ha H']; subst. inversion H'; subst. now apply decode_last_two.
  - inversion H as [|? ? Ha H1]; subst. inversion H1 as [|? ? Hb H2]; subst.
    inversion H2 as [|? ? Hc H3]; subst.
    change (b64encode_chars (a :: b :: c :: rest))
      with (b64encode_chars [a; b; c] ++ b64encode_chars rest)%list.
    apply decode_group; auto.
Qed.

Lemma b64decode_encode (content : list byte) :
  b64decode (b64encode content) = Some content.
Proof.
  unfold b64decode, b64encode, chars.
  rewrite list_ascii_of_string_of_list_ascii, b64decode_encode_chars.
  - simpl. f_equal. rewrite List.map_map.
    rewrite <- (List.map_id content) at 2. apply List.map_ext. intros b.
    unfold byte_of_Z. now rewrite N2Z.id, Byte.of_to_N.
  - apply Forall_forall. intros z Hz. apply List.in_map_iff in Hz as (b & <- & _).
    pose proof (Byte.to_N_bounded b). lia.
Qed.

(** X18.  An image the resolver returns is the body of a 200 answer to the
    request for the first [.jpeg] link, written as a data reference; decoding
    its base64 part gives back the bytes of that answer. *)
Theorem image_data_decodes (env : environment) (id : option string) (uri : string) :
  get_thumbnail_image_data env id = Some uri ->
  exists links url rest r,
    get_dataset_download_links env id = Ok links
    /\ jpeg_urls links = url :: rest
    /\ requests_get env url = Ok r
    /\ status_code r = 200
    /\ uri = "data:" ++ COALESCE (content_type_header r) "image/jpeg" ++ ";base64,"
               ++ b64encode (content r)
    /\ b64decode (b64encode (content r)) = Some (content r).
Proof.
  unfold get_thumbnail_image_data.
  destruct (get_dataset_download_links env id) as [links|]; [|discriminate].
  destruct (jpeg_urls links) as [|url rest] eqn:Hu; [discriminate|].
  destruct (String.eqb url ""); [discriminate|].
  destruct (requests_get env url) as [r|] eqn:Hr; [|discriminate].
  destruct (Z.eqb_spec (status_code r) 200) as [Hs|]; [|discriminate].
  intros [= <-]. exists links, url, rest, r.
  split; [reflexivity|]. split; [exact Hu|]. split; [exact Hr|]. split; [exact Hs|].
  split; [reflexivity|]. apply b64decode_encode.
Qed.

Lemma image_data_decodes_witness :
  exists r,
    requests_get (an_environment undated_tables 200) "https://store/well.jpeg" = Ok r
    /\ b64decode "TWFu" = Some (content r).
Proof.
  destruct (image_data_decodes (an_environment undated_tables 200) None
              "data:image/jpeg;base64,TWFu" eq_refl)
    as (links & url & rest & r & Hl & Hu & Hr & _ & _ & Hd).
  injection Hl as <-. injection Hu as <- _.
  exists r. split; [exact Hr|].
  simpl in Hr. injection Hr as <-. reflexivity.
Defined.

(** ** The thumbnail and the datasets' project *)

Lemma inner_join_map_right {A B} (on : A -> B -> bool) (g : B -> B) (l : list A) (r : list B) :
  (forall a b, on a (g b) = on a b) ->
  inner_join on l (List.map g r)
  = List.map (fun x => (fst x, g (snd x))) (inner_join on l r).
Proof.
  intros H. unfold inner_join. induction l as [|a l IH]; simpl; [reflexivity|].
  rewrite List.map_app, IH. f_equal.
  rewrite List.filter_map_swap, !List.map_map.
  rewrite (List.filter_ext _ (on a)) by (intros b; apply H). reflexivity.
Qed.

Lemma collect_map {A B C} (f : B -> result C) (h : A -> B) (l : list A) :
  collect f (List.map h l) = collect (fun a => f (h a)) l.
Proof. induction l as [|a l IH]; simpl; [reflexivity|]. now rewrite IH. Qed.

Lemma collect_ext {A B} (f g : A -> result B) (l : list A) :
  (forall a, f a = g a) -> collect f l = collect g l.
Proof. intros H. induction l as [|a l IH]; simpl; [reflexivity|]. now rewrite H, IH. Qed.

(** X19.  The thumbnail query filters on the sample's project only: filing
    the datasets under any other project, or under none, does not change
    its result, while [sample_well_count] counts datasets of the fixed
    project only. *)
Theorem thumbnail_ignores_dataset_project
  (PARSE_TIMESTAMP : string -> string -> option Z)
  (wh : warehouse) (today : Z) (p : dataset -> option string) :
  query_thumbnail_of_day PARSE_TIMESTAMP (refile_datasets p wh) today
  = query_thumbnail_of_day PARSE_TIMESTAMP wh today
  /\ ((forall d, In d (dataset_table wh) -> p d <> Some PROJECT_ID) ->
      query_sample_well (refile_datasets p wh) = 0).
Proof.
  split.
  - unfold query_thumbnail_of_day, thumbnail_join. cbn [refile_datasets sample_table
      dataset_table datasetsamplelink_table].
    rewrite inner_join_map_right by reflexivity.
    rewrite List.filter_map_swap, collect_map.
    rewrite (List.filter_ext _ thumbnail_where) by (intros [[s l] d]; reflexivity).
    rewrite (collect_ext _ (thumbnail_select PARSE_TIMESTAMP today))
      by (intros [[s l] d]; reflexivity).
    reflexivity.
  - intros H. unfold query_sample_well. cbn [refile_datasets dataset_table].
    rewrite filter_nil; [reflexivity|].
    intros d Hd. apply List.in_map_iff in Hd as (d0 & <- & Hd0).
    unfold measurement_like, in_project_dataset, sql_eq. cbn [with_project d_project_id].
    specialize (H d0 Hd0). destruct (p d0) as [q|]; [|reflexivity].
    destruct (String.eqb_spec q PROJECT_ID) as [->|]; [contradiction|reflexivity].
Qed.

Lemma thumbnail_ignores_dataset_project_witness :
  query_sample_well (refile_datasets (fun _ => None) zoned_timestamp_tables) = 0
  /\ exists first,
       query_thumbnail_of_day bq_parse_timestamp
         (refile_datasets (fun _ => None) zoned_timestamp_tables) 19844 = Ok [first]
       /\ t_dataset_id first = 7.
Proof.
  destruct (thumbnail_ignores_dataset_project bq_parse_timestamp zoned_timestamp_tables
              19844 (fun _ => None)) as [Hq Hc].
  split; [apply Hc; discriminate|].
  rewrite Hq. eexists. split; reflexivity.
Defined.
